(** * PharmaSoft storefront: cart, orders, addresses and session rules

    A shallow embedding of [src/script.js] (the browser script and the
    Express/Mongoose server that follows it in the same file), and the
    properties of its cart totals, cart quantities, default-address
    bookkeeping, order snapshots and session handling.

    Modelling conventions.
    - A JavaScript number is an IEEE 754 double: Rocq's primitive [float],
      whose [+], [*], [<] and [=?] are the machine's operations, rounding,
      [NaN], the infinities and the two zeros included. A number in a
      request body is a double that JSON can carry.
    - A JavaScript string is a [string] whose characters are code units
      below 256.
    - Request bodies are typed as the Mongoose schema types them: a field is
      absent ([None]) or carries a value of the schema's type, which is what
      the script's own pages send. What Mongoose's casting makes of a value
      of another type is not modelled.
    - The user document is loaded by [User.findById] for every request and
      written back by [save()]: the store is a finite map from user id to
      document value. *)

From Stdlib Require Import ZArith QArith Qabs Qround Floats.
From Stdlib Require Import String Ascii DecimalString.
From stdpp Require Import base numbers strings list gmap sorting.

Local Open Scope Z_scope.

(** A decimal literal of the script denotes the double nearest to it, as it
    does here. *)
Set Warnings "-inexact-float".

(** ** JavaScript primitives used by the script *)
Module Js.

Abbreviation number := float.

(** An integer literal of the script: the double nearest to it. *)
Definition num (z : Z) : number := SF2Prim (binary_normalize prec emax z 0 false).

(** The value of a double that is neither [NaN] nor infinite: a finite
    double with sign [s], mantissa [m] and exponent [e] is [± m · 2^e]. *)
Definition exact (x : number) : option Q :=
  match Prim2SF x with
  | S754_zero _ => Some 0%Q
  | S754_finite s m e =>
      Some match e with
           | Zneg k => cond_Zopp s (Zpos m) # 2 ^ k
           | _ => inject_Z (cond_Zopp s (Zpos m) * 2 ^ e)
           end
  | _ => None
  end.

(** The text [x.toFixed(2)]: a sign and a count of hundredths, printed with
    two digits after the point; or, for [NaN], an infinity and a number of
    magnitude [10^21] or more, the text of [String(x)], kept as [x]. *)
Inductive Fixed2 :=
| Decimal (negative : bool) (hundredths : Z)
| NotDecimal (x : number).

(** [Number.prototype.toFixed(2)]: the sign is split off first (a zero of
    either sign has none); the count of hundredths is the integer [n] for
    which [n / 100] minus the magnitude is as close to zero as possible,
    the larger [n] on a tie. *)
Definition toFixed2 (x : number) : Fixed2 :=
  match exact x with
  | Some q =>
      if Qle_bool (inject_Z (10 ^ 21)) (Qabs q) then NotDecimal x
      else Decimal (negb (Qle_bool 0 q)) (Qfloor (100 * Qabs q + (1 # 2)))
  | None => NotDecimal x
  end.

(** The double nearest to [± n / 100] (ties to even), which is what
    [parseFloat] makes of the decimal text; [-0.00] reads as [-0]. *)
Definition of_hundredths (negative : bool) (n : Z) : number :=
  match n with
  | Zpos p => SF2Prim (SFdiv prec emax (S754_finite negative p 0) (S754_finite false 100 0))
  | _ => if negative then (- 0)%float else 0%float
  end.

(** [parseFloat] on a text of [toFixed(2)]; [String(x)] reads back as [x]. *)
Definition parseFloat (t : Fixed2) : number :=
  match t with
  | Decimal negative n => of_hundredths negative n
  | NotDecimal x => x
  end.

(** [parseFloat(x.toFixed(2))] *)
Definition parseFloat_toFixed2 (x : number) : number := parseFloat (toFixed2 x).

(** [!s] is true for the empty string and for [undefined]. *)
Definition truthy_string (s : option string) : bool :=
  match s with
  | Some s => negb (String.eqb s "")
  | None => false
  end.

(** [!x] for an optional number: [undefined], the zeros and [NaN] are
    falsy. *)
Definition truthy_number (x : option number) : bool :=
  match x with
  | Some q => negb ((q =? num 0)%float || is_nan q)
  | None => false
  end.

Definition truthy_bool (b : option bool) : bool :=
  match b with
  | Some b => b
  | None => false
  end.

(** [\s] and the characters removed by [trim()], among code units < 256:
    TAB, LF, VT, FF, CR, SPACE, NBSP. *)
Definition is_space (c : ascii) : bool :=
  let n := nat_of_ascii c in
  ((9 <=? n) && (n <=? 13) || (n =? 32) || (n =? 160))%nat.

(** [[0-9]] *)
Definition is_digit (c : ascii) : bool :=
  let n := nat_of_ascii c in ((48 <=? n) && (n <=? 57))%nat.

Fixpoint trimStart (s : string) : string :=
  match s with
  | String c s' => if is_space c then trimStart s' else s
  | EmptyString => EmptyString
  end.

Definition string_rev (s : string) : string :=
  string_of_list_ascii (rev (list_ascii_of_string s)).

Definition trim (s : string) : string :=
  string_rev (trimStart (string_rev (trimStart s))).

(** [s.replace(/\s/g, '')] *)
Definition remove_spaces (s : string) : string :=
  string_of_list_ascii (filter (λ c, negb (is_space c)) (list_ascii_of_string s)).

(** [/^[0-9]{n}$/.test(s)] *)
Definition test_digits (n : nat) (s : string) : bool :=
  (String.length s =? n)%nat && forallb is_digit (list_ascii_of_string s).

(** [s.split(' ')] *)
Fixpoint split_space_aux (cur : list ascii) (s : string) : list string :=
  match s with
  | EmptyString => [string_of_list_ascii (rev cur)]
  | String c s' =>
      if Ascii.eqb c " "%char
      then string_of_list_ascii (rev cur) :: split_space_aux [] s'
      else split_space_aux (c :: cur) s'
  end.

Definition split_space (s : string) : list string := split_space_aux [] s.

(** [idx.toString()] for an array index *)
Definition index_toString (i : nat) : string :=
  NilZero.string_of_uint (Nat.to_uint i).

(** [Array.prototype.findIndex] with a callback over element and index;
    [None] stands for [-1]. *)
Fixpoint findIndex_from {A} (p : A → nat → bool) (i : nat) (l : list A) : option nat :=
  match l with
  | [] => None
  | x :: l' => if p x i then Some i else findIndex_from p (S i) l'
  end.

Definition findIndex {A} (p : A → nat → bool) (l : list A) : option nat :=
  findIndex_from p 0%nat l.

(** [Array.prototype.filter] with a callback over element and index *)
Fixpoint filter_from {A} (p : A → nat → bool) (i : nat) (l : list A) : list A :=
  match l with
  | [] => []
  | x :: l' => if p x i then x :: filter_from p (S i) l' else filter_from p (S i) l'
  end.

Definition filteri {A} (p : A → nat → bool) (l : list A) : list A :=
  filter_from p 0%nat l.

End Js.

(** ** The REST service (second part of [src/script.js]) *)
Module Server.

(** *** Schemas *)

Record CartItem := {
  item_name : string;
  item_price : Js.number;
  item_quantity : Js.number;
  item_image : option string
}.

Record AddressData := {
  addr_name : string;
  addr_phone : string;
  addr_address : string;
  addr_city : string;
  addr_state : string;
  addr_pincode : string;
  addr_isDefault : bool
}.

(** A stored address sub-document: the fields and Mongoose's [_id]. *)
Record Address := {
  addr_id : string;
  addr_data : AddressData
}.

Record Order := {
  orderId : string;
  items : list CartItem;
  total : Js.number;
  deliveryAddress : option Address;
  paymentMethod : string;
  paymentId : option string;
  paymentStatus : string;
  order_status : string;
  createdAt : Z
}.

Record User := {
  email : string;
  password : string;
  user_name : string;
  cart : list CartItem;
  orders : list Order;
  addresses : list Address
}.

Definition set_cart (c : list CartItem) (u : User) : User :=
  {| email := email u; password := password u; user_name := user_name u;
     cart := c; orders := orders u; addresses := addresses u |}.

Definition set_orders (o : list Order) (u : User) : User :=
  {| email := email u; password := password u; user_name := user_name u;
     cart := cart u; orders := o; addresses := addresses u |}.

Definition set_addresses (a : list Address) (u : User) : User :=
  {| email := email u; password := password u; user_name := user_name u;
     cart := cart u; orders := orders u; addresses := a |}.

Definition set_quantity (q : Js.number) (i : CartItem) : CartItem :=
  {| item_name := item_name i; item_price := item_price i;
     item_quantity := q; item_image := item_image i |}.

Definition set_isDefault (b : bool) (a : Address) : Address :=
  {| addr_id := addr_id a;
     addr_data :=
       {| addr_name := addr_name (addr_data a); addr_phone := addr_phone (addr_data a);
          addr_address := addr_address (addr_data a); addr_city := addr_city (addr_data a);
          addr_state := addr_state (addr_data a); addr_pincode := addr_pincode (addr_data a);
          addr_isDefault := b |} |}.

Definition isDefault (a : Address) : bool := addr_isDefault (addr_data a).

(** *** Responses: [res.status(n).json(body)] *)

Record Totals := {
  subtotal : Js.number;
  deliveryFee : Js.number;
  tax : Js.number;
  totals_total : Js.number
}.

Inductive Body :=
| JError (error : string)
| JAuth (token : string) (id email name : string)
| JCart (cart : list CartItem) (calculations : Totals)
| JOrder (order : Order)
| JOrders (orders : list Order)
| JAddresses (addresses : list Address)
| JNewAddress (address : AddressData)
| JAddress (address : Address)
| JSuccess.

Record Response := { status : nat; body : Body }.

Definition ok (b : Body) : Response := {| status := 200; body := b |}.
Definition fail (code : nat) (msg : string) : Response :=
  {| status := code; body := JError msg |}.

(** What a handler did: the document it saved, if it saved, and its reply. *)
Record Outcome := { saved : option User; response : Response }.

Definition reply (r : Response) : Outcome := {| saved := None; response := r |}.
Definition save (u : User) (r : Response) : Outcome := {| saved := Some u; response := r |}.

(** *** Helper functions *)

Definition line_total (item : CartItem) : Js.number :=
  (item_price item * item_quantity item)%float.

Definition TAX_RATE : Js.number := 0.05%float.

(** [cartItems.reduce((sum, item) => sum + (item.price * item.quantity), 0)] *)
Definition raw_subtotal (cartItems : list CartItem) : Js.number :=
  fold_left (λ sum item, (sum + line_total item)%float) cartItems (Js.num 0).

Definition raw_deliveryFee (subtotal : Js.number) : Js.number :=
  if (Js.num 500 <? subtotal)%float then Js.num 0 else Js.num 50.

Definition calculateCartTotal (cartItems : list CartItem) : Totals :=
  let subtotal := raw_subtotal cartItems in
  let deliveryFee := raw_deliveryFee subtotal in
  let tax := (subtotal * TAX_RATE)%float in
  let total := (subtotal + deliveryFee + tax)%float in
  {| subtotal := Js.parseFloat_toFixed2 subtotal;
     deliveryFee := Js.parseFloat_toFixed2 deliveryFee;
     tax := Js.parseFloat_toFixed2 tax;
     totals_total := Js.parseFloat_toFixed2 total |}.

(** What each request draws from its surroundings: the clock, the random
    suffix of [generateOrderId] (already cut to six upper-case base-36
    digits) and the [_id] Mongoose gives a new document. *)
Record Env := { now : Z; random36 : string; new_id : string }.

Definition generateOrderId (env : Env) : string :=
  "ORD-" +:+ NilZero.string_of_int (Z.to_int (now env)) +:+ "-" +:+ random36 env.

(** *** Cart routes *)

Definition get_cart (u : User) : Outcome :=
  reply (ok (JCart (cart u) (calculateCartTotal (cart u)))).

Record AddBody := {
  add_name : option string;
  add_price : option Js.number;
  add_image : option string
}.

Definition post_cart_add (b : AddBody) (u : User) : Outcome :=
  match add_name b, add_price b with
  | Some name, Some price =>
      if negb (Js.truthy_string (Some name)) || negb (Js.truthy_number (Some price))
      then reply (fail 400 "Invalid product data")
      else
        let cart' :=
          match Js.findIndex (λ item _, String.eqb (item_name item) name) (cart u) with
          | Some existingItemIndex =>
              alter (λ item, set_quantity (item_quantity item + Js.num 1)%float item)
                    existingItemIndex (cart u)
          | None =>
              cart u ++ [ {| item_name := name; item_price := price;
                             item_image := add_image b; item_quantity := Js.num 1 |} ]
          end in
        let u' := set_cart cart' u in
        save u' (ok (JCart (cart u') (calculateCartTotal (cart u'))))
  | _, _ => reply (fail 400 "Invalid product data")
  end.

(** [find] returns the first match, which is then assigned to. *)
Fixpoint assign_first {A} (p : A → bool) (f : A → A) (l : list A) : list A :=
  match l with
  | [] => []
  | x :: l' => if p x then f x :: l' else x :: assign_first p f l'
  end.

Record UpdateBody := { upd_item : string; upd_quantity : Js.number }.

Definition put_cart_update (b : UpdateBody) (u : User) : Outcome :=
  let name := upd_item b in
  let quantity := upd_quantity b in
  let cart' :=
    if (quantity =? Js.num 0)%float
    then filter (λ item, item_name item ≠ name) (cart u)
    else assign_first (λ item, String.eqb (item_name item) name)
                      (set_quantity quantity) (cart u) in
  let u' := set_cart cart' u in
  save u' (ok (JCart (cart u') (calculateCartTotal (cart u')))).

Definition delete_cart_remove (name : string) (u : User) : Outcome :=
  let u' := set_cart (filter (λ item, item_name item ≠ name) (cart u)) u in
  save u' (ok (JCart (cart u') (calculateCartTotal (cart u')))).

Definition ZERO_TOTALS : Totals :=
  {| subtotal := Js.num 0; deliveryFee := Js.num 0; tax := Js.num 0;
     totals_total := Js.num 0 |}.

Definition delete_cart_clear (u : User) : Outcome :=
  let u' := set_cart [] u in
  save u' (ok (JCart [] ZERO_TOTALS)).

(** *** Order routes *)

Record OrderBody := {
  ob_paymentMethod : option string;
  ob_paymentId : option string;
  ob_deliveryAddress : option Address
}.

Definition or_string (s : option string) (d : string) : string :=
  if Js.truthy_string s then default d s else d.

(** [[...req.user.cart]] and the address found by [find] are the live
    sub-documents of [req.user]; the handler writes to neither after the
    order is built, and [save()] stores the order by value, so a later
    request, which loads the document anew, holds an order that shares
    nothing with the cart or the addresses. *)
Definition post_orders (env : Env) (b : OrderBody) (u : User) : Outcome :=
  if (length (cart u) =? 0)%nat
  then reply (fail 400 "Cart is empty")
  else
    let calculations := calculateCartTotal (cart u) in
    let order :=
      {| orderId := generateOrderId env;
         items := cart u;
         total := totals_total calculations;
         deliveryAddress :=
           match ob_deliveryAddress b with
           | Some a => Some a
           | None => List.find isDefault (addresses u)
           end;
         paymentMethod := or_string (ob_paymentMethod b) "cod";
         paymentId := if Js.truthy_string (ob_paymentId b) then ob_paymentId b else None;
         paymentStatus :=
           if bool_decide (ob_paymentMethod b = Some "cod") then "pending" else "completed";
         order_status := "confirmed";
         createdAt := now env |} in
    let u' := set_cart [] (set_orders (orders u ++ [order]) u) in
    save u' (ok (JOrder order)).

(** Insertion of [o] into a list ordered by decreasing [createdAt], ahead
    of the orders of the same date (the sort is stable). *)
Fixpoint insert_by_date (o : Order) (l : list Order) : list Order :=
  match l with
  | [] => [o]
  | x :: l' =>
      if (createdAt x <=? createdAt o)%Z then o :: l else x :: insert_by_date o l'
  end.

(** [orders.sort((a, b) => new Date(b.createdAt) - new Date(a.createdAt))] *)
Definition sort_newest_first (l : list Order) : list Order :=
  fold_right insert_by_date [] l.

Definition get_orders (u : User) : Outcome :=
  reply (ok (JOrders (sort_newest_first (orders u)))).

(** *** Address routes *)

Definition get_addresses (u : User) : Outcome :=
  reply (ok (JAddresses (addresses u))).

Record AddressBody := {
  ab_name : option string;
  ab_phone : option string;
  ab_address : option string;
  ab_city : option string;
  ab_state : option string;
  ab_pincode : option string;
  ab_isDefault : option bool
}.

(** [req.user.addresses.forEach(addr => addr.isDefault = false)] *)
Definition clear_defaults (l : list Address) : list Address :=
  map (set_isDefault false) l.

Definition post_addresses (env : Env) (b : AddressBody) (u : User) : Outcome :=
  match ab_name b, ab_phone b, ab_address b, ab_city b, ab_state b, ab_pincode b with
  | Some name, Some phone, Some address, Some city, Some state, Some pincode =>
      if negb (Js.truthy_string (Some name)) || negb (Js.truthy_string (Some phone))
         || negb (Js.truthy_string (Some address)) || negb (Js.truthy_string (Some city))
         || negb (Js.truthy_string (Some state)) || negb (Js.truthy_string (Some pincode))
      then reply (fail 400 "All address fields required")
      else
        let isDefault := Js.truthy_bool (ab_isDefault b) in
        let addresses1 :=
          if isDefault || (length (addresses u) =? 0)%nat
          then clear_defaults (addresses u)
          else addresses u in
        let newAddress :=
          {| addr_name := Js.trim name;
             addr_phone := Js.trim phone;
             addr_address := Js.trim address;
             addr_city := Js.trim city;
             addr_state := Js.trim state;
             addr_pincode := Js.trim pincode;
             addr_isDefault := isDefault || (length addresses1 =? 0)%nat |} in
        let u' :=
          set_addresses
            (addresses1 ++ [ {| addr_id := new_id env; addr_data := newAddress |} ]) u in
        save u' (ok (JNewAddress newAddress))
  | _, _, _, _, _, _ => reply (fail 400 "All address fields required")
  end.

Record AddressUpdates := {
  au_name : option string;
  au_phone : option string;
  au_address : option string;
  au_city : option string;
  au_state : option string;
  au_pincode : option string;
  au_isDefault : option bool
}.

(** [Object.assign(address, updates)]: every key present in [updates]
    overwrites the field. *)
Definition assign_updates (upd : AddressUpdates) (a : Address) : Address :=
  let d := addr_data a in
  {| addr_id := addr_id a;
     addr_data :=
       {| addr_name := default (addr_name d) (au_name upd);
          addr_phone := default (addr_phone d) (au_phone upd);
          addr_address := default (addr_address d) (au_address upd);
          addr_city := default (addr_city d) (au_city upd);
          addr_state := default (addr_state d) (au_state upd);
          addr_pincode := default (addr_pincode d) (au_pincode upd);
          addr_isDefault := default (addr_isDefault d) (au_isDefault upd) |} |}.

(** [(addr, idx) => idx.toString() === id || addr._id?.toString() === id] *)
Definition matches_id (id : string) (addr : Address) (idx : nat) : bool :=
  String.eqb (Js.index_toString idx) id || String.eqb (addr_id addr) id.

(** [Object.assign] on [addresses[addressIndex]] throws a [TypeError] when
    that element is [undefined]; the handler's [catch] answers 500. *)
Definition put_address (id : string) (updates : AddressUpdates) (u : User) : Outcome :=
  match Js.findIndex (matches_id id) (addresses u) with
  | None => reply (fail 404 "Address not found")
  | Some addressIndex =>
      let addresses1 :=
        if Js.truthy_bool (au_isDefault updates)
        then clear_defaults (addresses u)
        else addresses u in
      match addresses1 !! addressIndex with
      | Some a =>
          let a' := assign_updates updates a in
          let u' := set_addresses (<[addressIndex := a']> addresses1) u in
          save u' (ok (JAddress a'))
      | None => reply (fail 500 "Failed to update address")
      end
  end.

Definition delete_address (id : string) (u : User) : Outcome :=
  let u' :=
    set_addresses
      (Js.filteri (λ addr idx, negb (matches_id id addr idx)) (addresses u)) u in
  save u' (ok JSuccess).

(** *** Requests *)

Record RegisterBody := {
  rb_email : option string;
  rb_password : option string;
  rb_name : option string
}.

Record LoginBody := {
  lb_email : option string;
  lb_password : option string
}.

Inductive Route :=
| PostAuthRegister (b : RegisterBody)
| PostAuthLogin (b : LoginBody)
| GetCart
| PostCartAdd (b : AddBody)
| PutCartUpdate (b : UpdateBody)
| DeleteCartRemove (name : string)
| DeleteCartClear
| PostOrders (b : OrderBody)
| GetOrders
| GetAddresses
| PostAddresses (b : AddressBody)
| PutAddress (id : string) (updates : AddressUpdates)
| DeleteAddress (id : string).

Record Request := { authorization : option string; route : Route }.

(** [/^[^\s@]+@[^\s@]+\.[^\s@]+$/.test(email)] *)
Definition email_char (c : ascii) : bool :=
  negb (Js.is_space c) && negb (Ascii.eqb c "@"%char).

Fixpoint split_at_sign (s : list ascii) : option (list ascii * list ascii) :=
  match s with
  | [] => None
  | c :: s' =>
      if Ascii.eqb c "@"%char then Some ([], s')
      else match split_at_sign s' with
           | Some (a, d) => Some (c :: a, d)
           | None => None
           end
  end.

Definition test_email (email : string) : bool :=
  match split_at_sign (list_ascii_of_string email) with
  | Some (a, d) =>
      negb (length a =? 0)%nat && forallb email_char a && forallb email_char d
      && match d with
         | [] => false
         | _ :: t => existsb (λ c, Ascii.eqb c "."%char) (removelast t)
         end
  | None => false
  end.

(** The store: [User] documents by [_id]. *)
Abbreviation DB := (gmap string User).

(** The [required: true] of [email], [password] and [name] in [userSchema]:
    Mongoose's validation turns down a document in which one of them is the
    empty string. *)
Definition required_fields (u : User) : bool :=
  Js.truthy_string (Some (email u)) && Js.truthy_string (Some (password u))
  && Js.truthy_string (Some (user_name u)).

(** [User.findOne({ email })] *)
Definition findOne_email (e : string) (db : DB) : option (string * User) :=
  List.find (λ p, String.eqb (email (snd p)) e) (map_to_list db).

Section Handlers.

(** The libraries the server calls: [jsonwebtoken], [bcryptjs] and
    [String.prototype.toLowerCase]. [jwt_verify] is [None] where
    [jwt.verify] throws (a malformed, forged or expired token). *)
Variable jwt_sign : string → Z → string.
Variable jwt_verify : string → Z → option string.
Variable bcrypt_hash : string → string.
Variable bcrypt_compare : string → string → bool.
Variable toLowerCase : string → string.

Inductive AuthResult :=
| Next (userId : string) (user : User)
| Reject (r : Response).

Definition bearer_token (authHeader : option string) : option string :=
  match authHeader with
  | Some h => if Js.truthy_string (Some h) then Js.split_space h !! 1%nat else Some h
  | None => None
  end.

Definition authenticateToken (env : Env) (authHeader : option string) (db : DB)
  : AuthResult :=
  let token := bearer_token authHeader in
  if negb (Js.truthy_string token)
  then Reject (fail 401 "Authentication required")
  else
    match token ≫= (λ t, jwt_verify t (now env)) with
    | Some userId =>
        match db !! userId with
        | Some user => Next userId user
        | None => Reject (fail 401 "User not found")
        end
    | None => Reject (fail 403 "Invalid or expired token")
    end.

(** [User.create] rejects when the document fails the schema's validation
    (here: a name that is blank, which [trim()] makes empty) or when the
    [_id] is taken; the handler's [catch] answers 500 and nothing is
    stored. *)
Definition post_auth_register (env : Env) (b : RegisterBody) (db : DB) : DB * Response :=
  match rb_email b, rb_password b, rb_name b with
  | Some email, Some password, Some name =>
      if negb (Js.truthy_string (Some email)) || negb (Js.truthy_string (Some password))
         || negb (Js.truthy_string (Some name))
      then (db, fail 400 "All fields required")
      else if (String.length password <? 6)%nat
      then (db, fail 400 "Password must be at least 6 characters")
      else if negb (test_email email)
      then (db, fail 400 "Please enter a valid email address")
      else
        match findOne_email (toLowerCase email) db with
        | Some _ => (db, fail 400 "Email already registered")
        | None =>
            let user :=
              {| email := toLowerCase email;
                 password := bcrypt_hash password;
                 user_name := Js.trim name;
                 cart := []; orders := []; addresses := [] |} in
            if negb (required_fields user)
            then (db, fail 500 "Registration failed")
            else
              match db !! new_id env with
              | Some _ => (db, fail 500 "Registration failed")
              | None =>
                  (<[new_id env := user]> db,
                   ok (JAuth (jwt_sign (new_id env) (now env))
                             (new_id env) (Server.email user) (user_name user)))
              end
        end
  | _, _, _ => (db, fail 400 "All fields required")
  end.

Definition post_auth_login (env : Env) (b : LoginBody) (db : DB) : DB * Response :=
  match lb_email b, lb_password b with
  | Some email, Some password =>
      if negb (Js.truthy_string (Some email)) || negb (Js.truthy_string (Some password))
      then (db, fail 400 "Email and password required")
      else
        match findOne_email (toLowerCase email) db with
        | None => (db, fail 401 "Invalid credentials")
        | Some (id, user) =>
            if negb (bcrypt_compare password (Server.password user))
            then (db, fail 401 "Invalid credentials")
            else (db, ok (JAuth (jwt_sign id (now env)) id
                                (Server.email user) (user_name user)))
        end
  | _, _ => (db, fail 400 "Email and password required")
  end.

(** A route behind [authenticateToken]: the handler runs on [req.user]
    and the document it saves replaces the stored one. *)
Definition protected (h : User → Outcome) (env : Env) (authHeader : option string)
    (db : DB) : DB * Response :=
  match authenticateToken env authHeader db with
  | Reject r => (db, r)
  | Next userId user =>
      let o := h user in
      (match saved o with
       | Some user' => <[userId := user']> db
       | None => db
       end, response o)
  end.

(** One request against the store. *)
Definition serve (env : Env) (req : Request) (db : DB) : DB * Response :=
  let auth h := protected h env (authorization req) db in
  match route req with
  | PostAuthRegister b => post_auth_register env b db
  | PostAuthLogin b => post_auth_login env b db
  | GetCart => auth get_cart
  | PostCartAdd b => auth (post_cart_add b)
  | PutCartUpdate b => auth (put_cart_update b)
  | DeleteCartRemove name => auth (delete_cart_remove name)
  | DeleteCartClear => auth delete_cart_clear
  | PostOrders b => auth (post_orders env b)
  | GetOrders => auth get_orders
  | GetAddresses => auth get_addresses
  | PostAddresses b => auth (post_addresses env b)
  | PutAddress id updates => auth (put_address id updates)
  | DeleteAddress id => auth (delete_address id)
  end.

(** A sequence of requests, each with what it draws from its surroundings. *)
Definition serve_all (reqs : list (Env * Request)) (db : DB) : DB :=
  fold_left (λ db er, fst (serve (fst er) (snd er) db)) reqs db.

End Handlers.

End Server.

(** ** The browser script (first part of [src/script.js]) *)
Module Client.
Import Server.

(** *** Calls to the service

    An [async] function is a tree: it returns, or it awaits [fetch] and
    goes on with what [fetch] gave. [OffProtocol] closes the branches where
    a 2xx reply does not have the shape the route's handler sends; what the
    script does with such a reply is left out. *)
Inductive FetchResult :=
| NetworkError (message : string)
| Http (status : nat) (json : bool) (data : Body).

Inductive Prog (A : Type) :=
| Ret (a : A)
| Fetch (req : Request) (k : FetchResult → Prog A)
| OffProtocol.
Arguments Ret {A} a.
Arguments Fetch {A} req k.
Arguments OffProtocol {A}.

Fixpoint bind {A B} (p : Prog A) (f : A → Prog B) : Prog B :=
  match p with
  | Ret a => f a
  | Fetch req k => Fetch req (λ r, bind (k r) f)
  | OffProtocol => OffProtocol
  end.

#[export] Instance Prog_ret : MRet Prog := @Ret.
#[export] Instance Prog_bind : MBind Prog := λ A B f p, bind p f.

(** Run a tree against the replies the network gives, in order; the result
    comes with the requests that were sent and the replies left over. *)
Fixpoint run {A} (p : Prog A) (replies : list FetchResult)
    : option (A * list Request * list FetchResult) :=
  match p with
  | Ret a => Some (a, [], replies)
  | Fetch req k =>
      match replies with
      | r :: replies' =>
          match run (k r) replies' with
          | Some (a, sent, unread) => Some (a, req :: sent, unread)
          | None => None
          end
      | [] => None
      end
  | OffProtocol => None
  end.

(** Run a tree against the service itself. *)
Fixpoint exec {A} (serve : Env → Request → DB → DB * Response)
    (p : Prog A) (envs : list Env) (db : DB) : option (A * DB) :=
  match p with
  | Ret a => Some (a, db)
  | Fetch req k =>
      match envs with
      | env :: envs' =>
          let '(db', r) := serve env req db in
          exec serve (k (Http (status r) true (body r))) envs' db'
      | [] => None
      end
  | OffProtocol => None
  end.

(** *** State of the page *)

Definition TOKEN : string := "pharmasoft_token".
Definition USER : string := "pharmasoft_user".
Definition CART_CACHE : string := "pharmasoft_cart_cache".

Record UserInfo := { ui_id : string; ui_email : string; ui_name : string }.

(** Each key of [localStorage] is written by its own setter only, so the
    stored text is kept as the value it serializes. *)
Inductive Stored :=
| StoredToken (token : string)
| StoredUser (user : UserInfo)
| StoredCart (cart : list CartItem).

(** [`₹${x.toFixed(2)}`], or the word [Free]. *)
Inductive MoneyText :=
| Rupees (text : Js.Fixed2)
| Free.

(** The cart page's elements, on pages that have [#cart-items]. *)
Record CartPage := {
  empty_cart_message : bool;
  cart_subtotal : MoneyText;
  cart_delivery : MoneyText;
  cart_tax : MoneyText;
  cart_total : MoneyText;
  checkout_disabled : bool
}.

Record State := {
  localStorage : gmap string Stored;
  cart : list CartItem;
  currentUser : option UserInfo;
  location : string;
  toasts : list (string * string);
  cart_count : Js.number;
  cart_page : option CartPage
}.

Definition set_localStorage (f : gmap string Stored → gmap string Stored) (c : State) :=
  {| localStorage := f (localStorage c); cart := cart c; currentUser := currentUser c;
     location := location c; toasts := toasts c; cart_count := cart_count c;
     cart_page := cart_page c |}.

Definition set_cart (l : list CartItem) (c : State) :=
  {| localStorage := localStorage c; cart := l; currentUser := currentUser c;
     location := location c; toasts := toasts c; cart_count := cart_count c;
     cart_page := cart_page c |}.

Definition set_currentUser (u : option UserInfo) (c : State) :=
  {| localStorage := localStorage c; cart := cart c; currentUser := u;
     location := location c; toasts := toasts c; cart_count := cart_count c;
     cart_page := cart_page c |}.

Definition set_location (href : string) (c : State) :=
  {| localStorage := localStorage c; cart := cart c; currentUser := currentUser c;
     location := href; toasts := toasts c; cart_count := cart_count c;
     cart_page := cart_page c |}.

Definition set_cart_count (n : Js.number) (c : State) :=
  {| localStorage := localStorage c; cart := cart c; currentUser := currentUser c;
     location := location c; toasts := toasts c; cart_count := n;
     cart_page := cart_page c |}.

Definition set_cart_page (pg : option CartPage) (c : State) :=
  {| localStorage := localStorage c; cart := cart c; currentUser := currentUser c;
     location := location c; toasts := toasts c; cart_count := cart_count c;
     cart_page := pg |}.

Definition showToast (message type : string) (c : State) :=
  {| localStorage := localStorage c; cart := cart c; currentUser := currentUser c;
     location := location c; toasts := toasts c ++ [(message, type)];
     cart_count := cart_count c; cart_page := cart_page c |}.

(** *** Authentication module *)

Definition getToken (c : State) : option string :=
  match localStorage c !! TOKEN with
  | Some (StoredToken t) => Some t
  | _ => None
  end.

Definition setToken (token : string) : State → State :=
  set_localStorage (insert TOKEN (StoredToken token)).

Definition removeToken : State → State := set_localStorage (delete TOKEN).

Definition getUser (c : State) : option UserInfo :=
  match localStorage c !! USER with
  | Some (StoredUser u) => Some u
  | _ => None
  end.

Definition setUser (user : UserInfo) : State → State :=
  set_localStorage (insert USER (StoredUser user)).

Definition removeUser : State → State := set_localStorage (delete USER).

Definition isLoggedIn (c : State) : bool := Js.truthy_string (getToken c).

Definition logout (c : State) : State :=
  set_location "index.html"
    (showToast "Logged out successfully" "success"
       (set_localStorage (delete CART_CACHE) (removeUser (removeToken c)))).

(** *** API call handler *)

Inductive ApiResult :=
| Data (data : Body)
| Undefined
| Threw (message : string).

Definition response_ok (status : nat) : bool :=
  ((200 <=? status) && (status <=? 299))%nat.

Definition error_message (status : nat) (data : Body) : string :=
  match data with
  | JError e =>
      if Js.truthy_string (Some e) then e
      else "HTTP error! status: " +:+ Js.index_toString status
  | _ => "HTTP error! status: " +:+ Js.index_toString status
  end.

(** [headers['Authorization']], set when a token is stored. *)
Definition authorization_header (c : State) : option string :=
  match getToken c with
  | Some token =>
      if Js.truthy_string (Some token) then Some ("Bearer " +:+ token) else None
  | None => None
  end.

(** What [apiCall] makes of the outcome of [fetch]. *)
Definition receive (c : State) (response : FetchResult) : State * ApiResult :=
  match response with
  | NetworkError message => (c, Threw message)
  | Http status json data =>
      if negb json
      then (c, Threw "Server returned HTML. Check API configuration.")
      else if negb (response_ok status)
      then
        if (status =? 401)%nat || (status =? 403)%nat
        then (logout (showToast "Session expired. Please login again." "error" c),
              Undefined)
        else (c, Threw (error_message status data))
      else (c, Data data)
  end.

Definition apiCall (endpoint : Route) (c : State) : Prog (State * ApiResult) :=
  Fetch {| authorization := authorization_header c; route := endpoint |}
        (λ response, Ret (receive c response)).

(** [error.message] of the [TypeError] raised by reading a property of
    [undefined] (the wording is the engine's). *)
Definition TYPE_ERROR (property : string) : string :=
  "Cannot read properties of undefined (reading '" +:+ property +:+ "')".

Definition or_message (message fallback : string) : string :=
  if Js.truthy_string (Some message) then message else fallback.

(** *** Cart management *)

Definition getCachedCart (c : State) : list CartItem :=
  match localStorage c !! CART_CACHE with
  | Some (StoredCart l) => l
  | _ => []
  end.

Definition cacheCart (cartData : list CartItem) : State → State :=
  set_localStorage (insert CART_CACHE (StoredCart cartData)).

Definition updateCartCount (c : State) : State :=
  set_cart_count
    (fold_left (λ sum item, (sum + item_quantity item)%float) (cart c) (Js.num 0)) c.

(** The client's totals are not rounded; the page rounds them when it
    prints them. *)
Definition calculateCartTotal (c : State) : Totals :=
  let subtotal :=
    fold_left (λ sum item, (sum + item_price item * item_quantity item)%float)
              (cart c) (Js.num 0) in
  let deliveryFee :=
    if (Js.num 500 <? subtotal)%float then Js.num 0 else Js.num 50 in
  let tax := (subtotal * 0.05)%float in
  let total := (subtotal + deliveryFee + tax)%float in
  {| subtotal := subtotal; deliveryFee := deliveryFee; tax := tax;
     totals_total := total |}.

Definition updateCartDisplay (c : State) : State :=
  match cart_page c with
  | None => c
  | Some pg =>
      if (length (cart c) =? 0)%nat
      then
        set_cart_page
          (Some {| empty_cart_message := true;
                   cart_subtotal := cart_subtotal pg; cart_delivery := cart_delivery pg;
                   cart_tax := cart_tax pg; cart_total := cart_total pg;
                   checkout_disabled := true |}) c
      else
        let totals := calculateCartTotal c in
        set_cart_page
          (Some {| empty_cart_message := false;
                   cart_subtotal := Rupees (Js.toFixed2 (subtotal totals));
                   cart_delivery :=
                     if (deliveryFee totals =? Js.num 0)%float then Free
                     else Rupees (Js.toFixed2 (deliveryFee totals));
                   cart_tax := Rupees (Js.toFixed2 (tax totals));
                   cart_total := Rupees (Js.toFixed2 (totals_total totals));
                   checkout_disabled := false |}) c
  end.

Definition loadCart (c : State) : Prog State :=
  if negb (isLoggedIn c)
  then mret (updateCartCount (set_cart (getCachedCart c) c))
  else
    '(c1, res) ← apiCall GetCart c;
    match res with
    | Data (JCart l _) => mret (updateCartCount (cacheCart l (set_cart l c1)))
    | Data _ => mret (updateCartCount (cacheCart [] (set_cart [] c1)))
    | Undefined | Threw _ => mret (updateCartCount (set_cart (getCachedCart c1) c1))
    end.

Record Product := {
  product_name : string;
  product_price : Js.number;
  product_image : option string
}.

Definition added_message (product : Product) : string :=
  product_name product +:+ " added to cart!".

Definition addToCart (product : Product) (c : State) : Prog State :=
  if negb (isLoggedIn c)
  then
    let same_name item := String.eqb (item_name item) (product_name product) in
    let cart' :=
      match List.find same_name (cart c) with
      | Some _ =>
          assign_first same_name
            (λ item, set_quantity (item_quantity item + Js.num 1)%float item) (cart c)
      | None =>
          cart c ++ [ {| item_name := product_name product;
                         item_price := product_price product;
                         item_image := product_image product;
                         item_quantity := Js.num 1 |} ]
      end in
    mret (showToast (added_message product) "success"
            (updateCartCount (cacheCart cart' (set_cart cart' c))))
  else
    '(c1, res) ← apiCall (PostCartAdd {| add_name := Some (product_name product);
                                         add_price := Some (product_price product);
                                         add_image := product_image product |}) c;
    match res with
    | Data (JCart l _) =>
        mret (showToast (added_message product) "success"
                (updateCartCount (cacheCart l (set_cart l c1))))
    | Data _ => OffProtocol
    | Undefined => mret (showToast (TYPE_ERROR "cart") "error" c1)
    | Threw message => mret (showToast (or_message message "Failed to add to cart") "error" c1)
    end.

Definition removeFromCart (productName : string) (c : State) : Prog State :=
  if negb (isLoggedIn c)
  then
    let cart' := filter (λ item, item_name item ≠ productName) (cart c) in
    mret (showToast "Item removed from cart" "success"
            (updateCartDisplay (updateCartCount (cacheCart cart' (set_cart cart' c)))))
  else
    '(c1, res) ← apiCall (DeleteCartRemove productName) c;
    match res with
    | Data (JCart l _) =>
        mret (showToast "Item removed from cart" "success"
                (updateCartDisplay (updateCartCount (cacheCart l (set_cart l c1)))))
    | Data _ => OffProtocol
    | Undefined => mret (showToast (TYPE_ERROR "cart") "error" c1)
    | Threw message => mret (showToast (or_message message "Failed to remove item") "error" c1)
    end.

(** [Math.max(1, quantity)]: 1 for a quantity below 1, else the quantity,
    which is [NaN] when the quantity is. *)
Definition max1 (quantity : Js.number) : Js.number :=
  if (quantity <? Js.num 1)%float then Js.num 1 else quantity.

Definition updateCartItemQuantity (productName : string) (quantity : Js.number)
    (c : State) : Prog State :=
  if negb (isLoggedIn c)
  then
    match List.find (λ i, String.eqb (item_name i) productName) (cart c) with
    | Some _ =>
        let cart' :=
          assign_first (λ i, String.eqb (item_name i) productName)
                       (set_quantity (max1 quantity)) (cart c) in
        mret (updateCartDisplay (updateCartCount (cacheCart cart' (set_cart cart' c))))
    | None => mret c
    end
  else
    '(c1, res) ← apiCall (PutCartUpdate {| upd_item := productName;
                                           upd_quantity := max1 quantity |}) c;
    match res with
    | Data (JCart l _) =>
        mret (updateCartDisplay (updateCartCount (cacheCart l (set_cart l c1))))
    | Data _ => OffProtocol
    | Undefined => mret (showToast (TYPE_ERROR "cart") "error" c1)
    | Threw message =>
        mret (showToast (or_message message "Failed to update quantity") "error" c1)
    end.

(** [window.updateQuantity]; [confirmed] is the answer to the [confirm]
    dialog. *)
Definition updateQuantity (confirmed : bool) (productName : string)
    (newQuantity : Js.number) (c : State) : Prog State :=
  if (newQuantity <? Js.num 1)%float
  then if confirmed then removeFromCart productName c else mret c
  else updateCartItemQuantity productName newQuantity c.

(** *** Address management *)

Record AddressForm := {
  af_name : option string;
  af_phone : option string;
  af_address : option string;
  af_city : option string;
  af_state : option string;
  af_pincode : option string;
  af_isDefault : option bool
}.

Definition required (addressData : AddressForm) : list (string * option string) :=
  [ ("name", af_name addressData); ("phone", af_phone addressData);
    ("address", af_address addressData); ("city", af_city addressData);
    ("state", af_state addressData); ("pincode", af_pincode addressData) ].

(** [required.filter(field => !addressData[field]?.trim())] *)
Definition missing (addressData : AddressForm) : list string :=
  map fst (filter (λ f, negb (Js.truthy_string (Js.trim <$> snd f))) (required addressData)).

(** [missing.join(', ')] *)
Fixpoint join (l : list string) : string :=
  match l with
  | [] => ""
  | [x] => x
  | x :: l' => x +:+ ", " +:+ join l'
  end.

(** [addAddress] shows its success message before it reads [data.address]:
    after a forced logout, where [apiCall] returned [undefined], the message
    is shown and the [TypeError] of the read is shown after it. *)
Definition addAddress (addressData : AddressForm) (c : State)
    : Prog (State * option AddressData) :=
  if negb (isLoggedIn c)
  then mret (showToast "Please login to add address" "error" c, None)
  else if (0 <? length (missing addressData))%nat
  then mret (showToast ("Missing: " +:+ join (missing addressData)) "error" c, None)
  else
    let field v := default "" v in
    if negb (Js.test_digits 10 (Js.remove_spaces (field (af_phone addressData))))
    then mret (showToast "Phone must be 10 digits" "error" c, None)
    else if negb (Js.test_digits 6 (Js.remove_spaces (field (af_pincode addressData))))
    then mret (showToast "Pincode must be 6 digits" "error" c, None)
    else
      let c0 := showToast "Adding address..." "warning" c in
      '(c1, res) ← apiCall (PostAddresses
                     {| ab_name := Some (Js.trim (field (af_name addressData)));
                        ab_phone := Some (Js.trim (field (af_phone addressData)));
                        ab_address := Some (Js.trim (field (af_address addressData)));
                        ab_city := Some (Js.trim (field (af_city addressData)));
                        ab_state := Some (Js.trim (field (af_state addressData)));
                        ab_pincode := Some (Js.trim (field (af_pincode addressData)));
                        ab_isDefault := Some (Js.truthy_bool (af_isDefault addressData)) |})
                   c0;
      match res with
      | Data (JNewAddress a) => mret (showToast "Address added successfully!" "success" c1, Some a)
      | Data _ => OffProtocol
      | Undefined =>
          mret (showToast (TYPE_ERROR "address") "error"
                  (showToast "Address added successfully!" "success" c1), None)
      | Threw message =>
          mret (showToast (or_message message "Failed to add address") "error" c1, None)
      end.

(** *** Authentication handlers *)

(** How an [async] function that may rethrow ends. *)
Inductive Completion (A : Type) :=
| Returned (a : A)
| Thrown (message : string).
Arguments Returned {A} a.
Arguments Thrown {A} message.

(** The navigation [handleLogin] schedules with [setTimeout] happens after
    it has returned and is not part of its result. *)
Definition handleLogin (email password : string) (c : State)
    : Prog (State * Completion bool) :=
  '(c1, res) ← apiCall (PostAuthLogin {| lb_email := Some email;
                                         lb_password := Some password |}) c;
  match res with
  | Data (JAuth token id user_email name) =>
      let user := {| ui_id := id; ui_email := user_email; ui_name := name |} in
      let c2 := set_currentUser (Some user) (setUser user (setToken token c1)) in
      c3 ← loadCart c2;
      mret (showToast ("Welcome back, " +:+ name +:+ "!") "success" c3, Returned true)
  | Data _ => OffProtocol
  | Undefined => mret (c1, Thrown (TYPE_ERROR "token"))
  | Threw message => mret (c1, Thrown message)
  end.

End Client.

(** ** Vocabulary of the properties *)
Module Spec.
Import Server.

(** The sum of price times quantity over the items, added up in doubles
    from the left, starting from 0. *)
Fixpoint sum_from (sum : Js.number) (cartItems : list CartItem) : Js.number :=
  match cartItems with
  | [] => sum
  | item :: rest => sum_from (sum + item_price item * item_quantity item)%float rest
  end.

Definition sum_lines (cartItems : list CartItem) : Js.number :=
  sum_from (Js.num 0) cartItems.

(** [n] is the whole number nearest to [100 q], the larger one on a tie. *)
Definition nearest_hundredth (q : Q) (n : Z) : Prop :=
  (inject_Z n <= 100 * q + (1 # 2))%Q ∧ (100 * q + (1 # 2) < inject_Z n + 1)%Q.

(** [r] is [x] rounded to two decimals: the double nearest to a whole
    number of hundredths, which is the one nearest to [x]. A number without
    a value ([NaN], an infinity), or of magnitude [10^21] or more, is
    kept. *)
Definition rounded_to_2_decimals (x r : Js.number) : Prop :=
  match Js.exact x with
  | Some q =>
      if Qle_bool (inject_Z (10 ^ 21)) (Qabs q) then r = x
      else ∃ n, nearest_hundredth (Qabs q) n
                ∧ r = Js.of_hundredths (negb (Qle_bool 0 q)) n
  | None => r = x
  end.

Definition fee_of (subtotal : Js.number) : Js.number :=
  if (Js.num 500 <? subtotal)%float then Js.num 0 else Js.num 50.

(** The four totals of a cart, computed from the sum of its lines, each
    rounded to two decimals. *)
Definition rounded_totals (cartItems : list CartItem) (t : Totals) : Prop :=
  let s := sum_lines cartItems in
  rounded_to_2_decimals s (subtotal t)
  ∧ rounded_to_2_decimals (fee_of s) (deliveryFee t)
  ∧ rounded_to_2_decimals (0.05 * s)%float (tax t)
  ∧ rounded_to_2_decimals (s + fee_of s + 0.05 * s)%float (totals_total t).

(** The same four totals, as the doubles they are computed to. *)
Definition exact_totals (cartItems : list CartItem) (t : Totals) : Prop :=
  let s := sum_lines cartItems in
  subtotal t = s
  ∧ deliveryFee t = fee_of s
  ∧ tax t = (0.05 * s)%float
  ∧ totals_total t = (s + fee_of s + 0.05 * s)%float.

(** The number of addresses flagged as the default one. *)
Definition defaults (l : list Address) : nat :=
  length (filter (λ a, isDefault a = true) l).

(** At most one address is the default one. *)
Definition at_most_one_default (l : list Address) : Prop :=
  (defaults l ≤ 1)%nat.

(** The handler a route runs behind [authenticateToken], if it has one. *)
Definition user_handler (env : Env) (r : Route) : option (User → Outcome) :=
  match r with
  | PostAuthRegister _ | PostAuthLogin _ => None
  | GetCart => Some get_cart
  | PostCartAdd b => Some (post_cart_add b)
  | PutCartUpdate b => Some (put_cart_update b)
  | DeleteCartRemove name => Some (delete_cart_remove name)
  | DeleteCartClear => Some delete_cart_clear
  | PostOrders b => Some (post_orders env b)
  | GetOrders => Some get_orders
  | GetAddresses => Some get_addresses
  | PostAddresses b => Some (post_addresses env b)
  | PutAddress id updates => Some (put_address id updates)
  | DeleteAddress id => Some (delete_address id)
  end.

(** Every item of a cart has a quantity of at least one. *)
Definition quantities_at_least_1 (l : list CartItem) : Prop :=
  Forall (λ item, (Js.num 1 <=? item_quantity item)%float = true) l.

(** A handler turned the request down as a validation error and stored
    nothing. *)
Definition rejected_400 (o : Outcome) : Prop :=
  saved o = None ∧ status (response o) = 400%nat.

(** A phone of exactly ten digits and a pincode of exactly six. *)
Definition well_formed (phone pincode : string) : bool :=
  Js.test_digits 10 phone && Js.test_digits 6 pincode.

(** What the browser's check turns down: a phone that, spaces removed, is
    not ten digits, or a pincode that, spaces removed, is not six digits. *)
Definition malformed (phone pincode : string) : Prop :=
  Js.test_digits 10 (Js.remove_spaces phone) = false
  ∨ Js.test_digits 6 (Js.remove_spaces pincode) = false.

(** A call that fails without ending the session: no network, a reply
    that is not JSON, or a JSON reply with a status outside 200 to 299 other
    than 401 and 403. [apiCall] throws on each. *)
Definition call_failed (r : Client.FetchResult) : Prop :=
  match r with
  | Client.NetworkError _ => True
  | Client.Http status json _ =>
      json = false
      ∨ (Client.response_ok status = false ∧ status ≠ 401%nat ∧ status ≠ 403%nat)
  end.

(** What the page holds after a forced logout. *)
Definition session_removed (c : Client.State) : Prop :=
  Client.localStorage c !! Client.TOKEN = None
  ∧ Client.localStorage c !! Client.USER = None
  ∧ Client.localStorage c !! Client.CART_CACHE = None.

End Spec.

(** ** Sample data *)
Module Samples.
Import Server.

Definition item (name : string) (price quantity : Js.number) : CartItem :=
  {| item_name := name; item_price := price; item_quantity := quantity;
     item_image := None |}.

(** A guest's page holding the given cart. *)
Definition guest (l : list CartItem) : Client.State :=
  {| Client.localStorage := {[ Client.CART_CACHE := Client.StoredCart l ]};
     Client.cart := l;
     Client.currentUser := None;
     Client.location := "cart.html";
     Client.toasts := [];
     Client.cart_count := Js.num 0;
     Client.cart_page :=
       Some {| Client.empty_cart_message := true;
               Client.cart_subtotal := Client.Rupees (Js.Decimal false 0);
               Client.cart_delivery := Client.Rupees (Js.Decimal false 0);
               Client.cart_tax := Client.Rupees (Js.Decimal false 0);
               Client.cart_total := Client.Rupees (Js.Decimal false 0);
               Client.checkout_disabled := true |} |}.

(** One strip of tablets at 10.10 rupees. *)
Definition one_strip : list CartItem := [item "Paracetamol" 10.10 1].

(** A cart whose prices add up to 500.00 on paper: four at 22.46, five at
    80.97 and one at 5.31. *)
Definition five_hundred : list CartItem :=
  [item "Vitamin C" 22.46 4; item "Protein powder" 80.97 5; item "Lozenges" 5.31 1].

(** Stand-ins for the libraries: a token names its user, a hash names its
    password, and the sample e-mail addresses are in lower case already. *)
Definition jwt_sign (userId : string) (now : Z) : string := "jwt." +:+ userId.

Definition jwt_verify (token : string) (now : Z) : option string :=
  match token with
  | String "j" (String "w" (String "t" (String "." userId))) => Some userId
  | _ => None
  end.

Definition bcrypt_hash (password : string) : string := "hash." +:+ password.

Definition bcrypt_compare (password hash : string) : bool :=
  String.eqb (bcrypt_hash password) hash.

Definition toLowerCase (s : string) : string := s.

Definition serve := Server.serve jwt_sign jwt_verify bcrypt_hash bcrypt_compare toLowerCase.

Definition serve_all :=
  Server.serve_all jwt_sign jwt_verify bcrypt_hash bcrypt_compare toLowerCase.

Definition env (t : Z) (id : string) : Env :=
  {| now := t; random36 := "K3X9QZ"; new_id := id |}.

Definition register_asha : Request :=
  {| authorization := None;
     route := PostAuthRegister {| rb_email := Some "asha@example.com";
                                  rb_password := Some "secret1";
                                  rb_name := Some "Asha Rao" |} |}.

(** A request of the registered user. *)
Definition asha (r : Route) : Request :=
  {| authorization := Some "Bearer jwt.u1"; route := r |}.

Definition address_body (name phone pincode : string) (isDefault : option bool)
    : AddressBody :=
  {| ab_name := Some name; ab_phone := Some phone; ab_address := Some "12 Lake Road";
     ab_city := Some "Pune"; ab_state := Some "MH"; ab_pincode := Some pincode;
     ab_isDefault := isDefault |}.

Definition make_default : AddressUpdates :=
  {| au_name := None; au_phone := None; au_address := None; au_city := None;
     au_state := None; au_pincode := None; au_isDefault := Some true |}.

(** Register, add a home and an office address (the second as default),
    then make the first the default again. *)
Definition address_session : list (Env * Request) :=
  [ (env 1000 "u1", register_asha);
    (env 1001 "a1", asha (PostAddresses (address_body "Home" "9876543210" "411001" None)));
    (env 1002 "a2", asha (PostAddresses
                            (address_body "Office" "9876543211" "411002" (Some true))));
    (env 1003 "a3", asha (PutAddress "0" make_default)) ].

(** Register, put one item in the cart, then ask for a quantity of -3. *)
Definition negative_quantity_session : list (Env * Request) :=
  [ (env 1000 "u1", register_asha);
    (env 1001 "c1", asha (PostCartAdd {| add_name := Some "Paracetamol";
                                        add_price := Some 10.10%float;
                                        add_image := None |}));
    (env 1002 "c2", asha (PutCartUpdate {| upd_item := "Paracetamol";
                                          upd_quantity := (-3)%float |})) ].

Definition order_body : OrderBody :=
  {| ob_paymentMethod := Some "upi"; ob_paymentId := Some "upi_1700000000000";
     ob_deliveryAddress := None |}.

(** Register, add an address and an item, and order. *)
Definition order_session : list (Env * Request) :=
  [ (env 1000 "u1", register_asha);
    (env 1001 "a1", asha (PostAddresses (address_body "Home" "9876543210" "411001" None)));
    (env 1002 "c1", asha (PostCartAdd {| add_name := Some "Paracetamol";
                                        add_price := Some 10.10%float;
                                        add_image := None |}));
    (env 1003 "o1", asha (PostOrders order_body)) ].

(** What the user does afterwards: a new cart, a changed and then deleted
    address, a look at the orders, and a second purchase. *)
Definition later_session : list (Env * Request) :=
  [ (env 2000 "c2", asha (PostCartAdd {| add_name := Some "Cough syrup";
                                        add_price := Some 85%float;
                                        add_image := None |}));
    (env 2001 "c3", asha (PutCartUpdate {| upd_item := "Cough syrup";
                                          upd_quantity := 4%float |}));
    (env 2002 "a2", asha (PutAddress "0"
                            {| au_name := Some "Flat"; au_phone := None;
                               au_address := Some "7 Hill Street"; au_city := None;
                               au_state := None; au_pincode := None;
                               au_isDefault := Some false |}));
    (env 2003 "a3", asha (DeleteAddress "0"));
    (env 2004 "o2", asha GetOrders);
    (env 2005 "o3", asha (PostOrders order_body)) ].

(** A store with one user who has two items in the cart. *)
Definition shopper : User :=
  {| email := "asha@example.com"; password := "hash.secret1"; user_name := "Asha Rao";
     cart := [item "Paracetamol" 10.10 2; item "Cough syrup" 85 1];
     orders := []; addresses := [] |}.

Definition shop : gmap string User := {[ "u1" := shopper ]}.

(** The page of a logged-in user with a stale token, a guest cart still in
    memory and in the cache. *)
Definition stale_page : Client.State :=
  {| Client.localStorage :=
       {[ Client.TOKEN := Client.StoredToken "expired";
          Client.USER := Client.StoredUser {| Client.ui_id := "u1";
                                              Client.ui_email := "asha@example.com";
                                              Client.ui_name := "Asha Rao" |};
          Client.CART_CACHE := Client.StoredCart one_strip ]};
     Client.cart := one_strip;
     Client.currentUser := None;
     Client.location := "cart.html";
     Client.toasts := [];
     Client.cart_count := Js.num 1;
     Client.cart_page := None |}.

Definition form (phone pincode : string) : Client.AddressForm :=
  {| Client.af_name := Some "Home"; Client.af_phone := Some phone;
     Client.af_address := Some "12 Lake Road"; Client.af_city := Some "Pune";
     Client.af_state := Some "MH"; Client.af_pincode := Some pincode;
     Client.af_isDefault := None |}.

(** A user with a default home address and an office address, and what the
    service stores after a third address is added as default, or after the
    office address is made the default by its [_id]. *)
Definition stored_address (id name : string) (isDefault : bool) : Address :=
  {| addr_id := id;
     addr_data := {| addr_name := name; addr_phone := "9876543210";
                     addr_address := "12 Lake Road"; addr_city := "Pune";
                     addr_state := "MH"; addr_pincode := "411001";
                     addr_isDefault := isDefault |} |}.

Definition two_addresses : User :=
  set_addresses [stored_address "a1" "Home" true; stored_address "a2" "Office" false]
    shopper.

Definition two_addresses_then_third : User :=
  default two_addresses
    (saved (post_addresses (env 3000 "a3")
              (address_body "Shop" "9876543212" "411003" (Some true)) two_addresses)).

Definition two_addresses_second_default : User :=
  default two_addresses (saved (put_address "a2" make_default two_addresses)).

End Samples.

(** ** The rest of the browser script: accounts, address book, checkout *)
Module Account.
Import Server Client.

(** [handleRegister]; the form hands over what its fields hold, or
    [undefined] for a field the page lacks. *)
Definition handleRegister (email password name : option string) (c : State)
    : Prog (State * Completion bool) :=
  if negb (Js.truthy_string email) || negb (Js.truthy_string password)
     || negb (Js.truthy_string name)
  then mret (showToast "All fields are required" "error" c, Returned false)
  else if (String.length (default "" password) <? 6)%nat
  then mret (showToast "Password must be at least 6 characters" "error" c, Returned false)
  else if negb (test_email (default "" email))
  then mret (showToast "Please enter a valid email address" "error" c, Returned false)
  else
    let c0 := showToast "Creating your account..." "warning" c in
    '(c1, res) ← apiCall (PostAuthRegister {| rb_email := email; rb_password := password;
                                              rb_name := name |}) c0;
    match res with
    | Data (JAuth token id user_email user_name) =>
        let user := {| ui_id := id; ui_email := user_email; ui_name := user_name |} in
        let c2 := set_currentUser (Some user) (setUser user (setToken token c1)) in
        c3 ← loadCart c2;
        mret (showToast ("Welcome to PharmaSoft, " +:+ user_name +:+ "!") "success" c3,
              Returned true)
    | Data _ => OffProtocol
    | Undefined => mret (c1, Thrown (TYPE_ERROR "token"))
    | Threw message => mret (c1, Thrown message)
    end.

End Account.

Module AddressBook.
Import Server Client.

(** [loadAddresses]; the redirect it schedules with [setTimeout] for a
    guest happens after it has returned. *)
Definition loadAddresses (c : State) : Prog (State * list Address) :=
  if negb (isLoggedIn c)
  then mret (showToast "Please login to manage addresses" "error" c, [])
  else
    '(c1, res) ← apiCall GetAddresses c;
    match res with
    | Data (JAddresses l) => mret (c1, l)
    | Data _ => mret (c1, [])
    | Undefined | Threw _ => mret (showToast "Failed to load addresses" "error" c1, [])
    end.

(** [updateAddress], like [addAddress], shows its success message before it
    reads [data.address]. *)
Definition updateAddress (addressId : string) (updates : AddressUpdates) (c : State)
    : Prog (State * option Address) :=
  if negb (isLoggedIn c) then mret (c, None)
  else
    '(c1, res) ← apiCall (PutAddress addressId updates) c;
    match res with
    | Data (JAddress a) => mret (showToast "Address updated!" "success" c1, Some a)
    | Data _ => OffProtocol
    | Undefined =>
        mret (showToast (TYPE_ERROR "address") "error"
                (showToast "Address updated!" "success" c1), None)
    | Threw message => mret (showToast (or_message message "Failed to update") "error" c1, None)
    end.

(** [deleteAddress] does not read the reply: whatever [apiCall] returns,
    [undefined] after a forced logout included, it reports success. *)
Definition deleteAddress (addressId : string) (c : State) : Prog (State * bool) :=
  if negb (isLoggedIn c) then mret (c, false)
  else
    '(c1, res) ← apiCall (DeleteAddress addressId) c;
    match res with
    | Data _ | Undefined => mret (showToast "Address deleted!" "success" c1, true)
    | Threw message => mret (showToast (or_message message "Failed to delete") "error" c1, false)
    end.

Definition setDefaultAddress (addressId : string) (c : State)
    : Prog (State * option Address) :=
  updateAddress addressId
    {| au_name := None; au_phone := None; au_address := None; au_city := None;
       au_state := None; au_pincode := None; au_isDefault := Some true |} c.

End AddressBook.

Module Checkout.
Import Server Client.

(** The branches of the [switch] over the payment method; the simulated
    gateways come with their name in upper case, as the toast prints it. *)
Inductive Gateway :=
| Razorpay
| Simulated (upper : string)
| Cod
| Invalid.

Definition gateway (paymentMethod : string) : Gateway :=
  if String.eqb paymentMethod "razorpay" then Razorpay
  else if String.eqb paymentMethod "card" then Simulated "CARD"
  else if String.eqb paymentMethod "upi" then Simulated "UPI"
  else if String.eqb paymentMethod "wallet" then Simulated "WALLET"
  else if String.eqb paymentMethod "stripe" then Simulated "STRIPE"
  else if String.eqb paymentMethod "cod" then Cod
  else Invalid.

(** How the Razorpay dialog ends: its handler resolves with the payment id,
    or the promise is rejected (SDK not loaded, dialog dismissed). *)
Inductive RazorpayOutcome :=
| Paid (razorpay_payment_id : option string)
| Rejected (message : string).

(** [Date.now()] as text. *)
Definition date_text (now : Z) : string := NilZero.string_of_int (Z.to_int now).

(** [processPayment(paymentMethod, amount, { deliveryAddress })]. The
    amount and the order id it makes up go to the Razorpay dialog only; the
    waits of the simulated gateways pass no data. [now] is the clock when
    the payment id is made. *)
Definition processPayment (razorpay : RazorpayOutcome) (now : Z) (paymentMethod : string)
    (deliveryAddress : Address) (c : State) : Prog (State * Completion Order) :=
  let c0 := showToast "Processing payment..." "warning" c in
  let place (c1 : State) (paymentId : option string) : Prog (State * Completion Order) :=
    '(c2, res) ← apiCall (PostOrders {| ob_paymentMethod := Some paymentMethod;
                                        ob_paymentId := paymentId;
                                        ob_deliveryAddress := Some deliveryAddress |}) c1;
    match res with
    | Data (JOrder o) => mret (c2, Returned o)
    | Data _ => OffProtocol
    | Undefined => mret (c2, Thrown (TYPE_ERROR "order"))
    | Threw message => mret (c2, Thrown message)
    end in
  match gateway paymentMethod with
  | Razorpay =>
      match razorpay with
      | Paid paymentId => place c0 paymentId
      | Rejected message => mret (c0, Thrown message)
      end
  | Simulated upper =>
      place (showToast (upper +:+ " payment processed successfully!") "success" c0)
            (Some (paymentMethod +:+ "_" +:+ date_text now))
  | Cod => place c0 (Some ("cod_" +:+ date_text now))
  | Invalid => mret (c0, Thrown "Invalid payment method")
  end.

(** What [handleCheckout] returns: the order, or [false]. *)
Inductive CheckoutResult :=
| Placed (order : Order)
| Failed.

Definition checkout_failed (message : string) (c : State) : State * CheckoutResult :=
  (showToast (or_message message "Checkout failed. Please try again.") "error" c, Failed).

(** [handleCheckout]; [selectedPayment] is the value of the checked payment
    radio button, if one is checked. The redirects it schedules with
    [setTimeout] happen after it has returned. *)
Definition handleCheckout (selectedPayment : option string) (razorpay : RazorpayOutcome)
    (now : Z) (c : State) : Prog (State * CheckoutResult) :=
  if negb (isLoggedIn c)
  then mret (showToast "Please login to checkout" "error" c, Failed)
  else if (length (Client.cart c) =? 0)%nat
  then mret (showToast "Your cart is empty" "error" c, Failed)
  else
    '(c1, res) ← apiCall GetAddresses c;
    match res with
    | Data (JAddresses l) =>
        match List.find isDefault l with
        | None => mret (showToast "Please add a delivery address first" "error" c1, Failed)
        | Some defaultAddress =>
            let paymentMethod := default "cod" selectedPayment in
            '(c2, result) ← processPayment razorpay now paymentMethod defaultAddress c1;
            match result with
            | Returned order =>
                '(c3, cleared) ← apiCall DeleteCartClear c2;
                match cleared with
                | Data _ | Undefined =>
                    mret (showToast "Order placed successfully!" "success"
                            (updateCartCount (cacheCart [] (Client.set_cart [] c3))),
                          Placed order)
                | Threw message => mret (checkout_failed message c3)
                end
            | Thrown message => mret (checkout_failed message c2)
            end
        end
    | Data _ => OffProtocol
    | Undefined => mret (checkout_failed (TYPE_ERROR "addresses") c1)
    | Threw message => mret (checkout_failed message c1)
    end.

End Checkout.

(** ** Vocabulary of the further properties *)
Module Props.
Import Server.

(** No two accounts of the store have the same e-mail address. *)
Definition unique_emails (db : gmap string User) : Prop :=
  ∀ id1 id2 u1 u2,
    db !! id1 = Some u1 → db !! id2 = Some u2 → email u1 = email u2 → id1 = id2.

(** The names of the items of a cart. *)
Definition names (l : list CartItem) : list string := map item_name l.

(** The number of pieces in a cart: the quantities added up in doubles
    from the left, starting from 0. *)
Definition total_quantity (l : list CartItem) : Js.number :=
  fold_left (λ sum item, (sum + item_quantity item)%float) l (Js.num 0).

(** The amount a text of the cart page stands for. *)
Definition amount (t : Client.MoneyText) : Js.number :=
  match t with
  | Client.Rupees text => Js.parseFloat text
  | Client.Free => Js.num 0
  end.

(** Newest first: no order is older than one that comes after it. *)
Definition newest_first (l : list Order) : Prop :=
  StronglySorted (λ a b, (createdAt b ≤ createdAt a)%Z) l.



(** A token without a space in it. *)
Definition no_space (token : string) : bool :=
  forallb (λ ch, negb (Ascii.eqb ch " "%char)) (list_ascii_of_string token).

(** The page holds a token that [jwt.verify] accepts, at each of the given
    moments, as the token of the account [id]. *)
Definition signed_in (jwt_verify : string → Z → option string) (c : Client.State)
    (id : string) (envs : list Env) : Prop :=
  ∃ token,
    Client.getToken c = Some token
    ∧ Js.truthy_string (Some token) = true
    ∧ no_space token = true
    ∧ Forall (λ env, jwt_verify token (now env) = Some id) envs.





End Props.

(** ** Further sample data *)
Module Scenarios.
Import Server.

(** A second account, with an empty cart and one default address. *)
Definition ravi : User :=
  {| email := "ravi@example.com"; password := "hash.monsoon"; user_name := "Ravi Iyer";
     cart := []; orders := [];
     addresses := [Samples.stored_address "r1" "Home" true] |}.

(** The store with both accounts. *)
Definition two_users : gmap string User := {[ "u1" := Samples.shopper; "u2" := ravi ]}.

(** A request of the second account. *)
Definition as_ravi (r : Route) : Request :=
  {| authorization := Some "Bearer jwt.u2"; route := r |}.

Definition register_meera : Request :=
  {| authorization := None;
     route := PostAuthRegister {| rb_email := Some "Meera@Example.com";
                                  rb_password := Some "tulsi123";
                                  rb_name := Some "  Meera Nair " |} |}.

Definition login_meera (password : string) : Request :=
  {| authorization := None;
     route := PostAuthLogin {| lb_email := Some "Meera@Example.com";
                               lb_password := Some password |} |}.

(** The page of the first account, logged in, with the given cart in
    memory and in the cache. *)
Definition asha_page (l : list CartItem) : Client.State :=
  {| Client.localStorage :=
       {[ Client.TOKEN := Client.StoredToken "jwt.u1";
          Client.USER := Client.StoredUser {| Client.ui_id := "u1";
                                              Client.ui_email := "asha@example.com";
                                              Client.ui_name := "Asha Rao" |};
          Client.CART_CACHE := Client.StoredCart l ]};
     Client.cart := l;
     Client.currentUser := Some {| Client.ui_id := "u1";
                                   Client.ui_email := "asha@example.com";
                                   Client.ui_name := "Asha Rao" |};
     Client.location := "cart.html";
     Client.toasts := [];
     Client.cart_count := Props.total_quantity l;
     Client.cart_page := None |}.

(** A guest's page after its cart was loaded. *)
Definition loaded_guest (l : list CartItem) : Client.State :=
  Client.set_cart_count (Props.total_quantity l) (Samples.guest l).

End Scenarios.

(** ** Numbers *)

(** 0.125 is a double, and a tie goes up; the double nearest to 1.005 lies
    below it, and goes down. *)
Example toFixed2_half_up : Js.toFixed2 0.125 = Js.Decimal false 13.
Proof. vm_compute. reflexivity. Qed.

Example toFixed2_below_half : Js.toFixed2 1.005 = Js.Decimal false 100.
Proof. vm_compute. reflexivity. Qed.

Example toFixed2_negative : Js.toFixed2 (-0.125) = Js.Decimal true 13.
Proof. vm_compute. reflexivity. Qed.

Example parseFloat_toFixed2_tax : Js.parseFloat_toFixed2 0.505 = 0.51%float.
Proof. vm_compute. reflexivity. Qed.

Example trim_keeps_inner_space : Js.trim "  98765 43210  " = "98765 43210".
Proof. reflexivity. Qed.

Example split_bearer : Js.split_space "Bearer abc.def" = ["Bearer"; "abc.def"].
Proof. reflexivity. Qed.

Example bearer_without_token : Server.bearer_token (Some "Bearer") = None.
Proof. reflexivity. Qed.

Example index_toString_12 : Js.index_toString 12 = "12".
Proof. reflexivity. Qed.

Example test_email_accepts : Server.test_email "asha@example.com" = true.
Proof. reflexivity. Qed.

Example test_email_rejects : Server.test_email "asha@example" = false.
Proof. reflexivity. Qed.

Example sort_newest_first_dates :
  map Server.createdAt
    (Server.sort_newest_first
       (map (λ t, {| Server.orderId := ""; Server.items := []; Server.total := Js.num 0;
                     Server.deliveryAddress := None; Server.paymentMethod := "cod";
                     Server.paymentId := None; Server.paymentStatus := "pending";
                     Server.order_status := "confirmed"; Server.createdAt := t |})
            [1003; 2005; 1500]))
  = [2005; 1500; 1003].
Proof. reflexivity. Qed.

(** The service's totals of an empty cart carry the delivery fee. *)
Example totals_of_empty_cart :
  Server.deliveryFee (Server.calculateCartTotal []) = Js.num 50.
Proof. vm_compute. reflexivity. Qed.

(** Five at 248.46: the tax 62.115 and the total 1304.415 are computed to
    doubles on either side of those numbers. *)
Example totals_of_five_at_248_46 :
  Server.calculateCartTotal [Samples.item "Inhaler" 248.46 5]
  = {| Server.subtotal := 1242.3; Server.deliveryFee := 0; Server.tax := 62.12;
       Server.totals_total := 1304.41 |}.
Proof. vm_compute. reflexivity. Qed.

(** A registration whose name is blank: [User.create] rejects the empty
    name and nothing is stored. *)
Example register_blank_name :
  Samples.serve (Samples.env 1000 "u1")
    {| Server.authorization := None;
       Server.route :=
         Server.PostAuthRegister {| Server.rb_email := Some "asha@example.com";
                                    Server.rb_password := Some "secret1";
                                    Server.rb_name := Some "   " |} |} ∅
  = (∅, Server.fail 500 "Registration failed").
Proof. vm_compute. reflexivity. Qed.

(** *** Comparing doubles *)

Lemma SFcompare_swap (x y : spec_float) :
  SFcompare y x = match SFcompare x y with Some c => Some (CompOpp c) | None => None end.
Proof.
  destruct x as [sx | sx | | sx mx ex], y as [sy | sy | | sy my ey]; cbn;
    try destruct sx; try destruct sy; try reflexivity.
  - rewrite (Z.compare_antisym ey ex). destruct (ey ?= ex)%Z; cbn; try reflexivity.
    by rewrite (Pos.compare_cont_antisym mx my Eq).
  - rewrite (Z.compare_antisym ey ex). destruct (ey ?= ex)%Z; cbn; try reflexivity.
    by rewrite (Pos.compare_cont_antisym mx my Eq).
Qed.

Lemma is_nan_false (x : Js.number) : is_nan x = false → Prim2SF x ≠ S754_nan.
Proof.
  unfold is_nan. rewrite FloatAxioms.eqb_spec. intros H E. rewrite E in H. discriminate H.
Qed.

Lemma SFcompare_None (x y : spec_float) :
  SFcompare x y = None → x = S754_nan ∨ y = S754_nan.
Proof.
  destruct x as [sx | sx | | sx mx ex], y as [sy | sy | | sy my ey]; cbn; auto; discriminate.
Qed.

Lemma ltb_leb (x y : Js.number) : (x <? y)%float = true → (x <=? y)%float = true.
Proof.
  rewrite FloatAxioms.ltb_spec, FloatAxioms.leb_spec. unfold SFltb, SFleb.
  by destruct (SFcompare _ _) as [[| |] |].
Qed.

Lemma leb_not_ltb (x y : Js.number) : (x <=? y)%float = true → (y <? x)%float = false.
Proof.
  rewrite FloatAxioms.ltb_spec, FloatAxioms.leb_spec. unfold SFltb, SFleb.
  rewrite (SFcompare_swap (Prim2SF x) (Prim2SF y)).
  by destruct (SFcompare _ _) as [[| |] |].
Qed.

Lemma not_ltb_leb (x y : Js.number) :
  is_nan x = false → is_nan y = false → (x <? y)%float = false → (y <=? x)%float = true.
Proof.
  intros Hx%is_nan_false Hy%is_nan_false. rewrite FloatAxioms.ltb_spec, FloatAxioms.leb_spec. unfold SFltb, SFleb.
  rewrite (SFcompare_swap (Prim2SF x) (Prim2SF y)).
  destruct (SFcompare _ _) as [[| |] |] eqn:E; try done.
  by destruct (SFcompare_None _ _ E).
Qed.

Lemma at_least_1_not_zero (q : Js.number) :
  (Js.num 1 <=? q)%float = true → (q =? Js.num 0)%float = false.
Proof.
  rewrite FloatAxioms.leb_spec, FloatAxioms.eqb_spec. unfold SFleb, SFeqb.
  change (Prim2SF (Js.num 1)) with (S754_finite false 4503599627370496 (-52)).
  change (Prim2SF (Js.num 0)) with (S754_zero false).
  by destruct (Prim2SF q) as [s | s | | s m e]; cbn; try destruct s.
Qed.

Lemma mul_comm (x y : Js.number) : (x * y)%float = (y * x)%float.
Proof.
  apply Prim2SF_inj. rewrite !FloatAxioms.mul_spec. unfold SF64mul, SFmul.
  destruct (Prim2SF x) as [sx | sx | | sx mx ex], (Prim2SF y) as [sy | sy | | sy my ey];
    try reflexivity; try (by rewrite xorb_comm).
  by rewrite xorb_comm, Pos.mul_comm, Z.add_comm.
Qed.

(** *** Rounding to two decimals *)

Lemma toFixed2_rounds (x : Js.number) :
  Spec.rounded_to_2_decimals x (Js.parseFloat_toFixed2 x).
Proof.
  unfold Spec.rounded_to_2_decimals, Js.parseFloat_toFixed2, Js.toFixed2.
  destruct (Js.exact x) as [q |]; [| done].
  destruct (Qle_bool _ _); [done |].
  exists (Qfloor (100 * Qabs q + (1 # 2))). split; [| done]. split.
  - apply Qfloor_le.
  - pose proof (Qlt_floor (100 * Qabs q + (1 # 2))) as H.
    rewrite inject_Z_plus in H. exact H.
Qed.

(** The two fees, 0 and 50, are numbers of two decimals. *)
Lemma fee_is_hundredths (s : Js.number) :
  Js.parseFloat_toFixed2 (Spec.fee_of s) = Spec.fee_of s.
Proof. unfold Spec.fee_of. by destruct (_ <? _)%float; vm_compute. Qed.

(** ** Cart totals *)

Lemma fold_subtotal (l : list Server.CartItem) (a : Js.number) :
  fold_left (λ sum item, (sum + Server.line_total item)%float) l a = Spec.sum_from a l.
Proof. revert a. induction l as [| item l IH]; intros a; simpl; [done |]. apply IH. Qed.

Lemma raw_subtotal_sum (l : list Server.CartItem) :
  Server.raw_subtotal l = Spec.sum_lines l.
Proof. apply fold_subtotal. Qed.

Lemma server_totals_rounded (cartItems : list Server.CartItem) :
  Spec.rounded_totals cartItems (Server.calculateCartTotal cartItems).
Proof.
  unfold Spec.rounded_totals, Server.calculateCartTotal. cbn [Server.subtotal
    Server.deliveryFee Server.tax Server.totals_total].
  rewrite raw_subtotal_sum.
  change (Server.raw_deliveryFee (Spec.sum_lines cartItems))
    with (Spec.fee_of (Spec.sum_lines cartItems)).
  unfold Server.TAX_RATE. rewrite (mul_comm (Spec.sum_lines cartItems) 0.05).
  repeat split; apply toFixed2_rounds.
Qed.

Lemma client_totals_exact (c : Client.State) :
  Spec.exact_totals (Client.cart c) (Client.calculateCartTotal c).
Proof.
  unfold Spec.exact_totals, Client.calculateCartTotal. cbn [Server.subtotal
    Server.deliveryFee Server.tax Server.totals_total].
  change (fold_left _ (Client.cart c) (Js.num 0))
    with (Server.raw_subtotal (Client.cart c)).
  rewrite raw_subtotal_sum. unfold Spec.fee_of.
  by rewrite (mul_comm (Spec.sum_lines (Client.cart c)) 0.05).
Qed.

Lemma server_deliveryFee (cartItems : list Server.CartItem) :
  Server.deliveryFee (Server.calculateCartTotal cartItems)
  = Spec.fee_of (Spec.sum_lines cartItems).
Proof.
  unfold Server.calculateCartTotal. cbn [Server.deliveryFee].
  rewrite raw_subtotal_sum. apply fee_is_hundredths.
Qed.

Lemma display_of_totals (c : Client.State) (pg : Client.CartPage) :
  Client.cart_page c = Some pg →
  Client.cart c ≠ [] →
  Client.cart_page (Client.updateCartDisplay c)
  = let t := Client.calculateCartTotal c in
    Some {| Client.empty_cart_message := false;
            Client.cart_subtotal := Client.Rupees (Js.toFixed2 (Server.subtotal t));
            Client.cart_delivery :=
              if (Server.deliveryFee t =? Js.num 0)%float then Client.Free
              else Client.Rupees (Js.toFixed2 (Server.deliveryFee t));
            Client.cart_tax := Client.Rupees (Js.toFixed2 (Server.tax t));
            Client.cart_total := Client.Rupees (Js.toFixed2 (Server.totals_total t));
            Client.checkout_disabled := false |}.
Proof.
  intros Hpg Hne. unfold Client.updateCartDisplay. rewrite Hpg.
  destruct (Client.cart c) as [| x l] eqn:E; [done |]. reflexivity.
Qed.

(** C1, as stated, fails in two places. The browser's [calculateCartTotal]
    does not round: for a cart of one item at 10.10 the tax it returns is
    the double 0.505, where the tax rounded to two decimals is 0.51. And the
    service goes by the sum as it is computed, not by the subtotal it
    returns: for four items at 22.46, five at 80.97 and one at 5.31 the sum
    comes to 500.00000000000006, so the subtotal it returns is exactly 500
    and the delivery fee with it is 0, not 50. *)
Lemma C1_totals_not_as_stated :
  ¬ Spec.rounded_totals (Client.cart (Samples.guest Samples.one_strip))
      (Client.calculateCartTotal (Samples.guest Samples.one_strip))
  ∧ Server.tax (Client.calculateCartTotal (Samples.guest Samples.one_strip)) = 0.505%float
  ∧ Server.subtotal (Server.calculateCartTotal Samples.five_hundred) = Js.num 500
  ∧ Server.deliveryFee (Server.calculateCartTotal Samples.five_hundred) = Js.num 0
  ∧ Spec.fee_of (Server.subtotal (Server.calculateCartTotal Samples.five_hundred))
    = Js.num 50.
Proof.
  split; [| by vm_compute].
  intros (_ & _ & H & _). unfold Spec.rounded_to_2_decimals in H.
  assert (Ex : Js.exact (0.05 * Spec.sum_lines (Client.cart (Samples.guest Samples.one_strip)))
               = Some (4548635623644201 # 9007199254740992)%Q) by (vm_compute; reflexivity).
  rewrite Ex in H.
  assert (Eb : Qle_bool (inject_Z (10 ^ 21))
                 (Qabs (4548635623644201 # 9007199254740992)) = false)
    by (vm_compute; reflexivity).
  rewrite Eb in H. destruct H as (n & [Hlo Hhi] & Hr).
  assert (Hn : n = 51).
  { unfold Qle, Qlt in Hlo, Hhi. cbn in Hlo, Hhi. lia. }
  subst n. apply (f_equal Prim2SF) in Hr. vm_compute in Hr. discriminate Hr.
Qed.

(** C1 (amended): the server's [calculateCartTotal] computes, in doubles,
    the sum of price times quantity, the delivery fee that goes with that
    sum (0 above 500, else 50; so 50 for a sum of 500 and 0 for 501), the
    tax (0.05 times the sum) and the three added up, and returns each of
    the four rounded to two decimals. The browser's [calculateCartTotal]
    returns the same four values as they are computed, and the cart page
    rounds them to two decimals when it prints them. *)
Theorem C1_cart_totals :
  (∀ cartItems, Spec.rounded_totals cartItems (Server.calculateCartTotal cartItems))
  ∧ (∀ cartItems,
       Spec.sum_lines cartItems = Js.num 500 →
       Server.deliveryFee (Server.calculateCartTotal cartItems) = Js.num 50)
  ∧ (∀ cartItems,
       Spec.sum_lines cartItems = Js.num 501 →
       Server.deliveryFee (Server.calculateCartTotal cartItems) = Js.num 0)
  ∧ (∀ c, Spec.exact_totals (Client.cart c) (Client.calculateCartTotal c))
  ∧ (∀ c pg,
       Client.cart_page c = Some pg →
       Client.cart c ≠ [] →
       let s := Spec.sum_lines (Client.cart c) in
       let fee := Spec.fee_of s in
       Client.cart_page (Client.updateCartDisplay c)
       = Some {| Client.empty_cart_message := false;
                 Client.cart_subtotal := Client.Rupees (Js.toFixed2 s);
                 Client.cart_delivery :=
                   if (fee =? Js.num 0)%float then Client.Free
                   else Client.Rupees (Js.toFixed2 fee);
                 Client.cart_tax := Client.Rupees (Js.toFixed2 (0.05 * s)%float);
                 Client.cart_total :=
                   Client.Rupees (Js.toFixed2 (s + fee + 0.05 * s)%float);
                 Client.checkout_disabled := false |}).
Proof.
  split; [apply server_totals_rounded |].
  split; [| split; [| split; [apply client_totals_exact |]]].
  - intros l Hs. rewrite server_deliveryFee, Hs. reflexivity.
  - intros l Hs. rewrite server_deliveryFee, Hs. reflexivity.
  - intros c pg Hpg Hne s fee.
    rewrite (display_of_totals c pg Hpg Hne). cbv zeta.
    destruct (client_totals_exact c) as (-> & -> & -> & ->). reflexivity.
Qed.

Lemma C1_cart_totals_witness :
  Server.deliveryFee (Server.calculateCartTotal [Samples.item "Syrup" 500 1]) = Js.num 50
  ∧ Server.deliveryFee (Server.calculateCartTotal [Samples.item "Syrup" 501 1]) = Js.num 0
  ∧ Client.cart_page (Client.updateCartDisplay (Samples.guest Samples.one_strip))
    = Some {| Client.empty_cart_message := false;
              Client.cart_subtotal := Client.Rupees (Js.Decimal false 1010);
              Client.cart_delivery := Client.Rupees (Js.Decimal false 5000);
              Client.cart_tax := Client.Rupees (Js.Decimal false 51);
              Client.cart_total := Client.Rupees (Js.Decimal false 6061);
              Client.checkout_disabled := false |}.
Proof.
  destruct C1_cart_totals as (_ & H500 & H501 & _ & Hpage).
  split; [| split].
  - apply H500. vm_compute. reflexivity.
  - apply H501. vm_compute. reflexivity.
  - rewrite (Hpage (Samples.guest Samples.one_strip) _ eq_refl); [| discriminate].
    vm_compute. reflexivity.
Defined.

(** ** Default address *)

Lemma defaults_cons (a : Server.Address) (l : list Server.Address) :
  Spec.defaults (a :: l) = ((if Server.isDefault a then 1 else 0) + Spec.defaults l)%nat.
Proof.
  unfold Spec.defaults. rewrite filter_cons.
  destruct (Server.isDefault a); case_decide; simpl; congruence.
Qed.

Lemma defaults_app (l1 l2 : list Server.Address) :
  Spec.defaults (l1 ++ l2) = (Spec.defaults l1 + Spec.defaults l2)%nat.
Proof. unfold Spec.defaults. by rewrite filter_app, length_app. Qed.

Lemma clear_defaults_all_false (l : list Server.Address) :
  Forall (λ a, Server.isDefault a = false) (Server.clear_defaults l).
Proof. unfold Server.clear_defaults. apply Forall_map. by apply Forall_true. Qed.

Lemma defaults_none (l : list Server.Address) :
  Forall (λ a, Server.isDefault a = false) l → Spec.defaults l = 0%nat.
Proof.
  induction 1 as [| a l Ha _ IH]; [done |].
  rewrite defaults_cons, Ha, IH. done.
Qed.

Lemma defaults_clear (l : list Server.Address) : Spec.defaults (Server.clear_defaults l) = 0%nat.
Proof. apply defaults_none, clear_defaults_all_false. Qed.

(** Writing one element adds at most one default. *)
Lemma defaults_insert_le (l : list Server.Address) (i : nat) (a' : Server.Address) :
  (Spec.defaults (<[i := a']> l) ≤ S (Spec.defaults l))%nat.
Proof.
  revert i. induction l as [| x l IH]; intros [| i]; simpl; try lia.
  - rewrite !defaults_cons. destruct (Server.isDefault a'), (Server.isDefault x); lia.
  - rewrite !defaults_cons. specialize (IH i). lia.
Qed.

(** Writing an element that is a default only if the one it replaces was
    adds none. *)
Lemma defaults_insert_same (l : list Server.Address) (i : nat) (a a' : Server.Address) :
  l !! i = Some a →
  (Server.isDefault a' = true → Server.isDefault a = true) →
  (Spec.defaults (<[i := a']> l) ≤ Spec.defaults l)%nat.
Proof.
  revert i. induction l as [| x l IH]; intros [| i] Hi Himp; simpl in *; try done.
  - injection Hi as ->. rewrite !defaults_cons.
    destruct (Server.isDefault a') eqn:E; [rewrite Himp by done |]; lia.
  - rewrite !defaults_cons. specialize (IH i Hi Himp). lia.
Qed.

Lemma filter_from_defaults {p : Server.Address → nat → bool} (i : nat)
    (l : list Server.Address) :
  (Spec.defaults (Js.filter_from p i l) ≤ Spec.defaults l)%nat.
Proof.
  revert i. induction l as [| x l IH]; intros i; simpl; [done |].
  specialize (IH (S i)). destruct (p x i); rewrite !defaults_cons; lia.
Qed.

Lemma findIndex_from_lookup {A} (p : A → nat → bool) (l : list A) (i k : nat) :
  Js.findIndex_from p k l = Some i → (k ≤ i)%nat ∧ is_Some (l !! (i - k)%nat).
Proof.
  revert k. induction l as [| x l IH]; intros k H; simpl in *; [done |].
  destruct (p x k).
  - injection H as <-. rewrite Nat.sub_diag. eauto.
  - destruct (IH _ H) as [Hle [y Hy]]. split; [lia |].
    replace (i - k)%nat with (S (i - S k)) by lia. eauto.
Qed.

Lemma findIndex_lookup {A} (p : A → nat → bool) (l : list A) (i : nat) :
  Js.findIndex p l = Some i → is_Some (l !! i).
Proof.
  intros H. destruct (findIndex_from_lookup p l i 0 H) as [_ Hs].
  by rewrite Nat.sub_0_r in Hs.
Qed.

Lemma post_addresses_saved (env : Server.Env) (b : Server.AddressBody) (u u' : Server.User) :
  Server.saved (Server.post_addresses env b u) = Some u' →
  ∃ newAddress,
    let first := Js.truthy_bool (Server.ab_isDefault b)
                 || (length (Server.addresses u) =? 0)%nat in
    Server.addresses u'
    = (if first then Server.clear_defaults (Server.addresses u) else Server.addresses u)
        ++ [newAddress]
    ∧ Server.isDefault newAddress = first
    ∧ Server.cart u' = Server.cart u ∧ Server.orders u' = Server.orders u.
Proof.
  unfold Server.post_addresses.
  destruct (Server.ab_name b), (Server.ab_phone b), (Server.ab_address b),
    (Server.ab_city b), (Server.ab_state b), (Server.ab_pincode b); try done.
  match goal with |- context [if ?c then Server.reply _ else _] => destruct c end; [done |].
  cbn [Server.saved Server.save]. intros [= <-]. eexists. cbv zeta.
  split; [reflexivity |]. split; [| done].
  cbn [Server.isDefault Server.addr_data Server.addr_isDefault].
  destruct (Js.truthy_bool (Server.ab_isDefault b)); [done |].
  cbn [orb]. destruct (Server.addresses u); done.
Qed.

Lemma post_addresses_defaults (env : Server.Env) (b : Server.AddressBody)
    (u u' : Server.User) :
  Server.saved (Server.post_addresses env b u) = Some u' →
  Spec.at_most_one_default (Server.addresses u) →
  Spec.at_most_one_default (Server.addresses u').
Proof.
  intros Hs Hinv. destruct (post_addresses_saved _ _ _ _ Hs) as (a & Ha & Hd & _).
  cbv zeta in *. unfold Spec.at_most_one_default in *. 
  
  rewrite Ha, defaults_app, defaults_cons, Hd.
  destruct (Js.truthy_bool (Server.ab_isDefault b) || (length (Server.addresses u) =? 0)%nat).
  - rewrite defaults_clear. change (Spec.defaults []) with 0%nat. lia.
  - change (Spec.defaults []) with 0%nat. cbn [Nat.add]. lia.
Qed.

Lemma put_address_saved (id : string) (updates : Server.AddressUpdates)
    (u u' : Server.User) :
  Server.saved (Server.put_address id updates u) = Some u' →
  ∃ i a,
    let addresses1 :=
      if Js.truthy_bool (Server.au_isDefault updates)
      then Server.clear_defaults (Server.addresses u) else Server.addresses u in
    Js.findIndex (Server.matches_id id) (Server.addresses u) = Some i
    ∧ addresses1 !! i = Some a
    ∧ Server.addresses u' = <[i := Server.assign_updates updates a]> addresses1
    ∧ Server.cart u' = Server.cart u ∧ Server.orders u' = Server.orders u.
Proof.
  unfold Server.put_address.
  destruct (Js.findIndex _ _) as [i |] eqn:Ei; [| done].
  destruct (_ !! i) as [a |] eqn:Ea; [| done].
  cbn [Server.saved Server.save]. intros [= <-]. by exists i, a.
Qed.

Lemma put_address_defaults (id : string) (updates : Server.AddressUpdates)
    (u u' : Server.User) :
  Server.saved (Server.put_address id updates u) = Some u' →
  Spec.at_most_one_default (Server.addresses u) →
  Spec.at_most_one_default (Server.addresses u').
Proof.
  intros Hs Hinv. destruct (put_address_saved _ _ _ _ Hs) as (i & a & _ & Ha & Hu & _).
  cbv zeta in *. unfold Spec.at_most_one_default in *. 
   rewrite Hu.
  destruct (Server.au_isDefault updates) as [[|] |] eqn:E; cbn [Js.truthy_bool] in *.
  - etrans; [apply defaults_insert_le |]. by rewrite defaults_clear.
  - etrans; [eapply defaults_insert_same; [done |] |]; [| done].
    unfold Server.assign_updates, Server.isDefault. cbn. rewrite E. done.
  - etrans; [eapply defaults_insert_same; [done |] |]; [| done].
    unfold Server.assign_updates, Server.isDefault. cbn. rewrite E. done.
Qed.

Lemma delete_address_defaults (id : string) (u u' : Server.User) :
  Server.saved (Server.delete_address id u) = Some u' →
  Spec.at_most_one_default (Server.addresses u) →
  Spec.at_most_one_default (Server.addresses u').
Proof.
  unfold Server.delete_address. cbn [Server.saved Server.save]. intros [= <-] Hinv.
  unfold Spec.at_most_one_default in *. cbn [Server.addresses Server.set_addresses].
  etrans; [apply filter_from_defaults | done].
Qed.

(** ** One request against the store *)

Section Service.
Import Server.
Context (jwt_sign : string → Z → string) (jwt_verify : string → Z → option string)
        (bcrypt_hash : string → string) (bcrypt_compare : string → string → bool)
        (toLowerCase : string → string).

Local Abbreviation serve := (serve jwt_sign jwt_verify bcrypt_hash bcrypt_compare toLowerCase).
Local Abbreviation serve_all :=
  (serve_all jwt_sign jwt_verify bcrypt_hash bcrypt_compare toLowerCase).
Local Abbreviation authenticateToken := (authenticateToken jwt_verify).
Local Abbreviation protected := (protected jwt_verify).

Lemma authenticateToken_Next env authHeader (db : DB) id u :
  authenticateToken env authHeader db = Next id u → db !! id = Some u.
Proof.
  unfold Server.authenticateToken.
  destruct (negb _); [done |].
  destruct (_ ≫= _) as [userId |]; [| done].
  destruct (db !! userId) eqn:E; [| done]. by intros [= <- <-].
Qed.

Lemma serve_protected env req (db : DB) h :
  Spec.user_handler env (route req) = Some h →
  serve env req db = protected h env (authorization req) db.
Proof.
  unfold Server.serve. destruct (route req); cbn [Spec.user_handler]; intros [= <-]; done.
Qed.

Lemma serve_public env req (db : DB) :
  Spec.user_handler env (route req) = None →
  serve env req db = (db, snd (serve env req db))
  ∨ ∃ b user,
      route req = PostAuthRegister b
      ∧ db !! new_id env = None
      ∧ cart user = [] ∧ orders user = [] ∧ addresses user = []
      ∧ fst (serve env req db) = <[new_id env := user]> db.
Proof.
  unfold Server.serve. destruct (route req) as [b | b | | | | | | | | | | |];
    cbn [Spec.user_handler]; try done; intros _.
  - unfold post_auth_register.
    destruct (rb_email b), (rb_password b), (rb_name b); try (by left).
    repeat (match goal with |- context [if ?c then _ else _] => destruct c end;
            try (by left)).
    right. exists b. eexists. cbn [fst]. repeat split; [done.. |]. reflexivity.
  - unfold post_auth_login.
    destruct (lb_email b), (lb_password b); try (by left).
    destruct (_ || _); [by left |].
    destruct (findOne_email _ _) as [[id user] |]; [| by left].
    destruct (negb _); by left.
Qed.

(** Where a document of the new store comes from. *)
Lemma serve_effect env req (db : DB) id u' :
  fst (serve env req db) !! id = Some u' →
  db !! id = Some u'
  ∨ (∃ u h, db !! id = Some u ∧ Spec.user_handler env (route req) = Some h
            ∧ saved (h u) = Some u')
  ∨ (db !! id = None ∧ cart u' = [] ∧ orders u' = [] ∧ addresses u' = []).
Proof.
  destruct (Spec.user_handler env (route req)) as [h |] eqn:Eh.
  - rewrite (serve_protected _ _ _ _ Eh). unfold Server.protected.
    destruct (authenticateToken _ _ _) as [userId user | r] eqn:Ea; cbn [fst]; [| by left].
    apply authenticateToken_Next in Ea.
    destruct (saved (h user)) as [user' |] eqn:Es; [| by left].
    destruct (decide (userId = id)) as [-> | Hne].
    + rewrite lookup_insert_eq. intros [= <-]. right. left. by exists user, h.
    + rewrite lookup_insert_ne by done. by left.
  - destruct (serve_public env req db Eh) as [-> | (b & user & _ & Hnew & Hc & Ho & Ha & ->)];
      cbn [fst]; [by left |].
    destruct (decide (new_id env = id)) as [<- | Hne].
    + rewrite lookup_insert_eq. intros [= <-]. by right; right.
    + rewrite lookup_insert_ne by done. by left.
Qed.

(** What becomes of a document of the old store. *)
Lemma serve_keeps env req (db : DB) id u :
  db !! id = Some u →
  ∃ u', fst (serve env req db) !! id = Some u'
        ∧ (u' = u ∨ ∃ h, Spec.user_handler env (route req) = Some h
                         ∧ saved (h u) = Some u').
Proof.
  intros Hu. destruct (Spec.user_handler env (route req)) as [h |] eqn:Eh.
  - rewrite (serve_protected _ _ _ _ Eh). unfold Server.protected.
    destruct (authenticateToken _ _ _) as [userId user | r] eqn:Ea; cbn [fst];
      [| by eauto].
    apply authenticateToken_Next in Ea.
    destruct (saved (h user)) as [user' |] eqn:Es; [| by eauto].
    destruct (decide (userId = id)) as [-> | Hne].
    + rewrite lookup_insert_eq. exists user'. split; [done |]. right.
      exists h. split; [done |]. congruence.
    + rewrite lookup_insert_ne by done. eauto.
  - destruct (serve_public env req db Eh) as [-> | (b & user & _ & Hnew & _ & _ & _ & ->)];
      cbn [fst]; [by eauto |].
    rewrite lookup_insert_ne by congruence. eauto.
Qed.

Lemma serve_all_snoc reqs er (db : DB) :
  serve_all (reqs ++ [er]) db = fst (serve (fst er) (snd er) (serve_all reqs db)).
Proof. unfold Server.serve_all. by rewrite fold_left_app. Qed.

(** *** The default address across requests *)

Lemma handler_keeps_one_default env r h u u' :
  Spec.user_handler env r = Some h →
  saved (h u) = Some u' →
  Spec.at_most_one_default (addresses u) →
  Spec.at_most_one_default (addresses u').
Proof.
  destruct r; cbn [Spec.user_handler]; intros [= <-]; try done.
  - unfold post_cart_add. destruct (add_name b), (add_price b); try done.
    destruct (_ || _); [done |]. by intros [= <-].
  - by intros [= <-].
  - by intros [= <-].
  - by intros [= <-].
  - unfold post_orders. destruct (_ =? _)%nat; [done |]. by intros [= <-].
  - apply post_addresses_defaults.
  - apply put_address_defaults.
  - apply delete_address_defaults.
Qed.

Lemma serve_keeps_one_default env req (db : DB) :
  map_Forall (λ _ u, Spec.at_most_one_default (addresses u)) db →
  map_Forall (λ _ u, Spec.at_most_one_default (addresses u)) (fst (serve env req db)).
Proof.
  intros Hdb id u' Hu'.
  destruct (serve_effect _ _ _ _ _ Hu') as [H | [(u & h & Hu & Hh & Hs) | (_ & _ & _ & Ha)]].
  - by apply (Hdb id).
  - eapply handler_keeps_one_default; [done.. |]. by apply (Hdb id).
  - rewrite Ha. unfold Spec.at_most_one_default, Spec.defaults. simpl. lia.
Qed.

Lemma serve_all_keeps_one_default reqs (db : DB) :
  map_Forall (λ _ u, Spec.at_most_one_default (addresses u)) db →
  map_Forall (λ _ u, Spec.at_most_one_default (addresses u)) (serve_all reqs db).
Proof.
  induction reqs as [| er reqs IH] using rev_ind; intros Hdb; [done |].
  rewrite serve_all_snoc. by apply serve_keeps_one_default, IH.
Qed.

End Service.

(** ** Claim C2 *)

Lemma post_addresses_clears (env : Server.Env) (b : Server.AddressBody)
    (u u' : Server.User) :
  Server.saved (Server.post_addresses env b u) = Some u' →
  Js.truthy_bool (Server.ab_isDefault b) = true ∨ Server.addresses u = [] →
  ∃ newAddress,
    Server.addresses u' = Server.clear_defaults (Server.addresses u) ++ [newAddress]
    ∧ Server.isDefault newAddress = true
    ∧ Forall (λ a, Server.isDefault a = false) (Server.clear_defaults (Server.addresses u)).
Proof.
  intros Hs Hfirst. destruct (post_addresses_saved _ _ _ _ Hs) as (a & Ha & Hd & _).
  cbv zeta in *.
  assert (E : Js.truthy_bool (Server.ab_isDefault b)
              || (length (Server.addresses u) =? 0)%nat = true).
  { destruct Hfirst as [-> | ->]; [done | by rewrite orb_true_r]. }
  rewrite E in Ha, Hd. exists a. split; [done |]. split; [done |].
  apply clear_defaults_all_false.
Qed.

Lemma put_address_clears (id : string) (updates : Server.AddressUpdates)
    (u u' : Server.User) :
  Server.saved (Server.put_address id updates u) = Some u' →
  Js.truthy_bool (Server.au_isDefault updates) = true →
  ∃ i written,
    Js.findIndex (Server.matches_id id) (Server.addresses u) = Some i
    ∧ Server.addresses u' !! i = Some written
    ∧ Server.isDefault written = true
    ∧ ∀ j a, j ≠ i → Server.addresses u' !! j = Some a → Server.isDefault a = false.
Proof.
  intros Hs Hd. destruct (put_address_saved _ _ _ _ Hs) as (i & a & Hi & Ha & Hu & _).
  cbv zeta in *. rewrite Hd in Ha, Hu.
  exists i, (Server.assign_updates updates a). split; [done |].
  split; [| split].
  - rewrite Hu. apply list_lookup_insert_eq. by eapply lookup_lt_Some.
  - unfold Server.assign_updates, Server.isDefault. cbn.
    destruct (Server.au_isDefault updates) as [[|] |]; done.
  - intros j x Hne Hx. rewrite Hu, list_lookup_insert_ne in Hx by done.
    by eapply (Forall_lookup_1 _ _ _ _ (clear_defaults_all_false _)).
Qed.

(** C2: whatever requests the service answers, starting from the empty
    store (where every account is created with an empty address list), no
    user ever has more than one default address; adding an address with
    [isDefault] set, or adding the first address, and updating an address
    with [isDefault] set, leave every other address of the user with
    [isDefault] false. *)
Theorem C2_at_most_one_default :
  (∀ jwt_sign jwt_verify bcrypt_hash bcrypt_compare toLowerCase reqs id u,
     Server.serve_all jwt_sign jwt_verify bcrypt_hash bcrypt_compare toLowerCase reqs ∅
       !! id = Some u →
     Spec.at_most_one_default (Server.addresses u))
  ∧ (∀ env b u u',
       Server.saved (Server.post_addresses env b u) = Some u' →
       Js.truthy_bool (Server.ab_isDefault b) = true ∨ Server.addresses u = [] →
       ∃ newAddress,
         Server.addresses u' = Server.clear_defaults (Server.addresses u) ++ [newAddress]
         ∧ Server.isDefault newAddress = true
         ∧ Forall (λ a, Server.isDefault a = false)
                  (Server.clear_defaults (Server.addresses u)))
  ∧ (∀ id updates u u',
       Server.saved (Server.put_address id updates u) = Some u' →
       Js.truthy_bool (Server.au_isDefault updates) = true →
       ∃ i written,
         Js.findIndex (Server.matches_id id) (Server.addresses u) = Some i
         ∧ Server.addresses u' !! i = Some written
         ∧ Server.isDefault written = true
         ∧ ∀ j a, j ≠ i → Server.addresses u' !! j = Some a → Server.isDefault a = false).
Proof.
  split; [| split].
  - intros jwt_sign jwt_verify bcrypt_hash bcrypt_compare toLowerCase reqs id u Hu.
    eapply (serve_all_keeps_one_default _ _ _ _ _ reqs ∅); [| exact Hu].
    apply map_Forall_empty.
  - apply post_addresses_clears.
  - apply put_address_clears.
Qed.

Lemma C2_at_most_one_default_witness :
  (∃ u, Samples.serve_all Samples.address_session ∅ !! "u1" = Some u
        ∧ map Server.isDefault (Server.addresses u) = [true; false]
        ∧ Spec.at_most_one_default (Server.addresses u))
  ∧ (∃ newAddress,
       Server.addresses Samples.two_addresses_then_third
       = Server.clear_defaults (Server.addresses Samples.two_addresses) ++ [newAddress]
       ∧ Server.isDefault newAddress = true
       ∧ Forall (λ a, Server.isDefault a = false)
                (Server.clear_defaults (Server.addresses Samples.two_addresses)))
  ∧ (∃ i written,
       Js.findIndex (Server.matches_id "a2") (Server.addresses Samples.two_addresses)
       = Some i
       ∧ Server.addresses Samples.two_addresses_second_default !! i = Some written
       ∧ Server.isDefault written = true
       ∧ ∀ j a, j ≠ i →
           Server.addresses Samples.two_addresses_second_default !! j = Some a →
           Server.isDefault a = false).
Proof.
  destruct C2_at_most_one_default as (Hstore & Hpost & Hput).
  split; [| split].
  - eexists. split; [vm_compute; reflexivity |]. split; [reflexivity |].
    eapply (Hstore Samples.jwt_sign Samples.jwt_verify Samples.bcrypt_hash
              Samples.bcrypt_compare Samples.toLowerCase Samples.address_session "u1").
    vm_compute. reflexivity.
  - apply (Hpost (Samples.env 3000 "a3")
             (Samples.address_body "Shop" "9876543212" "411003" (Some true))
             Samples.two_addresses Samples.two_addresses_then_third); [reflexivity |].
    by left.
  - apply (Hput "a2" Samples.make_default Samples.two_addresses
             Samples.two_addresses_second_default); reflexivity.
Defined.

(** ** Claim C3 *)

(** [Math.max(1, quantity)] is at least 1, unless the quantity is [NaN]. *)
Lemma max1_at_least_1 (quantity : Js.number) :
  is_nan quantity = false → (Js.num 1 <=? Client.max1 quantity)%float = true.
Proof.
  intros Hq. unfold Client.max1. destruct (quantity <? Js.num 1)%float eqn:H; [done |].
  by apply not_ltb_leb.
Qed.

Lemma assign_first_Forall {A} (P : A → Prop) (p : A → bool) (f : A → A) (l : list A) :
  (∀ x, P x → P (f x)) → Forall P l → Forall P (Server.assign_first p f l).
Proof.
  intros Hf. induction 1 as [| x l Hx Hl IH]; simpl; [done |].
  destruct (p x); constructor; auto.
Qed.

Lemma filter_Forall {A} (P Q : A → Prop) `{!∀ x, Decision (Q x)} (l : list A) :
  Forall P l → Forall P (filter Q l).
Proof.
  rewrite !Forall_forall. intros Hl x Hx. apply Hl.
  by apply list_elem_of_filter in Hx as [_ Hx].
Qed.

(** The browser's own update of a guest cart clamps the quantity at 1. *)
Lemma guest_update_keeps_quantities (productName : string) (quantity : Js.number)
    (c : Client.State) :
  is_nan quantity = false →
  Client.isLoggedIn c = false →
  Spec.quantities_at_least_1 (Client.cart c) →
  ∃ c', Client.updateCartItemQuantity productName quantity c = Client.Ret c'
        ∧ Spec.quantities_at_least_1 (Client.cart c').
Proof.
  intros Hnan Hguest Hq. unfold Client.updateCartItemQuantity. rewrite Hguest. cbn [negb].
  destruct (List.find _ _); [| by exists c].
  eexists. split; [reflexivity |].
  unfold Client.updateCartDisplay.
  match goal with |- context [Client.set_cart ?l c] => set (cart' := l) end.
  assert (Hcart' : Spec.quantities_at_least_1 cart').
  { apply assign_first_Forall; [| done]. intros x _. by apply max1_at_least_1. }
  cbn. destruct (Client.cart_page c); [destruct (length cart' =? 0)%nat |]; exact Hcart'.
Qed.

(** The service keeps quantities at least 1 when the requested quantity is 0
    or at least 1. *)
Lemma server_update_keeps_quantities (b : Server.UpdateBody) (u u' : Server.User) :
  Server.upd_quantity b = Js.num 0 ∨ (Js.num 1 <=? Server.upd_quantity b)%float = true →
  Server.saved (Server.put_cart_update b u) = Some u' →
  Spec.quantities_at_least_1 (Server.cart u) →
  Spec.quantities_at_least_1 (Server.cart u').
Proof.
  intros Hb. unfold Server.put_cart_update.
  cbn [Server.saved Server.save]. intros [= <-] Hq. cbn [Server.cart Server.set_cart].
  destruct (Server.upd_quantity b =? Js.num 0)%float eqn:Hz.
  - by apply filter_Forall.
  - apply assign_first_Forall; [| done]. intros x _. cbn.
    destruct Hb as [Hb | Hb]; [| done]. by rewrite Hb in Hz.
Qed.

Lemma guest_remove_keeps_quantities (productName : string) (c : Client.State) :
  Client.isLoggedIn c = false →
  Spec.quantities_at_least_1 (Client.cart c) →
  ∃ c', Client.removeFromCart productName c = Client.Ret c'
        ∧ Spec.quantities_at_least_1 (Client.cart c').
Proof.
  intros Hguest Hq. unfold Client.removeFromCart. rewrite Hguest. cbn [negb].
  eexists. split; [reflexivity |].
  unfold Client.updateCartDisplay.
  match goal with |- context [Client.set_cart ?l c] => set (cart' := l) end.
  assert (Hcart' : Spec.quantities_at_least_1 cart') by by apply filter_Forall.
  cbn. destruct (Client.cart_page c); [destruct (length cart' =? 0)%nat |]; exact Hcart'.
Qed.

(** The buttons of the cart page ([window.updateQuantity]) on a guest page:
    below 1 the item is removed, if the user agrees, else the quantity is
    set. *)
Lemma guest_updateQuantity_keeps_quantities (confirmed : bool) (productName : string)
    (newQuantity : Js.number) (c : Client.State) :
  is_nan newQuantity = false →
  Client.isLoggedIn c = false →
  Spec.quantities_at_least_1 (Client.cart c) →
  ∃ c', Client.updateQuantity confirmed productName newQuantity c = Client.Ret c'
        ∧ Spec.quantities_at_least_1 (Client.cart c').
Proof.
  intros Hnan Hguest Hq. unfold Client.updateQuantity.
  destruct (newQuantity <? Js.num 1)%float; [destruct confirmed |].
  - by apply guest_remove_keeps_quantities.
  - by exists c.
  - by apply guest_update_keeps_quantities.
Qed.

(** A logged-in page never asks the service for a quantity below 1. *)
Lemma client_update_request_at_least_1 (productName : string) (quantity : Js.number)
    (c : Client.State) :
  is_nan quantity = false →
  Client.isLoggedIn c = true →
  ∃ k, Client.updateCartItemQuantity productName quantity c
       = Client.Fetch
           {| Server.authorization := Client.authorization_header c;
              Server.route :=
                Server.PutCartUpdate {| Server.upd_item := productName;
                                        Server.upd_quantity := Client.max1 quantity |} |} k
       ∧ (Js.num 1 <=? Client.max1 quantity)%float = true.
Proof.
  intros Hnan Hin. unfold Client.updateCartItemQuantity. rewrite Hin. cbn [negb].
  eexists. split; [reflexivity |]. by apply max1_at_least_1.
Qed.

Lemma server_remove_keeps_quantities (name : string) (u u' : Server.User) :
  Server.saved (Server.delete_cart_remove name u) = Some u' →
  Spec.quantities_at_least_1 (Server.cart u) →
  Spec.quantities_at_least_1 (Server.cart u').
Proof. cbn. intros [= <-] Hq. cbn. by apply filter_Forall. Qed.

(** C3 (code defect): the service stores a requested quantity of -3 as it
    is. After registering, adding one item and asking [PUT /api/cart/update]
    for quantity -3, the stored cart holds that item with quantity -3. *)
Theorem C3_update_stores_negative_quantity :
  ∃ u, Samples.serve_all Samples.negative_quantity_session ∅ !! "u1" = Some u
       ∧ map (λ item, (Server.item_name item, Server.item_quantity item))
             (Server.cart u) = [("Paracetamol", Js.num (-3))]
       ∧ ¬ Spec.quantities_at_least_1 (Server.cart u).
Proof.
  eexists. split; [vm_compute; reflexivity |]. split; [vm_compute; reflexivity |].
  intros H. apply Forall_cons_1 in H as [H _]. vm_compute in H. discriminate H.
Qed.

(** ** Claim C4 *)

Lemma handler_extends_orders env r h (u u' : Server.User) :
  Spec.user_handler env r = Some h →
  Server.saved (h u) = Some u' →
  ∃ later, Server.orders u' = Server.orders u ++ later.
Proof.
  destruct r; cbn [Spec.user_handler]; intros [= <-]; try done.
  - unfold Server.post_cart_add. destruct (Server.add_name b), (Server.add_price b); try done.
    destruct (_ || _); [done |]. intros [= <-]. exists []. by rewrite app_nil_r.
  - intros [= <-]. exists []. by rewrite app_nil_r.
  - intros [= <-]. exists []. by rewrite app_nil_r.
  - intros [= <-]. exists []. by rewrite app_nil_r.
  - unfold Server.post_orders. destruct (_ =? _)%nat; [done |]. intros [= <-]. by eexists.
  - intros Hs. destruct (post_addresses_saved _ _ _ _ Hs) as (_ & _ & _ & _ & ->).
    exists []. by rewrite app_nil_r.
  - intros Hs. destruct (put_address_saved _ _ _ _ Hs) as (_ & _ & _ & _ & _ & _ & ->).
    exists []. by rewrite app_nil_r.
  - intros [= <-]. exists []. by rewrite app_nil_r.
Qed.

Section Orders.
Import Server.
Context (jwt_sign : string → Z → string) (jwt_verify : string → Z → option string)
        (bcrypt_hash : string → string) (bcrypt_compare : string → string → bool)
        (toLowerCase : string → string).

Local Abbreviation serve := (serve jwt_sign jwt_verify bcrypt_hash bcrypt_compare toLowerCase).
Local Abbreviation serve_all :=
  (serve_all jwt_sign jwt_verify bcrypt_hash bcrypt_compare toLowerCase).

Lemma serve_extends_orders env req (db : DB) id u :
  db !! id = Some u →
  ∃ u' later, fst (serve env req db) !! id = Some u' ∧ orders u' = orders u ++ later.
Proof.
  intros Hu.
  destruct (serve_keeps jwt_sign jwt_verify bcrypt_hash bcrypt_compare toLowerCase
              env req db id u Hu) as (u' & Hu' & [-> | (h & Hh & Hs)]).
  - exists u, []. by rewrite app_nil_r.
  - destruct (handler_extends_orders _ _ _ _ _ Hh Hs) as [later Hl]. by exists u', later.
Qed.

Lemma serve_all_extends_orders reqs (db : DB) id u :
  db !! id = Some u →
  ∃ u' later, serve_all reqs db !! id = Some u' ∧ orders u' = orders u ++ later.
Proof.
  intros Hu. induction reqs as [| er reqs IH] using rev_ind.
  - exists u, []. by rewrite app_nil_r.
  - destruct IH as (u1 & l1 & Hu1 & Ho1).
    rewrite serve_all_snoc.
    destruct (serve_extends_orders (fst er) (snd er) _ id u1 Hu1) as (u2 & l2 & Hu2 & Ho2).
    exists u2, (l1 ++ l2). split; [done |]. by rewrite Ho2, Ho1, app_assoc.
Qed.

End Orders.

Lemma post_orders_snapshot (env : Server.Env) (b : Server.OrderBody) (u : Server.User) :
  Server.cart u ≠ [] →
  ∃ o u',
    Server.post_orders env b u = Server.save u' (Server.ok (Server.JOrder o))
    ∧ Server.orders u' = Server.orders u ++ [o]
    ∧ Server.cart u' = []
    ∧ Server.items o = Server.cart u
    ∧ Server.deliveryAddress o
      = match Server.ob_deliveryAddress b with
        | Some a => Some a
        | None => List.find Server.isDefault (Server.addresses u)
        end.
Proof.
  intros Hne. unfold Server.post_orders.
  destruct (Server.cart u) as [| x l] eqn:E; [done |]. cbn [length Nat.eqb].
  eexists _, _. split; [reflexivity |]. cbn. done.
Qed.

(** C4: an order, once stored, keeps its place and every one of its fields
    whatever requests the service answers afterwards (cart changes, address
    updates and deletions, further orders, requests of other users); the
    order created by [POST /api/orders] holds the cart as it was at that
    moment and the delivery address of the request or else the user's
    default address at that moment. *)
Theorem C4_orders_immutable :
  (∀ jwt_sign jwt_verify bcrypt_hash bcrypt_compare toLowerCase reqs
     (db : gmap string Server.User) id u i o,
     db !! id = Some u →
     Server.orders u !! i = Some o →
     ∃ u', Server.serve_all jwt_sign jwt_verify bcrypt_hash bcrypt_compare toLowerCase
             reqs db !! id = Some u'
           ∧ Server.orders u' !! i = Some o)
  ∧ (∀ env b u,
       Server.cart u ≠ [] →
       ∃ o u',
         Server.post_orders env b u = Server.save u' (Server.ok (Server.JOrder o))
         ∧ Server.orders u' = Server.orders u ++ [o]
         ∧ Server.cart u' = []
         ∧ Server.items o = Server.cart u
         ∧ Server.deliveryAddress o
           = match Server.ob_deliveryAddress b with
             | Some a => Some a
             | None => List.find Server.isDefault (Server.addresses u)
             end).
Proof.
  split; [| apply post_orders_snapshot].
  intros jwt_sign jwt_verify bcrypt_hash bcrypt_compare toLowerCase reqs db id u i o Hu Ho.
  destruct (serve_all_extends_orders jwt_sign jwt_verify bcrypt_hash bcrypt_compare
              toLowerCase reqs db id u Hu) as (u' & later & Hu' & Hl).
  exists u'. split; [done |]. rewrite Hl. by apply lookup_app_l_Some.
Qed.

Lemma C4_orders_immutable_witness :
  ∃ u o u',
    Samples.serve_all Samples.order_session ∅ !! "u1" = Some u
    ∧ Server.orders u !! 0%nat = Some o
    ∧ map Server.item_name (Server.items o) = ["Paracetamol"]
    ∧ Samples.serve_all Samples.later_session (Samples.serve_all Samples.order_session ∅)
        !! "u1" = Some u'
    ∧ length (Server.orders u') = 2%nat
    ∧ Server.addresses u' = []
    ∧ Server.orders u' !! 0%nat = Some o.
Proof.
  assert (Hu : Samples.serve_all Samples.order_session ∅ !! "u1" = Some _)
    by (vm_compute; reflexivity).
  match type of Hu with
  | _ = Some ?u =>
      assert (Ho : Server.orders u !! 0%nat = Some _) by (vm_compute; reflexivity)
  end.
  destruct (proj1 C4_orders_immutable Samples.jwt_sign Samples.jwt_verify
              Samples.bcrypt_hash Samples.bcrypt_compare Samples.toLowerCase
              Samples.later_session _ "u1" _ 0%nat _ Hu Ho) as (u' & Hu' & Ho').
  eexists _, _, u'. split; [exact Hu |]. split; [exact Ho |]. split; [reflexivity |].
  split; [exact Hu' |].
  assert (E : Some u' = Some _) by (rewrite <- Hu'; vm_compute; reflexivity).
  injection E as ->.
  split; [reflexivity |]. split; [reflexivity |]. exact Ho'.
Defined.

(** ** Claims C8, C9 and C10 *)

Section Carts.
Import Server.
Context (jwt_sign : string → Z → string) (jwt_verify : string → Z → option string)
        (bcrypt_hash : string → string) (bcrypt_compare : string → string → bool)
        (toLowerCase : string → string).

Local Abbreviation serve := (serve jwt_sign jwt_verify bcrypt_hash bcrypt_compare toLowerCase).
Local Abbreviation authenticateToken := (authenticateToken jwt_verify).

(** A request whose bearer token verifies as a stored user passes
    [authenticateToken]. *)
Lemma authenticateToken_valid env authHeader (db : DB) token id u :
  bearer_token authHeader = Some token →
  Js.truthy_string (Some token) = true →
  jwt_verify token (now env) = Some id →
  db !! id = Some u →
  authenticateToken env authHeader db = Next id u.
Proof.
  intros Hb Ht Hv Hu. unfold Server.authenticateToken.
  rewrite Hb, Ht. cbn. by rewrite Hv, Hu.
Qed.

Lemma serve_clear env authHeader (db : DB) id u :
  authenticateToken env authHeader db = Next id u →
  serve env {| authorization := authHeader; route := DeleteCartClear |} db
  = (<[id := set_cart [] u]> db, ok (JCart [] ZERO_TOTALS)).
Proof. intros Ha. unfold Server.serve, protected. cbn. by rewrite Ha. Qed.

Lemma serve_order env authHeader b (db : DB) id u :
  authenticateToken env authHeader db = Next id u →
  cart u ≠ [] →
  ∃ o u',
    serve env {| authorization := authHeader; route := PostOrders b |} db
    = (<[id := u']> db, ok (JOrder o))
    ∧ cart u' = [] ∧ orders u' = orders u ++ [o] ∧ items o = cart u.
Proof.
  intros Ha Hne. destruct (post_orders_snapshot env b u Hne) as (o & u' & Hp & Ho & Hc & Hi & _).
  exists o, u'. split; [| done].
  unfold Server.serve, protected. cbn. by rewrite Ha, Hp.
Qed.

Lemma serve_order_empty env authHeader b (db : DB) id u :
  authenticateToken env authHeader db = Next id u →
  cart u = [] →
  serve env {| authorization := authHeader; route := PostOrders b |} db
  = (db, fail 400 "Cart is empty").
Proof.
  intros Ha Hc. unfold Server.serve, protected. cbn. rewrite Ha.
  unfold post_orders. by rewrite Hc.
Qed.

End Carts.

(** C8: for an authenticated user, [DELETE /api/cart/clear] stores an empty
    cart for that user (orders and addresses as they were) and answers 200
    with an empty cart and the totals 0, 0, 0, 0. *)
Theorem C8_clear_cart :
  ∀ jwt_sign jwt_verify bcrypt_hash bcrypt_compare toLowerCase env authHeader
    (db : gmap string Server.User) id u,
    Server.authenticateToken jwt_verify env authHeader db = Server.Next id u →
    ∃ db' u',
      Server.serve jwt_sign jwt_verify bcrypt_hash bcrypt_compare toLowerCase env
        {| Server.authorization := authHeader; Server.route := Server.DeleteCartClear |} db
      = (db', {| Server.status := 200;
                 Server.body :=
                   Server.JCart []
                     {| Server.subtotal := Js.num 0; Server.deliveryFee := Js.num 0;
                        Server.tax := Js.num 0; Server.totals_total := Js.num 0 |} |})
      ∧ db' !! id = Some u'
      ∧ Server.cart u' = []
      ∧ Server.orders u' = Server.orders u
      ∧ Server.addresses u' = Server.addresses u.
Proof.
  intros jwt_sign jwt_verify bcrypt_hash bcrypt_compare toLowerCase env authHeader db id u Ha.
  exists (<[id := Server.set_cart [] u]> db), (Server.set_cart [] u).
  split; [by apply serve_clear |]. by rewrite lookup_insert_eq.
Qed.

Lemma C8_clear_cart_witness :
  ∃ db' u',
    Samples.serve (Samples.env 3000 "x1") (Samples.asha Server.DeleteCartClear) Samples.shop
    = (db', Server.ok (Server.JCart [] Server.ZERO_TOTALS))
    ∧ db' !! "u1" = Some u'
    ∧ Server.cart u' = []
    ∧ Server.orders u' = Server.orders Samples.shopper
    ∧ Server.addresses u' = Server.addresses Samples.shopper.
Proof.
  apply (C8_clear_cart Samples.jwt_sign Samples.jwt_verify Samples.bcrypt_hash
           Samples.bcrypt_compare Samples.toLowerCase (Samples.env 3000 "x1")
           (Some "Bearer jwt.u1") Samples.shop "u1" Samples.shopper).
  vm_compute. reflexivity.
Defined.

(** C9: for a user whose token verifies at both moments and whose cart is
    not empty, [POST /api/orders] answers 200 with the order and stores the
    user with the order appended and the cart empty; the same request sent
    again right after it answers 400 with [Cart is empty] and changes
    nothing. *)
Theorem C9_order_empties_cart :
  ∀ jwt_sign jwt_verify bcrypt_hash bcrypt_compare toLowerCase env1 env2 authHeader token
    b1 b2 (db : gmap string Server.User) id u,
    Server.bearer_token authHeader = Some token →
    Js.truthy_string (Some token) = true →
    jwt_verify token (Server.now env1) = Some id →
    jwt_verify token (Server.now env2) = Some id →
    db !! id = Some u →
    Server.cart u ≠ [] →
    ∃ db1 o u1,
      Server.serve jwt_sign jwt_verify bcrypt_hash bcrypt_compare toLowerCase env1
        {| Server.authorization := authHeader; Server.route := Server.PostOrders b1 |} db
      = (db1, {| Server.status := 200; Server.body := Server.JOrder o |})
      ∧ db1 !! id = Some u1
      ∧ Server.cart u1 = []
      ∧ Server.orders u1 = Server.orders u ++ [o]
      ∧ Server.serve jwt_sign jwt_verify bcrypt_hash bcrypt_compare toLowerCase env2
          {| Server.authorization := authHeader; Server.route := Server.PostOrders b2 |} db1
        = (db1, {| Server.status := 400; Server.body := Server.JError "Cart is empty" |}).
Proof.
  intros jwt_sign jwt_verify bcrypt_hash bcrypt_compare toLowerCase env1 env2 authHeader
    token b1 b2 db id u Hb Ht Hv1 Hv2 Hu Hne.
  pose proof (authenticateToken_valid jwt_verify env1 authHeader db token id u Hb Ht Hv1 Hu)
    as Ha1.
  destruct (serve_order jwt_sign jwt_verify bcrypt_hash bcrypt_compare toLowerCase
              env1 authHeader b1 db id u Ha1 Hne) as (o & u1 & Hs & Hc & Ho & _).
  exists (<[id := u1]> db), o, u1. split; [exact Hs |].
  split; [by rewrite lookup_insert_eq |]. split; [done |]. split; [done |].
  apply (serve_order_empty jwt_sign jwt_verify bcrypt_hash bcrypt_compare toLowerCase
           env2 authHeader b2 _ id u1); [| done].
  apply (authenticateToken_valid jwt_verify env2 authHeader _ token id u1); try done.
  by rewrite lookup_insert_eq.
Qed.

Lemma C9_order_empties_cart_witness :
  ∃ db1 o u1,
    Samples.serve (Samples.env 3000 "x1") (Samples.asha (Server.PostOrders Samples.order_body))
      Samples.shop
    = (db1, Server.ok (Server.JOrder o))
    ∧ db1 !! "u1" = Some u1
    ∧ Server.cart u1 = []
    ∧ Server.orders u1 = Server.orders Samples.shopper ++ [o]
    ∧ Samples.serve (Samples.env 3001 "x2")
        (Samples.asha (Server.PostOrders Samples.order_body)) db1
      = (db1, Server.fail 400 "Cart is empty").
Proof.
  apply (C9_order_empties_cart Samples.jwt_sign Samples.jwt_verify Samples.bcrypt_hash
           Samples.bcrypt_compare Samples.toLowerCase (Samples.env 3000 "x1")
           (Samples.env 3001 "x2") (Some "Bearer jwt.u1") "jwt.u1"
           Samples.order_body Samples.order_body Samples.shop "u1" Samples.shopper);
    try (vm_compute; reflexivity).
  discriminate.
Defined.

Lemma filter_all {A} (P : A → Prop) `{!∀ x, Decision (P x)} (l : list A) :
  Forall P l → filter P l = l.
Proof.
  induction 1 as [| x l Hx _ IH]; [done |].
  rewrite filter_cons, IH. by rewrite decide_True.
Qed.




(** ** Claim C6 *)

Lemma logout_removes_session (c : Client.State) : Spec.session_removed (Client.logout c).
Proof.
  unfold Spec.session_removed, Client.logout, Client.removeUser, Client.removeToken.
  cbn. unfold Client.TOKEN, Client.USER, Client.CART_CACHE.
  repeat split; by simplify_map_eq.
Qed.

Lemma apiCall_unauthorized (endpoint : Server.Route) (c : Client.State) (status : nat)
    (data : Server.Body) (rest : list Client.FetchResult) :
  status = 401%nat ∨ status = 403%nat →
  Client.run (Client.apiCall endpoint c) (Client.Http status true data :: rest)
  = Some ((Client.logout
             (Client.showToast "Session expired. Please login again." "error" c),
           Client.Undefined),
          [ {| Server.authorization := Client.authorization_header c;
               Server.route := endpoint |} ],
          rest).
Proof. by intros [-> | ->]. Qed.

Lemma authenticateToken_Reject jwt_verify env authHeader (db : gmap string Server.User) r :
  Server.authenticateToken jwt_verify env authHeader db = Server.Reject r →
  Server.status r = 401%nat ∨ Server.status r = 403%nat.
Proof.
  unfold Server.authenticateToken.
  destruct (negb _); [intros [= <-]; by left |].
  destruct (_ ≫= _) as [userId |]; [| intros [= <-]; by right].
  destruct (db !! userId); [done |]. intros [= <-]. by left.
Qed.

(** C6: behind [authenticateToken], a request without a bearer token is
    answered 401 and one whose token does not verify is answered 403, the
    store untouched; and when a JSON reply has status 401 or 403, in
    particular when the service turned the page's own request down,
    [apiCall] logs out: token, user and cart cache are gone from
    [localStorage]. *)
Theorem C6_auth_failure_forces_logout :
  (∀ jwt_sign jwt_verify bcrypt_hash bcrypt_compare toLowerCase env req
     (db : gmap string Server.User) h,
     Spec.user_handler env (Server.route req) = Some h →
     Js.truthy_string (Server.bearer_token (Server.authorization req)) = false →
     Server.serve jwt_sign jwt_verify bcrypt_hash bcrypt_compare toLowerCase env req db
     = (db, {| Server.status := 401;
               Server.body := Server.JError "Authentication required" |}))
  ∧ (∀ jwt_sign jwt_verify bcrypt_hash bcrypt_compare toLowerCase env req
       (db : gmap string Server.User) h token,
       Spec.user_handler env (Server.route req) = Some h →
       Server.bearer_token (Server.authorization req) = Some token →
       Js.truthy_string (Some token) = true →
       jwt_verify token (Server.now env) = None →
       Server.serve jwt_sign jwt_verify bcrypt_hash bcrypt_compare toLowerCase env req db
       = (db, {| Server.status := 403;
                 Server.body := Server.JError "Invalid or expired token" |}))
  ∧ (∀ endpoint c status data rest,
       status = 401%nat ∨ status = 403%nat →
       ∃ c' req,
         Client.run (Client.apiCall endpoint c) (Client.Http status true data :: rest)
         = Some ((c', Client.Undefined), [req], rest)
         ∧ Spec.session_removed c')
  ∧ (∀ jwt_sign jwt_verify bcrypt_hash bcrypt_compare toLowerCase env endpoint c
       (db : gmap string Server.User) h r,
       Spec.user_handler env endpoint = Some h →
       Server.authenticateToken jwt_verify env (Client.authorization_header c) db
       = Server.Reject r →
       ∃ c',
         Client.exec
           (Server.serve jwt_sign jwt_verify bcrypt_hash bcrypt_compare toLowerCase)
           (Client.apiCall endpoint c) [env] db
         = Some ((c', Client.Undefined), db)
         ∧ Spec.session_removed c').
Proof.
  split; [| split; [| split]].
  - intros jwt_sign jwt_verify bcrypt_hash bcrypt_compare toLowerCase env req db h Hh Ht.
    rewrite (serve_protected _ _ _ _ _ _ _ _ h Hh).
    unfold Server.protected, Server.authenticateToken. by rewrite Ht.
  - intros jwt_sign jwt_verify bcrypt_hash bcrypt_compare toLowerCase env req db h token
      Hh Hb Ht Hv.
    rewrite (serve_protected _ _ _ _ _ _ _ _ h Hh).
    unfold Server.protected, Server.authenticateToken. rewrite Hb, Ht. cbn. by rewrite Hv.
  - intros endpoint c status data rest Hst.
    eexists _, _. split; [by apply apiCall_unauthorized |]. apply logout_removes_session.
  - intros jwt_sign jwt_verify bcrypt_hash bcrypt_compare toLowerCase env endpoint c db h r
      Hh Ha.
    eexists. unfold Client.apiCall. cbn [Client.exec].
    rewrite (serve_protected _ _ _ _ _ _ _ _ h) by exact Hh.
    unfold Server.protected. cbn [Server.authorization]. rewrite Ha.
    destruct (authenticateToken_Reject _ _ _ _ _ Ha) as [-> | ->];
      (split; [reflexivity | apply logout_removes_session]).
Qed.

Lemma C6_auth_failure_forces_logout_witness :
  Samples.serve (Samples.env 3000 "x1")
    {| Server.authorization := None; Server.route := Server.GetCart |} Samples.shop
  = (Samples.shop, Server.fail 401 "Authentication required")
  ∧ Samples.serve (Samples.env 3000 "x1")
      {| Server.authorization := Some "Bearer expired"; Server.route := Server.GetCart |}
      Samples.shop
    = (Samples.shop, Server.fail 403 "Invalid or expired token")
  ∧ (∃ c',
       Client.exec Samples.serve (Client.apiCall Server.GetCart Samples.stale_page)
         [Samples.env 3000 "x1"] Samples.shop
       = Some ((c', Client.Undefined), Samples.shop)
       ∧ Spec.session_removed c').
Proof.
  destruct C6_auth_failure_forces_logout as (H401 & H403 & _ & Hexec).
  split; [| split].
  - by apply (H401 Samples.jwt_sign Samples.jwt_verify Samples.bcrypt_hash
                Samples.bcrypt_compare Samples.toLowerCase _ _ _ Server.get_cart).
  - by apply (H403 Samples.jwt_sign Samples.jwt_verify Samples.bcrypt_hash
                Samples.bcrypt_compare Samples.toLowerCase _ _ _ Server.get_cart "expired").
  - apply (Hexec Samples.jwt_sign Samples.jwt_verify Samples.bcrypt_hash
             Samples.bcrypt_compare Samples.toLowerCase (Samples.env 3000 "x1")
             Server.GetCart Samples.stale_page Samples.shop Server.get_cart
             (Server.fail 403 "Invalid or expired token")); [done |].
    vm_compute. reflexivity.
Defined.

(** ** Claim C5 *)

Lemma run_bind {A B} (p : Client.Prog A) (f : A → Client.Prog B)
    (replies : list Client.FetchResult) :
  Client.run (Client.bind p f) replies
  = match Client.run p replies with
    | Some (a, sent1, unread1) =>
        match Client.run (f a) unread1 with
        | Some (b, sent2, unread2) => Some (b, sent1 ++ sent2, unread2)
        | None => None
        end
    | None => None
    end.
Proof.
  revert replies. induction p as [a | req k IH |]; intros replies; cbn.
  - by destruct (Client.run (f a) replies) as [[[b sent] unread] |].
  - destruct replies as [| r replies]; [done |]. rewrite IH.
    destruct (Client.run (k r) replies) as [[[a sent1] unread1] |]; [| done].
    by destruct (Client.run (f a) unread1) as [[[b sent2] unread2] |].
  - done.
Qed.

Lemma run_apiCall (endpoint : Server.Route) (c : Client.State) (r : Client.FetchResult)
    (rest : list Client.FetchResult) :
  Client.run (Client.apiCall endpoint c) (r :: rest)
  = Some (Client.receive c r,
          [ {| Server.authorization := Client.authorization_header c;
               Server.route := endpoint |} ],
          rest).
Proof. reflexivity. Qed.

Lemma receive_ok (c : Client.State) (status : nat) (data : Server.Body) :
  Client.response_ok status = true →
  Client.receive c (Client.Http status true data) = (c, Client.Data data).
Proof. intros H. unfold Client.receive. by rewrite H. Qed.

Lemma loadCart_from_server (c : Client.State) (status : nat) (l : list Server.CartItem)
    (calculations : Server.Totals) (rest : list Client.FetchResult) :
  Client.isLoggedIn c = true →
  Client.response_ok status = true →
  Client.run (Client.loadCart c) (Client.Http status true (Server.JCart l calculations) :: rest)
  = Some (Client.updateCartCount (Client.cacheCart l (Client.set_cart l c)),
          [ {| Server.authorization := Client.authorization_header c;
               Server.route := Server.GetCart |} ],
          rest).
Proof.
  intros Hin Hok. unfold Client.loadCart. rewrite Hin. cbn [negb].
  unfold mbind, Client.Prog_bind. rewrite run_bind, run_apiCall, receive_ok by done.
  reflexivity.
Qed.

(** When the call for the cart fails, [loadCart] falls back on the cache. *)
Lemma loadCart_fallback (c : Client.State) (message : string)
    (rest : list Client.FetchResult) :
  Client.isLoggedIn c = true →
  Client.run (Client.loadCart c) (Client.NetworkError message :: rest)
  = Some (Client.updateCartCount (Client.set_cart (Client.getCachedCart c) c),
          [ {| Server.authorization := Client.authorization_header c;
               Server.route := Server.GetCart |} ],
          rest).
Proof.
  intros Hin. unfold Client.loadCart. rewrite Hin. cbn [negb].
  unfold mbind, Client.Prog_bind. by rewrite run_bind, run_apiCall.
Qed.

(** The page right after [handleLogin] stored the token and the user. *)
Lemma logged_in_after_setToken (token : string) (user : Client.UserInfo) (c : Client.State) :
  Js.truthy_string (Some token) = true →
  let c2 := Client.set_currentUser (Some user)
              (Client.setUser user (Client.setToken token c)) in
  Client.isLoggedIn c2 = true
  ∧ Client.authorization_header c2 = Some ("Bearer " +:+ token).
Proof.
  intros Ht c2.
  assert (Hg : Client.getToken c2 = Some token).
  { unfold c2, Client.getToken. cbn. rewrite lookup_insert_ne by done.
    by rewrite lookup_insert_eq. }
  unfold Client.isLoggedIn, Client.authorization_header. by rewrite Hg, Ht.
Qed.

Lemma receive_failed (c : Client.State) (r : Client.FetchResult) :
  Spec.call_failed r → ∃ message, Client.receive c r = (c, Client.Threw message).
Proof.
  destruct r as [m | st json d]; cbn; [by eexists |].
  intros [-> | (Hok & H401 & H403)]; [by eexists |].
  destruct json; cbn [negb]; [| by eexists]. rewrite Hok. cbn [negb].
  destruct (Nat.eqb_spec st 401); [done |]. destruct (Nat.eqb_spec st 403); [done |].
  by eexists.
Qed.

Lemma loadCart_failed (c : Client.State) (r : Client.FetchResult)
    (rest : list Client.FetchResult) :
  Client.isLoggedIn c = true →
  Spec.call_failed r →
  Client.run (Client.loadCart c) (r :: rest)
  = Some (Client.updateCartCount (Client.set_cart (Client.getCachedCart c) c),
          [ {| Server.authorization := Client.authorization_header c;
               Server.route := Server.GetCart |} ],
          rest).
Proof.
  intros Hin Hr. unfold Client.loadCart. rewrite Hin. cbn [negb].
  unfold mbind, Client.Prog_bind. rewrite run_bind, run_apiCall.
  by destruct (receive_failed c r Hr) as [m ->].
Qed.

(** C5, as stated, fails when the call for the cart fails: the login is
    answered with a token, [GET /api/cart] is answered 500, and [handleLogin]
    returns [true] all the same, with the guest's one strip still in memory
    and in the cache, while the service holds two other lines for the
    user. *)
Lemma C5_guest_cart_kept_when_cart_call_fails :
  ∃ c',
    Client.run (Client.handleLogin "asha@example.com" "secret1"
                  (Samples.guest Samples.one_strip))
      [ Client.Http 200 true (Server.JAuth "jwt.u1" "u1" "asha@example.com" "Asha Rao");
        Client.Http 500 true (Server.JError "Failed to get cart") ]
    = Some ((c', Client.Returned true),
            [ {| Server.authorization := None;
                 Server.route :=
                   Server.PostAuthLogin {| Server.lb_email := Some "asha@example.com";
                                           Server.lb_password := Some "secret1" |} |};
              {| Server.authorization := Some "Bearer jwt.u1";
                 Server.route := Server.GetCart |} ],
            [])
    ∧ Client.cart c' = Samples.one_strip
    ∧ Client.getCachedCart c' = Samples.one_strip
    ∧ Client.cart c' ≠ Server.cart Samples.shopper
    ∧ Client.getCachedCart c' ≠ Server.cart Samples.shopper.
Proof.
  eexists. split; [vm_compute; reflexivity |].
  split; [reflexivity |]. split; [reflexivity |]. split; discriminate.
Qed.

(** C5 (amended): when the login call is answered with a token and the
    call for the cart that follows is answered with the server's cart,
    [handleLogin] returns [true] and leaves that cart, and nothing of the
    guest cart, both in memory and in the local cache; [GET /api/cart]
    answers with the cart stored for the user. When the call for the cart
    fails instead (no network, a reply that is not JSON, a status outside
    200 to 299 other than 401 and 403), [handleLogin] returns [true] all the
    same and the cart of the cache, the guest's, is the cart in memory and
    stays in the cache. *)
Theorem C5_login_server_cart_wins :
  (∀ email password c status1 token id user_email name status2 serverCart calculations rest,
     Client.response_ok status1 = true →
     Client.response_ok status2 = true →
     Js.truthy_string (Some token) = true →
     ∃ c',
       Client.run (Client.handleLogin email password c)
         (Client.Http status1 true (Server.JAuth token id user_email name)
          :: Client.Http status2 true (Server.JCart serverCart calculations) :: rest)
       = Some ((c', Client.Returned true),
               [ {| Server.authorization := Client.authorization_header c;
                    Server.route :=
                      Server.PostAuthLogin {| Server.lb_email := Some email;
                                              Server.lb_password := Some password |} |};
                 {| Server.authorization := Some ("Bearer " +:+ token);
                    Server.route := Server.GetCart |} ],
               rest)
       ∧ Client.cart c' = serverCart
       ∧ Client.localStorage c' !! Client.CART_CACHE = Some (Client.StoredCart serverCart)
       ∧ Client.getCachedCart c' = serverCart)
  ∧ (∀ u, Server.get_cart u
          = Server.reply (Server.ok (Server.JCart (Server.cart u)
                                       (Server.calculateCartTotal (Server.cart u)))))
  ∧ (∀ email password c status1 token id user_email name r rest,
       Client.response_ok status1 = true →
       Js.truthy_string (Some token) = true →
       Spec.call_failed r →
       ∃ c',
         Client.run (Client.handleLogin email password c)
           (Client.Http status1 true (Server.JAuth token id user_email name) :: r :: rest)
         = Some ((c', Client.Returned true),
                 [ {| Server.authorization := Client.authorization_header c;
                      Server.route :=
                        Server.PostAuthLogin {| Server.lb_email := Some email;
                                                Server.lb_password := Some password |} |};
                   {| Server.authorization := Some ("Bearer " +:+ token);
                      Server.route := Server.GetCart |} ],
                 rest)
         ∧ Client.cart c' = Client.getCachedCart c
         ∧ Client.getCachedCart c' = Client.getCachedCart c).
Proof.
  split; [| split; [done |]].
  - intros email password c status1 token id user_email name status2 serverCart calculations
      rest Hok1 Hok2 Htoken.
    unfold Client.handleLogin, mbind, Client.Prog_bind.
    rewrite run_bind, run_apiCall, receive_ok by done.
    rewrite run_bind.
    destruct (logged_in_after_setToken token
                {| Client.ui_id := id; Client.ui_email := user_email; Client.ui_name := name |}
                c Htoken) as [Hin Hhdr].
    rewrite (loadCart_from_server _ status2 serverCart calculations rest Hin Hok2).
    rewrite Hhdr. eexists. split; [reflexivity |].
    cbn. unfold Client.getCachedCart. cbn. by rewrite lookup_insert_eq.
  - intros email password c status1 token id user_email name r rest Hok1 Htoken Hr.
    unfold Client.handleLogin, mbind, Client.Prog_bind.
    rewrite run_bind, run_apiCall, receive_ok by done.
    rewrite run_bind.
    destruct (logged_in_after_setToken token
                {| Client.ui_id := id; Client.ui_email := user_email; Client.ui_name := name |}
                c Htoken) as [Hin Hhdr].
    rewrite (loadCart_failed _ r rest Hin Hr).
    rewrite Hhdr. eexists. split; [reflexivity |].
    cbn. unfold Client.getCachedCart. cbn.
    rewrite lookup_insert_ne by done. by rewrite lookup_insert_ne by done.
Qed.

Lemma C5_login_server_cart_wins_witness :
  ∃ c',
    Client.run (Client.handleLogin "asha@example.com" "secret1"
                  (Samples.guest Samples.one_strip))
      [ Client.Http 200 true (Server.JAuth "jwt.u1" "u1" "asha@example.com" "Asha Rao");
        Client.Http 200 true
          (Server.JCart (Server.cart Samples.shopper)
             (Server.calculateCartTotal (Server.cart Samples.shopper))) ]
    = Some ((c', Client.Returned true),
            [ {| Server.authorization := None;
                 Server.route :=
                   Server.PostAuthLogin {| Server.lb_email := Some "asha@example.com";
                                           Server.lb_password := Some "secret1" |} |};
              {| Server.authorization := Some "Bearer jwt.u1";
                 Server.route := Server.GetCart |} ],
            [])
    ∧ Client.cart c' = Server.cart Samples.shopper
    ∧ Client.localStorage c' !! Client.CART_CACHE
      = Some (Client.StoredCart (Server.cart Samples.shopper))
    ∧ Client.getCachedCart c' = Server.cart Samples.shopper.
Proof.
  apply (proj1 C5_login_server_cart_wins "asha@example.com" "secret1"
           (Samples.guest Samples.one_strip) 200%nat "jwt.u1" "u1" "asha@example.com"
           "Asha Rao" 200%nat (Server.cart Samples.shopper)
           (Server.calculateCartTotal (Server.cart Samples.shopper)) []);
    reflexivity.
Defined.

(** The same login against the service itself: the guest cart of one strip
    gives way to the two items stored for the user. *)
Example login_against_service :
  ∃ c' db',
    Client.exec Samples.serve
      (Client.handleLogin "asha@example.com" "secret1" (Samples.guest Samples.one_strip))
      [Samples.env 3000 "x1"; Samples.env 3001 "x2"] Samples.shop
    = Some ((c', Client.Returned true), db')
    ∧ Client.cart c' = Server.cart Samples.shopper
    ∧ Client.getCachedCart c' = Server.cart Samples.shopper.
Proof.
  eexists _, _. split; [vm_compute; reflexivity |]. split; vm_compute; reflexivity.
Qed.

(** ** Claim C7 *)

Lemma addAddress_malformed (addressData : Client.AddressForm) (c : Client.State) :
  Spec.malformed (default "" (Client.af_phone addressData))
                 (default "" (Client.af_pincode addressData)) →
  ∃ message,
    Client.addAddress addressData c = Client.Ret (Client.showToast message "error" c, None).
Proof.
  intros Hbad. unfold Client.addAddress.
  destruct (negb (Client.isLoggedIn c)); [by eexists |].
  destruct (0 <? length (Client.missing addressData))%nat; [by eexists |].
  destruct (Js.test_digits 10 _) eqn:Ephone; cbn [negb]; [| by eexists].
  destruct (Js.test_digits 6 _) eqn:Epin; cbn [negb]; [| by eexists].
  destruct Hbad as [H | H]; congruence.
Qed.

Lemma post_addresses_missing (env : Server.Env) (b : Server.AddressBody) (u : Server.User) :
  Js.truthy_string (Server.ab_name b) && Js.truthy_string (Server.ab_phone b)
  && Js.truthy_string (Server.ab_address b) && Js.truthy_string (Server.ab_city b)
  && Js.truthy_string (Server.ab_state b) && Js.truthy_string (Server.ab_pincode b) = false →
  Server.post_addresses env b u = Server.reply (Server.fail 400 "All address fields required").
Proof.
  unfold Server.post_addresses.
  destruct (Server.ab_name b) as [name |]; [| done].
  destruct (Server.ab_phone b) as [phone |]; [| by destruct (Js.truthy_string (Some name))].
  destruct (Server.ab_address b) as [address |], (Server.ab_city b) as [city |],
    (Server.ab_state b) as [state |], (Server.ab_pincode b) as [pincode |];
    try (intros _; reflexivity).
  destruct (Js.truthy_string (Some name)), (Js.truthy_string (Some phone)),
    (Js.truthy_string (Some address)), (Js.truthy_string (Some city)),
    (Js.truthy_string (Some state)), (Js.truthy_string (Some pincode)); done.
Qed.

Lemma post_addresses_present (env : Server.Env) (b : Server.AddressBody) (u : Server.User) :
  Js.truthy_string (Server.ab_name b) && Js.truthy_string (Server.ab_phone b)
  && Js.truthy_string (Server.ab_address b) && Js.truthy_string (Server.ab_city b)
  && Js.truthy_string (Server.ab_state b) && Js.truthy_string (Server.ab_pincode b) = true →
  ∃ u' newAddress,
    Server.post_addresses env b u
    = Server.save u' (Server.ok (Server.JNewAddress newAddress))
    ∧ Server.addresses u'
      = (if Js.truthy_bool (Server.ab_isDefault b) || (length (Server.addresses u) =? 0)%nat
         then Server.clear_defaults (Server.addresses u) else Server.addresses u)
        ++ [ {| Server.addr_id := Server.new_id env; Server.addr_data := newAddress |} ]
    ∧ Server.addr_phone newAddress = Js.trim (default "" (Server.ab_phone b))
    ∧ Server.addr_pincode newAddress = Js.trim (default "" (Server.ab_pincode b)).
Proof.
  unfold Server.post_addresses.
  destruct (Server.ab_name b) as [name |]; [| done].
  destruct (Server.ab_phone b) as [phone |]; [| by destruct (Js.truthy_string (Some name))].
  destruct (Server.ab_address b) as [address |];
    [| by destruct (Js.truthy_string (Some name)), (Js.truthy_string (Some phone))].
  destruct (Server.ab_city b) as [city |];
    [| by destruct (Js.truthy_string (Some name)), (Js.truthy_string (Some phone)),
            (Js.truthy_string (Some address))].
  destruct (Server.ab_state b) as [state |];
    [| by destruct (Js.truthy_string (Some name)), (Js.truthy_string (Some phone)),
            (Js.truthy_string (Some address)), (Js.truthy_string (Some city))].
  destruct (Server.ab_pincode b) as [pincode |];
    [| by destruct (Js.truthy_string (Some name)), (Js.truthy_string (Some phone)),
            (Js.truthy_string (Some address)), (Js.truthy_string (Some city)),
            (Js.truthy_string (Some state))].
  destruct (Js.truthy_string (Some name)), (Js.truthy_string (Some phone)),
    (Js.truthy_string (Some address)), (Js.truthy_string (Some city)),
    (Js.truthy_string (Some state)), (Js.truthy_string (Some pincode)); try done.
  intros _. cbn [negb orb]. eexists _, _. split; [reflexivity |]. done.
Qed.

(** C7 (code defect): the service stores an address whose phone is not
    ten digits and whose pincode is not six. [POST /api/addresses] with
    the phone [12345] and the pincode [41] is answered 200 and the address
    is stored: the handler looks only at whether the six fields are there,
    where the browser's [addAddress] checks the digits (lemma
    [addAddress_malformed]). The browser's check in turn removes the
    spaces before it counts, and sends the fields with their inner spaces:
    the phone [98765 43210] and the pincode [411 001] pass it and are stored
    as they are. *)
Theorem C7_server_stores_malformed_address :
  Spec.well_formed "12345" "41" = false
  ∧ (∃ u' stored,
       Server.post_addresses (Samples.env 3000 "a9")
         (Samples.address_body "Home" "12345" "41" None) Samples.shopper
       = Server.save u' (Server.ok (Server.JNewAddress stored))
       ∧ Server.addresses u' = [ {| Server.addr_id := "a9"; Server.addr_data := stored |} ]
       ∧ Server.addr_phone stored = "12345"
       ∧ Server.addr_pincode stored = "41")
  ∧ ¬ Spec.rejected_400
        (Server.post_addresses (Samples.env 3000 "a9")
           (Samples.address_body "Home" "12345" "41" None) Samples.shopper)
  ∧ Spec.well_formed "98765 43210" "411 001" = false
  ∧ (∃ c' db' u' stored,
       Client.exec Samples.serve
         (Client.addAddress (Samples.form "98765 43210" "411 001") (Scenarios.asha_page []))
         [Samples.env 3001 "a9"] Scenarios.two_users
       = Some ((c', Some stored), db')
       ∧ db' !! "u1" = Some u'
       ∧ Server.addresses u' = [ {| Server.addr_id := "a9"; Server.addr_data := stored |} ]
       ∧ Server.addr_phone stored = "98765 43210"
       ∧ Server.addr_pincode stored = "411 001").
Proof.
  split; [reflexivity |]. split; [| split; [| split; [reflexivity |]]].
  - eexists _, _. split; [reflexivity |]. by vm_compute.
  - intros [Hsaved _]. vm_compute in Hsaved. discriminate Hsaved.
  - eexists _, _, _, _. split; [vm_compute; reflexivity |].
    split; [vm_compute; reflexivity |]. by vm_compute.
Qed.

(** * Further properties of the service *)

(** ** What a request can and cannot change *)

Lemma handler_saved_ok env r h (u u' : Server.User) :
  Spec.user_handler env r = Some h →
  Server.saved (h u) = Some u' →
  Server.status (Server.response (h u)) = 200%nat.
Proof.
  destruct r; cbn [Spec.user_handler]; intros [= <-]; try done.
  - unfold Server.post_cart_add. destruct (Server.add_name b), (Server.add_price b); try done.
    by destruct (_ || _).
  - unfold Server.post_orders. by destruct (_ =? _)%nat.
  - unfold Server.post_addresses.
    destruct (Server.ab_name b), (Server.ab_phone b), (Server.ab_address b),
      (Server.ab_city b), (Server.ab_state b), (Server.ab_pincode b); try done.
    by match goal with |- context [if ?c then Server.reply _ else _] => destruct c end.
  - unfold Server.put_address. destruct (Js.findIndex _ _); [| done].
    by destruct (_ !! _).
Qed.

Lemma handler_keeps_identity env r h (u u' : Server.User) :
  Spec.user_handler env r = Some h →
  Server.saved (h u) = Some u' →
  Server.email u' = Server.email u
  ∧ Server.password u' = Server.password u
  ∧ Server.user_name u' = Server.user_name u.
Proof.
  destruct r; cbn [Spec.user_handler]; intros [= <-]; try done.
  - unfold Server.post_cart_add. destruct (Server.add_name b), (Server.add_price b); try done.
    destruct (_ || _); [done |]. by intros [= <-].
  - by intros [= <-].
  - by intros [= <-].
  - by intros [= <-].
  - unfold Server.post_orders. destruct (_ =? _)%nat; [done |]. by intros [= <-].
  - unfold Server.post_addresses.
    destruct (Server.ab_name b), (Server.ab_phone b), (Server.ab_address b),
      (Server.ab_city b), (Server.ab_state b), (Server.ab_pincode b); try done.
    match goal with |- context [if ?c then Server.reply _ else _] => destruct c end;
      [done |]. by intros [= <-].
  - unfold Server.put_address. destruct (Js.findIndex _ _); [| done].
    destruct (_ !! _); [| done]. by intros [= <-].
  - by intros [= <-].
Qed.

Section Store.
Import Server.
Context (jwt_sign : string → Z → string) (jwt_verify : string → Z → option string)
        (bcrypt_hash : string → string) (bcrypt_compare : string → string → bool)
        (toLowerCase : string → string).

Local Abbreviation serve := (serve jwt_sign jwt_verify bcrypt_hash bcrypt_compare toLowerCase).
Local Abbreviation serve_all :=
  (serve_all jwt_sign jwt_verify bcrypt_hash bcrypt_compare toLowerCase).
Local Abbreviation authenticateToken := (authenticateToken jwt_verify).
Local Abbreviation protected := (protected jwt_verify).

(** What a registration does to the store. *)
Lemma register_effect env b (db db' : DB) r :
  post_auth_register jwt_sign bcrypt_hash toLowerCase env b db = (db', r) →
  (db' = db ∧ status r ≠ 200%nat)
  ∨ ∃ e p n,
      rb_email b = Some e ∧ rb_password b = Some p ∧ rb_name b = Some n
      ∧ Js.truthy_string (Some e) = true ∧ Js.truthy_string (Some p) = true
      ∧ (6 ≤ String.length p)%nat ∧ test_email e = true
      ∧ findOne_email (toLowerCase e) db = None
      ∧ db !! new_id env = None
      ∧ db' = <[new_id env := {| email := toLowerCase e; password := bcrypt_hash p;
                                 user_name := Js.trim n;
                                 cart := []; orders := []; addresses := [] |}]> db
      ∧ r = ok (JAuth (jwt_sign (new_id env) (now env)) (new_id env)
                      (toLowerCase e) (Js.trim n))
      ∧ Js.truthy_string (Some (Js.trim n)) = true.
Proof.
  unfold post_auth_register.
  destruct (rb_email b) as [e |]; [| intros [= <- <-]; by left].
  destruct (rb_password b) as [p |]; [| intros [= <- <-]; by left].
  destruct (rb_name b) as [n |]; [| intros [= <- <-]; by left].
  destruct (Js.truthy_string (Some e)) eqn:He; [| intros [= <- <-]; by left].
  destruct (Js.truthy_string (Some p)) eqn:Hp; [| intros [= <- <-]; by left].
  destruct (Js.truthy_string (Some n)) eqn:Hn; [| intros [= <- <-]; by left].
  cbn [negb orb].
  destruct (String.length p <? 6)%nat eqn:Hlen; [intros [= <- <-]; by left |].
  destruct (test_email e) eqn:Hmail; [| intros [= <- <-]; by left]. cbn [negb].
  destruct (findOne_email (toLowerCase e) db) eqn:Hfind; [intros [= <- <-]; by left |].
  destruct (required_fields _) eqn:Hreq; cbn [negb]; [| intros [= <- <-]; by left].
  destruct (db !! new_id env) eqn:Hnew; [intros [= <- <-]; by left |].
  intros [= <- <-]. right. exists e, p, n.
  apply Nat.ltb_ge in Hlen.
  unfold required_fields in Hreq. cbn [email password user_name] in Hreq.
  apply andb_true_iff in Hreq as [_ Hreq]. done.
Qed.

Lemma login_keeps_store env b (db : DB) :
  fst (post_auth_login jwt_sign bcrypt_compare toLowerCase env b db) = db.
Proof.
  unfold post_auth_login.
  destruct (lb_email b), (lb_password b); try done.
  destruct (_ || _); [done |].
  destruct (findOne_email _ _) as [[id user] |]; [| done].
  by destruct (negb _).
Qed.

(** X1: a stored account changes only through a request to a route behind
    [authenticateToken] that the middleware lets in as that very account.
    A registration or a login, whatever header it carries (the account's
    own token included), and a request to a protected route that is turned
    down or let in as another account, leave it as it is. *)
Theorem X1_other_users_untouched env req (db : DB) id u :
  db !! id = Some u →
  Spec.user_handler env (route req) = None
  ∨ (∀ u0, authenticateToken env (authorization req) db ≠ Next id u0) →
  fst (serve env req db) !! id = Some u.
Proof.
  intros Hu Hother. destruct (Spec.user_handler env (route req)) as [h |] eqn:Eh.
  - destruct Hother as [Hother | Hother]; [done |].
    rewrite (serve_protected _ _ _ _ _ _ _ _ h Eh). unfold Server.protected.
    destruct (authenticateToken _ _ _) as [userId user | r] eqn:Ea; cbn [fst]; [| done].
    destruct (saved (h user)); [| done].
    rewrite lookup_insert_ne; [done |]. intros ->. by apply (Hother user).
  - destruct (serve_public jwt_sign jwt_verify bcrypt_hash bcrypt_compare toLowerCase
                env req db Eh) as [-> | (b & user & _ & Hnew & _ & _ & _ & ->)];
      cbn [fst]; [done |].
    rewrite lookup_insert_ne; [done |]. congruence.
Qed.

(** X2: a request that is not answered 200 leaves the whole store as it
    was. *)
Theorem X2_failed_requests_change_nothing env req (db : DB) :
  status (snd (serve env req db)) ≠ 200%nat →
  fst (serve env req db) = db.
Proof.
  destruct (Spec.user_handler env (route req)) as [h |] eqn:Eh.
  - rewrite (serve_protected _ _ _ _ _ _ _ _ h Eh). unfold Server.protected.
    destruct (authenticateToken _ _ _) as [userId user | r]; cbn [fst snd]; [| done].
    destruct (saved (h user)) as [user' |] eqn:Es; [| done].
    intros Hst. by rewrite (handler_saved_ok _ _ _ _ _ Eh Es) in Hst.
  - unfold Server.serve.
    destruct (route req) as [b | b | | | | | | | | | | |]; try done.
    + destruct (post_auth_register _ _ _ _ _ _) as [db' r] eqn:Er. cbn [fst snd].
      destruct (register_effect _ _ _ _ _ Er) as [[-> _] | (e & p & n & H)]; [done |].
      destruct H as (_ & _ & _ & _ & _ & _ & _ & _ & _ & _ & -> & _). done.
    + intros _. apply login_keeps_store.
Qed.

(** *** E-mail addresses *)

Lemma findOne_email_None e (db : DB) :
  findOne_email e db = None → ∀ id u, db !! id = Some u → email u ≠ e.
Proof.
  unfold findOne_email. intros Hfind id u Hu.
  assert (Hin : In (id, u) (map_to_list db))
    by by apply list_elem_of_In, elem_of_map_to_list.
  pose proof (find_none _ _ Hfind (id, u) Hin) as Hne.
  by apply String.eqb_neq in Hne.
Qed.

Lemma findOne_email_Some e (db : DB) id u :
  findOne_email e db = Some (id, u) → db !! id = Some u ∧ email u = e.
Proof.
  unfold findOne_email. intros Hfind. apply find_some in Hfind as [Hin He].
  split.
  - by apply elem_of_map_to_list, list_elem_of_In.
  - by apply String.eqb_eq.
Qed.

Lemma findOne_email_inserted e (db : DB) id u :
  findOne_email e db = None →
  email u = e →
  findOne_email e (<[id := u]> db) = Some (id, u).
Proof.
  intros Hnone He.
  destruct (findOne_email e (<[id := u]> db)) as [[k v] |] eqn:Hfind.
  - apply findOne_email_Some in Hfind as [Hk Hv].
    destruct (decide (id = k)) as [-> | Hne].
    + rewrite lookup_insert_eq in Hk. by injection Hk as ->.
    + rewrite lookup_insert_ne in Hk by done.
      by destruct (findOne_email_None e db Hnone k v Hk).
  - destruct (findOne_email_None e _ Hfind id u); [apply lookup_insert_eq | done].
Qed.

(** A document that appears where there was none is the one a registration
    made, and its e-mail address is new to the store. *)
Lemma serve_fresh env req (db : DB) id u' :
  db !! id = None →
  fst (serve env req db) !! id = Some u' →
  id = new_id env ∧ ∀ id2 u2, db !! id2 = Some u2 → email u2 ≠ email u'.
Proof.
  intros Hnone Hu'. destruct (Spec.user_handler env (route req)) as [h |] eqn:Eh.
  - exfalso. revert Hu'. rewrite (serve_protected _ _ _ _ _ _ _ _ h Eh). unfold Server.protected.
    destruct (authenticateToken _ _ _) as [userId user | r] eqn:Ea; cbn [fst];
      [| by rewrite Hnone].
    apply authenticateToken_Next in Ea.
    destruct (saved (h user)); [| by rewrite Hnone].
    destruct (decide (userId = id)) as [-> | Hne]; [congruence |].
    by rewrite lookup_insert_ne, Hnone.
  - revert Hu'. unfold Server.serve.
    destruct (route req) as [b | b | | | | | | | | | | |]; try done.
    + destruct (post_auth_register _ _ _ _ _ _) as [db' r] eqn:Er. cbn [fst].
      destruct (register_effect _ _ _ _ _ Er) as [[-> _] | (e & p & n & H)];
        [by rewrite Hnone |].
      destruct H as (_ & _ & _ & _ & _ & _ & _ & Hfind & _ & -> & _).
      destruct (decide (new_id env = id)) as [<- | Hne].
      * rewrite lookup_insert_eq. intros [= <-]. split; [done |]. cbn.
        by apply findOne_email_None.
      * by rewrite lookup_insert_ne, Hnone.
    + by rewrite login_keeps_store, Hnone.
Qed.

Lemma serve_keeps_unique_emails env req (db : DB) :
  Props.unique_emails db → Props.unique_emails (fst (serve env req db)).
Proof.
  intros Hdb id1 id2 u1 u2 H1 H2 Hmail.
  assert (Hold : ∀ id u', fst (serve env req db) !! id = Some u' →
            (∃ u, db !! id = Some u ∧ email u = email u') ∨ db !! id = None).
  { intros id u' Hu'.
    destruct (serve_effect jwt_sign jwt_verify bcrypt_hash bcrypt_compare toLowerCase
                _ _ _ _ _ Hu') as [H | [(u & h & Hu & Hh & Hs) | (Hn & _)]].
    - left. by exists u'.
    - left. exists u. split; [done |].
      by destruct (handler_keeps_identity _ _ _ _ _ Hh Hs) as [-> _].
    - by right. }
  destruct (Hold id1 u1 H1) as [(v1 & Hv1 & E1) | N1],
    (Hold id2 u2 H2) as [(v2 & Hv2 & E2) | N2].
  - apply (Hdb id1 id2 v1 v2); congruence.
  - destruct (serve_fresh env req db id2 u2 N2 H2) as [_ Hnew].
    destruct (Hnew id1 v1 Hv1). congruence.
  - destruct (serve_fresh env req db id1 u1 N1 H1) as [_ Hnew].
    destruct (Hnew id2 v2 Hv2). congruence.
  - destruct (serve_fresh env req db id1 u1 N1 H1) as [-> _].
    by destruct (serve_fresh env req db id2 u2 N2 H2) as [-> _].
Qed.

(** X3: whatever requests the service answers, starting from the empty
    store, no two accounts have the same e-mail address. *)
Theorem X3_emails_stay_unique reqs id1 id2 u1 u2 :
  serve_all reqs ∅ !! id1 = Some u1 →
  serve_all reqs ∅ !! id2 = Some u2 →
  email u1 = email u2 →
  id1 = id2.
Proof.
  assert (H : Props.unique_emails (serve_all reqs ∅)); [| apply H].
  induction reqs as [| er reqs IH] using rev_ind.
  - intros i1 i2 v1 v2 H1. unfold Server.serve_all in H1. cbn [fold_left] in H1.
    by rewrite lookup_empty in H1.
  - rewrite (serve_all_snoc jwt_sign jwt_verify bcrypt_hash bcrypt_compare toLowerCase).
    by apply serve_keeps_unique_emails.
Qed.

(** X4: an account that was just registered can log in: the same e-mail
    address (in whatever case) and password are answered 200 with a token
    signed for the new account, its lower-cased e-mail address and its
    trimmed name, provided [bcrypt.compare] accepts the password against
    its own hash; a password it does not accept is answered 401. Neither
    login changes the store. *)
Theorem X4_register_then_login env1 env2 a1 a2 e p n (db db1 : DB) r1 :
  serve env1 {| authorization := a1;
                route := PostAuthRegister {| rb_email := Some e; rb_password := Some p;
                                             rb_name := Some n |} |} db = (db1, r1) →
  status r1 = 200%nat →
  (bcrypt_compare p (bcrypt_hash p) = true →
   serve env2 {| authorization := a2;
                 route := PostAuthLogin {| lb_email := Some e; lb_password := Some p |} |} db1
   = (db1, ok (JAuth (jwt_sign (new_id env1) (now env2)) (new_id env1)
                     (toLowerCase e) (Js.trim n))))
  ∧ (∀ p', Js.truthy_string (Some p') = true →
           bcrypt_compare p' (bcrypt_hash p) = false →
           serve env2 {| authorization := a2;
                         route := PostAuthLogin {| lb_email := Some e;
                                                   lb_password := Some p' |} |} db1
           = (db1, fail 401 "Invalid credentials")).
Proof.
  unfold Server.serve. cbn [route]. intros Hreg Hok.
  destruct (register_effect _ _ _ _ _ Hreg) as [[_ Hbad] | (e0 & p0 & n0 & H)]; [done |].
  cbn [rb_email rb_password rb_name] in H.
  destruct H as ([= <-] & [= <-] & [= <-] & He & Hp & _ & _ & Hfind & _ & -> & _).
  assert (Hlook : findOne_email (toLowerCase e)
                    (<[new_id env1 := {| email := toLowerCase e; password := bcrypt_hash p;
                                         user_name := Js.trim n; cart := []; orders := [];
                                         addresses := [] |}]> db)
                  = Some (new_id env1,
                          {| email := toLowerCase e; password := bcrypt_hash p;
                             user_name := Js.trim n; cart := []; orders := [];
                             addresses := [] |}))
    by by apply findOne_email_inserted.
  split.
  - intros Hcmp. unfold post_auth_login. cbn [lb_email lb_password].
    rewrite He, Hp. cbn [negb orb]. rewrite Hlook. cbn [password]. by rewrite Hcmp.
  - intros p' Hp' Hcmp. unfold post_auth_login. cbn [lb_email lb_password].
    rewrite He, Hp'. cbn [negb orb]. rewrite Hlook. cbn [password]. by rewrite Hcmp.
Qed.

End Store.

Lemma X1_other_users_untouched_witness :
  fst (Samples.serve (Samples.env 4000 "z1") (Samples.asha Server.DeleteCartClear)
         Scenarios.two_users) !! "u2" = Some Scenarios.ravi
  ∧ fst (Samples.serve (Samples.env 4001 "z2")
           (Samples.asha (Server.PostAuthLogin
                            {| Server.lb_email := Some "asha@example.com";
                               Server.lb_password := Some "secret1" |}))
           Scenarios.two_users) !! "u1" = Some Samples.shopper.
Proof.
  split.
  - apply (X1_other_users_untouched Samples.jwt_sign Samples.jwt_verify Samples.bcrypt_hash
             Samples.bcrypt_compare Samples.toLowerCase).
    + reflexivity.
    + right. intros u0. vm_compute. discriminate.
  - apply (X1_other_users_untouched Samples.jwt_sign Samples.jwt_verify Samples.bcrypt_hash
             Samples.bcrypt_compare Samples.toLowerCase).
    + reflexivity.
    + left. reflexivity.
Defined.

Lemma X2_failed_requests_change_nothing_witness :
  fst (Samples.serve (Samples.env 4000 "z1")
         (Scenarios.as_ravi (Server.PostOrders Samples.order_body)) Scenarios.two_users)
  = Scenarios.two_users.
Proof.
  apply (X2_failed_requests_change_nothing Samples.jwt_sign Samples.jwt_verify
           Samples.bcrypt_hash Samples.bcrypt_compare Samples.toLowerCase).
  vm_compute. discriminate.
Defined.

Lemma X3_emails_stay_unique_witness :
  ∃ u, Samples.serve_all
         [ (Samples.env 1000 "u1", Samples.register_asha);
           (Samples.env 1001 "u9", Samples.register_asha);
           (Samples.env 1002 "u2", Scenarios.register_meera) ] ∅ !! "u1" = Some u
       ∧ Samples.serve_all
           [ (Samples.env 1000 "u1", Samples.register_asha);
             (Samples.env 1001 "u9", Samples.register_asha);
             (Samples.env 1002 "u2", Scenarios.register_meera) ] ∅ !! "u9" = None
       ∧ ("u1" : string) = "u1".
Proof.
  eexists. split; [vm_compute; reflexivity |]. split; [vm_compute; reflexivity |].
  eapply (X3_emails_stay_unique Samples.jwt_sign Samples.jwt_verify Samples.bcrypt_hash
            Samples.bcrypt_compare Samples.toLowerCase
            [ (Samples.env 1000 "u1", Samples.register_asha);
              (Samples.env 1001 "u9", Samples.register_asha);
              (Samples.env 1002 "u2", Scenarios.register_meera) ]);
    [vm_compute; reflexivity | vm_compute; reflexivity | reflexivity].
Defined.

Lemma X4_register_then_login_witness :
  Samples.serve (Samples.env 4001 "z2") (Scenarios.login_meera "tulsi123")
    (fst (Samples.serve (Samples.env 4000 "u3") Scenarios.register_meera Scenarios.two_users))
  = (fst (Samples.serve (Samples.env 4000 "u3") Scenarios.register_meera Scenarios.two_users),
     Server.ok (Server.JAuth "jwt.u3" "u3" "Meera@Example.com" "Meera Nair"))
  ∧ Samples.serve (Samples.env 4001 "z2") (Scenarios.login_meera "tulsi124")
      (fst (Samples.serve (Samples.env 4000 "u3") Scenarios.register_meera
              Scenarios.two_users))
    = (fst (Samples.serve (Samples.env 4000 "u3") Scenarios.register_meera
              Scenarios.two_users),
       Server.fail 401 "Invalid credentials").
Proof.
  destruct (X4_register_then_login Samples.jwt_sign Samples.jwt_verify Samples.bcrypt_hash
              Samples.bcrypt_compare Samples.toLowerCase (Samples.env 4000 "u3")
              (Samples.env 4001 "z2") None None "Meera@Example.com" "tulsi123"
              "  Meera Nair " Scenarios.two_users
              (fst (Samples.serve (Samples.env 4000 "u3") Scenarios.register_meera
                      Scenarios.two_users))
              (snd (Samples.serve (Samples.env 4000 "u3") Scenarios.register_meera
                      Scenarios.two_users)))
    as [Hgood Hbad]; [by apply surjective_pairing | by vm_compute |].
  split; [by apply Hgood | by apply Hbad].
Defined.

(** ** The cart on the service *)

Lemma not_in_names_filter (name : string) (l : list Server.CartItem) :
  name ∉ Props.names (filter (λ item, Server.item_name item ≠ name) l).
Proof.
  induction l as [| x l IH]; [apply not_elem_of_nil |]. rewrite filter_cons.
  case_decide; [| done]. cbn. apply not_elem_of_cons. split; [done | exact IH].
Qed.

Lemma findIndex_from_name_None (name : string) (k : nat) (l : list Server.CartItem) :
  Js.findIndex_from (λ item _, String.eqb (Server.item_name item) name) k l = None →
  name ∉ Props.names l.
Proof.
  revert k. induction l as [| x l IH]; intros k; cbn; [intros _; apply not_elem_of_nil |].
  destruct (String.eqb_spec (Server.item_name x) name) as [| Hne]; [done |].
  intros H. apply not_elem_of_cons. split; [done | by apply (IH (S k))].
Qed.

Lemma findIndex_from_name_Some (name : string) (k i : nat) (l : list Server.CartItem) :
  Js.findIndex_from (λ item _, String.eqb (Server.item_name item) name) k l = Some i →
  name ∈ Props.names l.
Proof.
  revert k. induction l as [| x l IH]; intros k; cbn; [done |].
  destruct (String.eqb_spec (Server.item_name x) name) as [<- | Hne].
  - intros _. apply list_elem_of_here.
  - intros H. apply list_elem_of_further. by apply (IH (S k)).
Qed.

(** What a successful [POST /api/cart/add] stores. *)
Lemma post_cart_add_saved (b : Server.AddBody) (u u' : Server.User) :
  Server.saved (Server.post_cart_add b u) = Some u' →
  ∃ name price,
    Server.add_name b = Some name ∧ Server.add_price b = Some price
    ∧ Js.truthy_string (Some name) = true ∧ Js.truthy_number (Some price) = true
    ∧ Server.orders u' = Server.orders u ∧ Server.addresses u' = Server.addresses u
    ∧ Server.response (Server.post_cart_add b u)
      = Server.ok (Server.JCart (Server.cart u') (Server.calculateCartTotal (Server.cart u')))
    ∧ Server.cart u'
      = match Js.findIndex (λ item _, String.eqb (Server.item_name item) name)
                           (Server.cart u) with
        | Some i =>
            alter (λ item, Server.set_quantity (Server.item_quantity item + Js.num 1)%float item)
                  i (Server.cart u)
        | None =>
            Server.cart u ++ [ {| Server.item_name := name; Server.item_price := price;
                                  Server.item_image := Server.add_image b;
                                  Server.item_quantity := Js.num 1 |} ]
        end.
Proof.
  unfold Server.post_cart_add.
  destruct (Server.add_name b) as [name |]; [| done].
  destruct (Server.add_price b) as [price |]; [| done].
  destruct (Js.truthy_string (Some name)) eqn:Hn; [| done].
  destruct (Js.truthy_number (Some price)) eqn:Hp; [| done].
  cbn [negb orb Server.saved Server.save Server.response]. intros [= <-].
  exists name, price. done.
Qed.

(** X7: [DELETE /api/cart/remove] stores the cart without any line of that
    name, the other lines as they were and in their order; removing the
    same name again changes nothing; and removing a name right after it was
    added to a cart that did not have it gives back that cart. *)
Theorem X7_remove_undoes_add :
  (∀ name u,
     ∃ u', Server.saved (Server.delete_cart_remove name u) = Some u'
           ∧ Server.cart u' = filter (λ item, Server.item_name item ≠ name) (Server.cart u)
           ∧ (name ∉ Props.names (Server.cart u'))
           ∧ Server.saved (Server.delete_cart_remove name u') = Some u')
  ∧ (∀ b name u u1,
       Server.add_name b = Some name →
       name ∉ Props.names (Server.cart u) →
       Server.saved (Server.post_cart_add b u) = Some u1 →
       ∃ u2, Server.saved (Server.delete_cart_remove name u1) = Some u2
             ∧ Server.cart u2 = Server.cart u).
Proof.
  split.
  - intros name u. eexists. split; [reflexivity |]. cbn.
    split; [done |]. split; [apply not_in_names_filter |].
    f_equal. unfold Server.set_cart. cbn. f_equal.
    apply filter_all. apply Forall_forall. intros x Hx.
    by apply list_elem_of_filter in Hx as [Hx _].
  - intros b name u u1 Hname Hnot Hs.
    destruct (post_cart_add_saved b u u1 Hs)
      as (name' & price & Hn & _ & _ & _ & _ & _ & _ & Hc).
    rewrite Hname in Hn. injection Hn as <-.
    unfold Js.findIndex in Hc. destruct (Js.findIndex_from _ _ _) eqn:Ei;
      [destruct Hnot; by eapply findIndex_from_name_Some |].
    eexists. split; [reflexivity |]. cbn. rewrite Hc, filter_app.
    rewrite filter_cons_False by (cbn; intros H; by apply H).
    rewrite filter_nil, app_nil_r. apply filter_all.
    apply Forall_forall. intros x Hx Heq. apply Hnot. rewrite <- Heq.
    unfold Props.names. apply list_elem_of_In, in_map. by apply list_elem_of_In.
Qed.

Lemma X7_remove_undoes_add_witness :
  ∃ u1 u2,
    Server.saved (Server.post_cart_add {| Server.add_name := Some "Bandage";
                                          Server.add_price := Some (Js.num 30);
                                          Server.add_image := None |} Samples.shopper)
    = Some u1
    ∧ Server.saved (Server.delete_cart_remove "Bandage" u1) = Some u2
    ∧ Server.cart u2 = Server.cart Samples.shopper.
Proof.
  eexists _, _. split; [reflexivity |].
  match goal with
  | |- Server.saved (Server.delete_cart_remove _ ?u1) = _ ∧ _ => set (added := u1)
  end.
  split; [reflexivity |].
  destruct (proj2 X7_remove_undoes_add
              {| Server.add_name := Some "Bandage"; Server.add_price := Some (Js.num 30);
                 Server.add_image := None |} "Bandage" Samples.shopper added eq_refl)
    as (u2 & Hu2 & Hc); [| reflexivity |].
  - intros Hin. apply list_elem_of_In in Hin. cbn in Hin. intuition discriminate.
  - cbn in Hu2. injection Hu2 as <-. exact Hc.
Defined.


Section CartsAcrossRequests.
Import Server.
Context (jwt_sign : string → Z → string) (jwt_verify : string → Z → option string)
        (bcrypt_hash : string → string) (bcrypt_compare : string → string → bool)
        (toLowerCase : string → string).

Local Abbreviation serve := (serve jwt_sign jwt_verify bcrypt_hash bcrypt_compare toLowerCase).
Local Abbreviation serve_all :=
  (serve_all jwt_sign jwt_verify bcrypt_hash bcrypt_compare toLowerCase).


End CartsAcrossRequests.


(** ** Orders, newest first *)

Lemma insert_by_date_perm (o : Server.Order) (l : list Server.Order) :
  Server.insert_by_date o l ≡ₚ o :: l.
Proof.
  induction l as [| x l IH]; cbn; [done |].
  destruct (_ <=? _)%Z; [done |]. rewrite IH. apply Permutation_swap.
Qed.

Lemma insert_by_date_sorted (o : Server.Order) (l : list Server.Order) :
  Sorted (λ a b, (Server.createdAt b ≤ Server.createdAt a)%Z) l →
  Sorted (λ a b, (Server.createdAt b ≤ Server.createdAt a)%Z) (Server.insert_by_date o l).
Proof.
  induction 1 as [| x l Hl IH Hhd]; cbn; [by repeat constructor |].
  destruct (Z.leb_spec (Server.createdAt x) (Server.createdAt o)) as [Hle | Hgt].
  - constructor; [by constructor |]. by constructor.
  - constructor; [exact IH |].
    destruct Hhd as [| y l Hy]; cbn.
    + constructor. lia.
    + destruct (_ <=? _)%Z; constructor; [lia | done].
Qed.

(** X8: [GET /api/orders] answers with every order of the user, each
    exactly once, the newest first, and stores nothing. *)
Theorem X8_orders_newest_first (u : Server.User) :
  ∃ l, Server.get_orders u = Server.reply (Server.ok (Server.JOrders l))
       ∧ l ≡ₚ Server.orders u
       ∧ Props.newest_first l.
Proof.
  exists (Server.sort_newest_first (Server.orders u)). split; [done |].
  unfold Server.sort_newest_first, Props.newest_first. split.
  - induction (Server.orders u) as [| o l IH]; cbn; [done |].
    by rewrite insert_by_date_perm, IH.
  - apply Sorted_StronglySorted; [intros a b c Hab Hbc; lia |].
    induction (Server.orders u) as [| o l IH]; cbn; [constructor |].
    by apply insert_by_date_sorted.
Qed.

(** ** The cart page and the service *)

(** X10: for a cart that is not empty, the four amounts the cart page
    prints (the word [Free] standing for 0) are the totals the service
    computes for the same cart. *)
Theorem X10_page_shows_service_totals (c : Client.State) (pg : Client.CartPage) :
  Client.cart_page c = Some pg →
  Client.cart c ≠ [] →
  ∃ pg',
    Client.cart_page (Client.updateCartDisplay c) = Some pg'
    ∧ Props.amount (Client.cart_subtotal pg')
      = Server.subtotal (Server.calculateCartTotal (Client.cart c))
    ∧ Props.amount (Client.cart_delivery pg')
      = Server.deliveryFee (Server.calculateCartTotal (Client.cart c))
    ∧ Props.amount (Client.cart_tax pg')
      = Server.tax (Server.calculateCartTotal (Client.cart c))
    ∧ Props.amount (Client.cart_total pg')
      = Server.totals_total (Server.calculateCartTotal (Client.cart c)).
Proof.
  intros Hpg Hne. eexists. split; [by apply (display_of_totals c pg) |].
  cbv zeta.
  cbn [Client.cart_subtotal Client.cart_delivery Client.cart_tax Client.cart_total].
  unfold Client.calculateCartTotal, Server.calculateCartTotal.
  cbn [Server.subtotal Server.deliveryFee Server.tax Server.totals_total].
  change (fold_left _ (Client.cart c) (Js.num 0)) with (Server.raw_subtotal (Client.cart c)).
  unfold Server.raw_deliveryFee.
  destruct (Js.num 500 <? Server.raw_subtotal (Client.cart c))%float.
  - change (Js.num 0 =? Js.num 0)%float with true. by repeat split.
  - change (Js.num 50 =? Js.num 0)%float with false. by repeat split.
Qed.

Lemma X10_page_shows_service_totals_witness :
  ∃ pg',
    Client.cart_page (Client.updateCartDisplay (Samples.guest Samples.one_strip)) = Some pg'
    ∧ Props.amount (Client.cart_subtotal pg')
      = Server.subtotal (Server.calculateCartTotal Samples.one_strip)
    ∧ Props.amount (Client.cart_delivery pg')
      = Server.deliveryFee (Server.calculateCartTotal Samples.one_strip)
    ∧ Props.amount (Client.cart_tax pg')
      = Server.tax (Server.calculateCartTotal Samples.one_strip)
    ∧ Props.amount (Client.cart_total pg')
      = Server.totals_total (Server.calculateCartTotal Samples.one_strip).
Proof.
  apply (X10_page_shows_service_totals (Samples.guest Samples.one_strip) _ eq_refl).
  discriminate.
Defined.

(** ** Addresses on the service *)

Lemma ids_clear_defaults (l : list Server.Address) :
  map Server.addr_id (Server.clear_defaults l) = map Server.addr_id l.
Proof. unfold Server.clear_defaults. rewrite map_map. by apply map_ext. Qed.

Lemma ids_insert_same (l : list Server.Address) (i : nat) (a a' : Server.Address) :
  l !! i = Some a →
  Server.addr_id a' = Server.addr_id a →
  map Server.addr_id (<[i := a']> l) = map Server.addr_id l.
Proof.
  revert i. induction l as [| x l IH]; intros [| i] Hi Hid; simpl in *; try done.
  - injection Hi as ->. by rewrite Hid.
  - f_equal. by apply IH.
Qed.

Lemma clear_defaults_lookup (l : list Server.Address) (j : nat) :
  Server.clear_defaults l !! j = Server.set_isDefault false <$> l !! j.
Proof. unfold Server.clear_defaults. apply (list_lookup_fmap (Server.set_isDefault false)). Qed.

Lemma filter_from_sublist {A} (p : A → nat → bool) (k : nat) (l : list A) :
  Js.filter_from p k l `sublist_of` l.
Proof.
  revert k. induction l as [| x l IH]; intros k; cbn; [done |].
  destruct (p x k); by constructor.
Qed.

Lemma filter_from_all {A} (p : A → nat → bool) (k : nat) (l : list A) :
  (∀ j x, l !! j = Some x → p x (k + j)%nat = true) →
  Js.filter_from p k l = l.
Proof.
  revert k. induction l as [| x l IH]; intros k H; cbn; [done |].
  rewrite <- (Nat.add_0_r k) at 1. rewrite (H 0%nat x eq_refl). f_equal.
  apply IH. intros j y Hy. replace (S k + j)%nat with (k + S j)%nat by lia. by apply H.
Qed.

Lemma filter_from_Forall {A} (P : A → Prop) (p : A → nat → bool) (k : nat) (l : list A) :
  (∀ x j, p x j = true → P x) → Forall P (Js.filter_from p k l).
Proof.
  intros Hp. revert k. induction l as [| x l IH]; intros k; cbn; [done |].
  destruct (p x k) eqn:E; [| done]. constructor; [by eapply Hp | done].
Qed.

Lemma findIndex_from_None {A} (p : A → nat → bool) (k : nat) (l : list A) :
  Js.findIndex_from p k l = None →
  ∀ j x, l !! j = Some x → p x (k + j)%nat = false.
Proof.
  revert k. induction l as [| y l IH]; intros k H j x Hx; cbn in H; [done |].
  destruct (p y k) eqn:Ey; [done |]. destruct j as [| j]; cbn in Hx.
  - injection Hx as <-. by rewrite Nat.add_0_r.
  - replace (k + S j)%nat with (S k + j)%nat by lia. by apply (IH (S k)).
Qed.

(** X12: [DELETE /api/addresses/:id] is always answered 200 with
    [success], also when no address matches the id, in which case the
    addresses are stored as they were. The addresses it stores are
    addresses the user had, unchanged and in their order (no flag is turned
    on, no default is chosen anew), none of them with the [_id] of the
    request; cart and orders are as they were. *)
Theorem X12_delete_address (id : string) (u : Server.User) :
  ∃ u',
    Server.delete_address id u = Server.save u' (Server.ok Server.JSuccess)
    ∧ Server.addresses u' `sublist_of` Server.addresses u
    ∧ Forall (λ a, Server.addr_id a ≠ id) (Server.addresses u')
    ∧ (Js.findIndex (Server.matches_id id) (Server.addresses u) = None →
       Server.addresses u' = Server.addresses u)
    ∧ Server.cart u' = Server.cart u
    ∧ Server.orders u' = Server.orders u.
Proof.
  eexists. split; [reflexivity |].
  cbn [Server.addresses Server.set_addresses Server.cart Server.orders]. unfold Js.filteri.
  split; [apply filter_from_sublist |]. split; [| split; [| done]].
  - apply filter_from_Forall. intros x j Hx Heq.
    unfold Server.matches_id in Hx. rewrite Heq, String.eqb_refl, orb_true_r in Hx. done.
  - intros Hnone. apply filter_from_all. intros j x Hx.
    by rewrite (findIndex_from_None _ _ _ Hnone j x Hx).
Qed.

(** * Further properties of the browser script *)

(** ** The bearer token, from the page to the service *)

Lemma split_space_aux_no_space (cur : list ascii) (s : string) :
  Props.no_space s = true →
  Js.split_space_aux cur s
  = [string_of_list_ascii (rev cur ++ list_ascii_of_string s)].
Proof.
  unfold Props.no_space. revert cur. induction s as [| ch s IH]; intros cur H; cbn in *.
  - by rewrite app_nil_r.
  - apply andb_prop in H as [Hch Hs]. apply negb_true_iff in Hch. rewrite Hch.
    rewrite (IH _ Hs). cbn. by rewrite <- app_assoc.
Qed.

Lemma bearer_token_of_header (token : string) :
  Props.no_space token = true →
  Server.bearer_token (Some ("Bearer " +:+ token)) = Some token.
Proof.
  intros H.
  assert (E : Js.split_space ("Bearer " +:+ token)
              = "Bearer" :: Js.split_space_aux [] token) by reflexivity.
  unfold Server.bearer_token.
  change (Js.truthy_string (Some ("Bearer " +:+ token))) with true. cbv iota.
  rewrite E, (split_space_aux_no_space [] token H). cbn.
  by rewrite string_of_list_ascii_of_string.
Qed.

(** X13: the [Authorization] header [apiCall] builds from a stored token
    that is not empty and has no space in it is read back by
    [authenticateToken] as that token: when [jwt.verify] accepts it for a
    stored account, the request is let in as that account. A page without
    a token, or with an empty one, sends no header. *)
Theorem X13_header_round_trip :
  (∀ jwt_verify env (db : gmap string Server.User) c token id u,
     Client.getToken c = Some token →
     Js.truthy_string (Some token) = true →
     Props.no_space token = true →
     jwt_verify token (Server.now env) = Some id →
     db !! id = Some u →
     Server.bearer_token (Client.authorization_header c) = Some token
     ∧ Server.authenticateToken jwt_verify env (Client.authorization_header c) db
       = Server.Next id u)
  ∧ (∀ c, Client.isLoggedIn c = false → Client.authorization_header c = None).
Proof.
  split.
  - intros jwt_verify env db c token id u Hg Ht Hns Hv Hu.
    assert (Hb : Server.bearer_token (Client.authorization_header c) = Some token).
    { unfold Client.authorization_header. rewrite Hg, Ht. by apply bearer_token_of_header. }
    split; [done |]. by apply (authenticateToken_valid jwt_verify env _ db token id u).
  - intros c. unfold Client.isLoggedIn, Client.authorization_header.
    destruct (Client.getToken c) as [token |]; [| done]. by intros ->.
Qed.

Lemma X13_header_round_trip_witness :
  Server.bearer_token (Client.authorization_header (Scenarios.asha_page [])) = Some "jwt.u1"
  ∧ Server.authenticateToken Samples.jwt_verify (Samples.env 6000 "w1")
      (Client.authorization_header (Scenarios.asha_page [])) Samples.shop
    = Server.Next "u1" Samples.shopper.
Proof.
  apply (proj1 X13_header_round_trip Samples.jwt_verify (Samples.env 6000 "w1") Samples.shop
           (Scenarios.asha_page []) "jwt.u1" "u1" Samples.shopper); reflexivity.
Defined.

(** ** The guest cart *)







Lemma find_None_assign_first {A} (p : A → bool) (f : A → A) (l : list A) :
  List.find p l = None → Server.assign_first p f l = l.
Proof.
  induction l as [| x l IH]; simpl; [done |].
  destruct (p x); [done |]. intros H. by rewrite IH.
Qed.

Lemma findIndex_from_find {A} (p : A → bool) (f : A → A) (k : nat) (l : list A) :
  match Js.findIndex_from (λ x _, p x) k l with
  | Some i => (k ≤ i)%nat ∧ is_Some (List.find p l)
              ∧ alter f (i - k)%nat l = Server.assign_first p f l
  | None => List.find p l = None
  end.
Proof.
  revert k. induction l as [| x l IH]; intros k; simpl; [done |].
  destruct (p x) eqn:Ex.
  - rewrite Nat.sub_diag. eauto.
  - specialize (IH (S k)). destruct (Js.findIndex_from _ (S k) l) as [i |]; [| done].
    destruct IH as (Hle & Hfind & Halter). split; [lia |]. split; [done |].
    replace (i - k)%nat with (S (i - S k)) by lia.
    change (x :: alter f (i - S k)%nat l = x :: Server.assign_first p f l). by f_equal.
Qed.

Lemma max1_of_at_least_1 (q : Js.number) :
  (Js.num 1 <=? q)%float = true → Client.max1 q = q.
Proof. intros Hq. unfold Client.max1. by rewrite (leb_not_ltb _ _ Hq). Qed.

(** X16: the guest cart of the page and the cart on the service move
    alike. From equal carts, adding a product (with a name and a price the
    service accepts), removing a name, and setting a quantity of at least 1
    leave equal carts again. *)
Theorem X16_guest_cart_moves_like_service_cart (c : Client.State) (u : Server.User) :
  Client.isLoggedIn c = false →
  Client.cart c = Server.cart u →
  (∀ product,
     Js.truthy_string (Some (Client.product_name product)) = true →
     Js.truthy_number (Some (Client.product_price product)) = true →
     ∃ c' u',
       Client.addToCart product c = Client.Ret c'
       ∧ Server.saved (Server.post_cart_add
                         {| Server.add_name := Some (Client.product_name product);
                            Server.add_price := Some (Client.product_price product);
                            Server.add_image := Client.product_image product |} u) = Some u'
       ∧ Client.cart c' = Server.cart u')
  ∧ (∀ name,
       ∃ c' u',
         Client.removeFromCart name c = Client.Ret c'
         ∧ Server.saved (Server.delete_cart_remove name u) = Some u'
         ∧ Client.cart c' = Server.cart u')
  ∧ (∀ name quantity,
       (Js.num 1 <=? quantity)%float = true →
       ∃ c' u',
         Client.updateCartItemQuantity name quantity c = Client.Ret c'
         ∧ Server.saved (Server.put_cart_update
                           {| Server.upd_item := name; Server.upd_quantity := quantity |} u)
           = Some u'
         ∧ Client.cart c' = Server.cart u').
Proof.
  intros Hguest Hcart. split; [| split].
  - intros product Hname Hprice.
    unfold Client.addToCart, Server.post_cart_add. rewrite Hguest.
    cbn [negb Server.add_name Server.add_price Server.add_image].
    rewrite Hname, Hprice. cbn [negb orb].
    eexists _, _. split; [reflexivity |]. split; [reflexivity |].
    cbn. rewrite Hcart. unfold Js.findIndex.
    pose proof (findIndex_from_find
                  (λ item, String.eqb (Server.item_name item) (Client.product_name product))
                  (λ item, Server.set_quantity (Server.item_quantity item + Js.num 1)%float item)
                  0 (Server.cart u)) as H.
    destruct (Js.findIndex_from _ 0 (Server.cart u)) as [i |].
    + destruct H as (_ & [x ->] & Halter). by rewrite Nat.sub_0_r in Halter.
    + by rewrite H.
  - intros name. unfold Client.removeFromCart. rewrite Hguest. cbn [negb].
    eexists _, _. split; [reflexivity |]. split; [reflexivity |].
    unfold Client.updateCartDisplay. cbn.
    destruct (Client.cart_page c); [destruct (_ =? _)%nat |]; cbn; by rewrite Hcart.
  - intros name quantity Hq.
    unfold Client.updateCartItemQuantity, Server.put_cart_update. rewrite Hguest.
    cbn [negb Server.upd_item Server.upd_quantity].
    rewrite (at_least_1_not_zero quantity Hq).
    rewrite (max1_of_at_least_1 quantity Hq).
    destruct (List.find _ (Client.cart c)) eqn:Hfind.
    + eexists _, _. split; [reflexivity |]. split; [reflexivity |].
      unfold Client.updateCartDisplay. cbn.
      destruct (Client.cart_page c); [destruct (_ =? _)%nat |]; cbn; by rewrite Hcart.
    + eexists _, _. split; [reflexivity |]. split; [reflexivity |].
      cbn. rewrite <- Hcart. by rewrite find_None_assign_first.
Qed.

Lemma X16_guest_cart_moves_like_service_cart_witness :
  ∃ c' u',
    Client.updateCartItemQuantity "Cough syrup" (Js.num 3)
      (Samples.guest (Server.cart Samples.shopper)) = Client.Ret c'
    ∧ Server.saved (Server.put_cart_update
                      {| Server.upd_item := "Cough syrup"; Server.upd_quantity := Js.num 3 |}
                      Samples.shopper) = Some u'
    ∧ Client.cart c' = Server.cart u'.
Proof.
  apply (proj2 (proj2 (X16_guest_cart_moves_like_service_cart
                         (Samples.guest (Server.cart Samples.shopper)) Samples.shopper
                         eq_refl eq_refl)) "Cough syrup" (Js.num 3)).
  by vm_compute.
Defined.

(** ** Loading the cart *)

(** X17: on a logged-in page, when the service turns the call for the cart
    down with 401 or 403, [loadCart] leaves the page logged out with an
    empty cart; when the call fails otherwise (no network, a reply that is
    not JSON, another status outside 200 to 299), it leaves the cached cart
    in memory and [localStorage] as it was. One request is sent in each
    case. *)
Theorem X17_loadCart_when_the_call_fails (c : Client.State)
    (rest : list Client.FetchResult) :
  Client.isLoggedIn c = true →
  (∀ status data,
     status = 401%nat ∨ status = 403%nat →
     ∃ c',
       Client.run (Client.loadCart c) (Client.Http status true data :: rest)
       = Some (c', [ {| Server.authorization := Client.authorization_header c;
                        Server.route := Server.GetCart |} ], rest)
       ∧ Spec.session_removed c'
       ∧ Client.isLoggedIn c' = false
       ∧ Client.cart c' = [])
  ∧ (∀ r,
       (∃ message, r = Client.NetworkError message)
       ∨ (∃ status data, r = Client.Http status false data)
       ∨ (∃ status data, r = Client.Http status true data
                         ∧ Client.response_ok status = false
                         ∧ status ≠ 401%nat ∧ status ≠ 403%nat) →
       ∃ c',
         Client.run (Client.loadCart c) (r :: rest)
         = Some (c', [ {| Server.authorization := Client.authorization_header c;
                          Server.route := Server.GetCart |} ], rest)
         ∧ Client.cart c' = Client.getCachedCart c
         ∧ Client.localStorage c' = Client.localStorage c).
Proof.
  intros Hin. split.
  - intros status data Hst. unfold Client.loadCart. rewrite Hin. cbn [negb].
    unfold mbind, Client.Prog_bind. rewrite run_bind, run_apiCall.
    assert (E : Client.receive c (Client.Http status true data)
                = (Client.logout
                     (Client.showToast "Session expired. Please login again." "error" c),
                   Client.Undefined)) by by destruct Hst as [-> | ->].
    rewrite E. eexists. split; [reflexivity |].
    pose proof (logout_removes_session
                  (Client.showToast "Session expired. Please login again." "error" c))
      as (Htok & Husr & Hcache).
    split; [by split |].
    split.
    + unfold Client.isLoggedIn, Client.getToken. cbn [Client.localStorage
        Client.updateCartCount Client.set_cart_count Client.set_cart].
      by rewrite Htok.
    + cbn [Client.cart Client.updateCartCount Client.set_cart_count Client.set_cart].
      unfold Client.getCachedCart. by rewrite Hcache.
  - intros r Hr. unfold Client.loadCart. rewrite Hin. cbn [negb].
    unfold mbind, Client.Prog_bind. rewrite run_bind, run_apiCall.
    assert (E : ∃ message, Client.receive c r = (c, Client.Threw message)).
    { destruct Hr as [[m ->] | [(st & d & ->) | (st & d & -> & Hok & H401 & H403)]];
        [by eexists | by eexists |].
      cbn. rewrite Hok. cbn.
      destruct (Nat.eqb_spec st 401); [done |]. destruct (Nat.eqb_spec st 403); [done |].
      by eexists. }
    destruct E as [m ->]. by eexists.
Qed.

Lemma X17_loadCart_when_the_call_fails_witness :
  ∃ c',
    Client.run (Client.loadCart (Scenarios.asha_page Samples.one_strip))
      [Client.Http 403 true (Server.JError "Invalid or expired token")]
    = Some (c', [ {| Server.authorization := Some "Bearer jwt.u1";
                     Server.route := Server.GetCart |} ], [])
    ∧ Spec.session_removed c'
    ∧ Client.isLoggedIn c' = false
    ∧ Client.cart c' = [].
Proof.
  apply (proj1 (X17_loadCart_when_the_call_fails (Scenarios.asha_page Samples.one_strip) []
                  eq_refl) 403%nat).
  by right.
Defined.

(** ** [trim] *)







(** ** Adding an address, from the form to the store *)





(** ** Registering *)

(** X19: the page and the service check a registration alike. When
    [handleRegister] returns without a request (an empty field, a password
    under six characters, an e-mail address the pattern rejects), it returns
    [false] and leaves [localStorage] alone, and the service would have
    answered the same registration 400, storing nothing. When it sends the
    registration, the service can only answer 200, 400 for an e-mail address
    that is registered already, or 500 when [User.create] rejects. *)
Theorem X19_register_checks_agree (email password name : option string) (c : Client.State) :
  match Account.handleRegister email password name c with
  | Client.Ret (c', r) =>
      r = Client.Returned false
      ∧ Client.localStorage c' = Client.localStorage c
      ∧ ∀ jwt_sign bcrypt_hash toLowerCase env (db : gmap string Server.User),
          ∃ message,
            Server.post_auth_register jwt_sign bcrypt_hash toLowerCase env
              {| Server.rb_email := email; Server.rb_password := password;
                 Server.rb_name := name |} db
            = (db, Server.fail 400 message)
            ∧ message ≠ "Email already registered"
  | Client.Fetch req k =>
      req = {| Server.authorization := Client.authorization_header c;
               Server.route :=
                 Server.PostAuthRegister
                   {| Server.rb_email := email; Server.rb_password := password;
                      Server.rb_name := name |} |}
      ∧ ∀ jwt_sign bcrypt_hash toLowerCase env (db : gmap string Server.User),
          let r := snd (Server.post_auth_register jwt_sign bcrypt_hash toLowerCase env
                          {| Server.rb_email := email; Server.rb_password := password;
                             Server.rb_name := name |} db) in
          Server.status r = 200%nat
          ∨ r = Server.fail 400 "Email already registered"
          ∨ r = Server.fail 500 "Registration failed"
  | Client.OffProtocol => False
  end.
Proof.
  unfold Account.handleRegister, Server.post_auth_register.
  cbn [Server.rb_email Server.rb_password Server.rb_name].
  destruct email as [e |];
    [| split; [done |]; split; [done |]; intros; by eexists].
  destruct password as [p |];
    [| destruct (Js.truthy_string (Some e));
       (split; [done |]; split; [done |]; intros; by eexists)].
  destruct name as [n |];
    [| destruct (Js.truthy_string (Some e)), (Js.truthy_string (Some p));
       (split; [done |]; split; [done |]; intros; by eexists)].
  destruct (Js.truthy_string (Some e)); cbn [negb orb];
    [| split; [done |]; split; [done |]; intros; by eexists].
  destruct (Js.truthy_string (Some p)); cbn [negb orb];
    [| split; [done |]; split; [done |]; intros; by eexists].
  destruct (Js.truthy_string (Some n)); cbn [negb orb];
    [| split; [done |]; split; [done |]; intros; by eexists].
  cbn [default from_option id].
  destruct (String.length p <? 6)%nat;
    [split; [done |]; split; [done |]; intros; by eexists |].
  destruct (Server.test_email e); cbn [negb];
    [| split; [done |]; split; [done |]; intros; by eexists].
  split; [done |].
  intros jwt_sign bcrypt_hash toLowerCase env db.
  destruct (Server.findOne_email _ _); [by right; left |].
  destruct (Server.required_fields _); cbn [negb]; [| by right; right].
  destruct (db !! Server.new_id env); [by right; right | by left].
Qed.

(** ** Checking out *)

Lemma run_bind_apiCall {B} (endpoint : Server.Route) (c : Client.State)
    (f : Client.State * Client.ApiResult → Client.Prog B) (r : Client.FetchResult)
    (rest : list Client.FetchResult) :
  Client.run (Client.bind (Client.apiCall endpoint c) f) (r :: rest)
  = match Client.run (f (Client.receive c r)) rest with
    | Some (b, sent, unread) =>
        Some (b, {| Server.authorization := Client.authorization_header c;
                    Server.route := endpoint |} :: sent, unread)
    | None => None
    end.
Proof. by rewrite run_bind, run_apiCall. Qed.

(** X21: [handleCheckout] sends no order and returns [false] when the page
    is not logged in or the cart in memory is empty (no request at all),
    when the user has no default address, when the payment method is none
    of the six it knows, and when the Razorpay dialog is rejected (only the
    addresses were asked for). *)
Theorem X21_checkout_without_order (selectedPayment : option string)
    (razorpay : Checkout.RazorpayOutcome) (now : Z) (c : Client.State)
    (replies : list Client.FetchResult) :
  (Client.isLoggedIn c = false ∨ Client.cart c = [] →
   ∃ c', Client.run (Checkout.handleCheckout selectedPayment razorpay now c) replies
         = Some ((c', Checkout.Failed), [], replies)
         ∧ Client.localStorage c' = Client.localStorage c
         ∧ Client.cart c' = Client.cart c)
  ∧ (∀ status l,
       Client.isLoggedIn c = true →
       Client.cart c ≠ [] →
       Client.response_ok status = true →
       List.find Server.isDefault l = None
       ∨ Checkout.gateway (default "cod" selectedPayment) = Checkout.Invalid
       ∨ (Checkout.gateway (default "cod" selectedPayment) = Checkout.Razorpay
          ∧ ∃ message, razorpay = Checkout.Rejected message) →
       ∃ c',
         Client.run (Checkout.handleCheckout selectedPayment razorpay now c)
           (Client.Http status true (Server.JAddresses l) :: replies)
         = Some ((c', Checkout.Failed),
                 [ {| Server.authorization := Client.authorization_header c;
                      Server.route := Server.GetAddresses |} ],
                 replies)
         ∧ Client.localStorage c' = Client.localStorage c
         ∧ Client.cart c' = Client.cart c).
Proof.
  split.
  - intros Hno. unfold Checkout.handleCheckout.
    destruct (Client.isLoggedIn c); cbn [negb]; [| by eexists].
    destruct Hno as [Hno | Hno]; [done |]. rewrite Hno. cbn [length Nat.eqb].
    eexists. split; [reflexivity |]. split; [done |]. exact Hno.
  - intros status l Hin Hcart Hok Hwhy. unfold Checkout.handleCheckout. rewrite Hin.
    cbn [negb]. destruct (Client.cart c) as [| x cart'] eqn:Ecart; [done |].
    cbn [length Nat.eqb]. unfold mbind, Client.Prog_bind.
    rewrite run_bind_apiCall, receive_ok by done.
    destruct (List.find Server.isDefault l) as [a |] eqn:Efind.
    + destruct Hwhy as [Hnone | [Hinvalid | (Hrazor & message & ->)]]; [done | |].
      * unfold Checkout.processPayment. rewrite Hinvalid. cbn.
        eexists. split; [reflexivity |]. split; [done | exact Ecart].
      * unfold Checkout.processPayment. rewrite Hrazor. cbn.
        eexists. split; [reflexivity |]. split; [done | exact Ecart].
    + cbn. eexists. split; [reflexivity |]. split; [done | exact Ecart].
Qed.

Lemma X21_checkout_without_order_witness :
  (∃ c', Client.run (Checkout.handleCheckout (Some "upi") (Checkout.Paid None) 1700
                       (Samples.guest Samples.one_strip)) []
         = Some ((c', Checkout.Failed), [], [])
         ∧ Client.localStorage c' = Client.localStorage (Samples.guest Samples.one_strip)
         ∧ Client.cart c' = Samples.one_strip)
  ∧ (∃ c',
       Client.run (Checkout.handleCheckout (Some "bitcoin") (Checkout.Paid None) 1700
                     (Scenarios.asha_page Samples.one_strip))
         [Client.Http 200 true (Server.JAddresses (Server.addresses Scenarios.ravi))]
       = Some ((c', Checkout.Failed),
               [ {| Server.authorization := Some "Bearer jwt.u1";
                    Server.route := Server.GetAddresses |} ],
               [])
       ∧ Client.localStorage c'
         = Client.localStorage (Scenarios.asha_page Samples.one_strip)
       ∧ Client.cart c' = Samples.one_strip).
Proof.
  split.
  - apply (proj1 (X21_checkout_without_order (Some "upi") (Checkout.Paid None) 1700
                    (Samples.guest Samples.one_strip) [])).
    by left.
  - apply (proj2 (X21_checkout_without_order (Some "bitcoin") (Checkout.Paid None) 1700
                    (Scenarios.asha_page Samples.one_strip) []) 200%nat
             (Server.addresses Scenarios.ravi)); try done.
    right. by left.
Defined.

(** ** Deleting an address with a session that has expired *)

(** X25: [deleteAddress] does not look at the reply. When the service
    turns its request down with 401 or 403, nothing is deleted and the page
    is logged out, and yet [deleteAddress] shows [Address deleted!] and
    returns [true]; on a guest page it returns [false] without a request. *)
Theorem X25_deleteAddress_on_expired_session :
  (∀ jwt_sign jwt_verify bcrypt_hash bcrypt_compare toLowerCase env addressId c
     (db : gmap string Server.User) r,
     Client.isLoggedIn c = true →
     Server.authenticateToken jwt_verify env (Client.authorization_header c) db
     = Server.Reject r →
     ∃ c',
       Client.exec (Server.serve jwt_sign jwt_verify bcrypt_hash bcrypt_compare toLowerCase)
         (AddressBook.deleteAddress addressId c) [env] db
       = Some ((c', true), db)
       ∧ Spec.session_removed c'
       ∧ last (Client.toasts c') = Some ("Address deleted!", "success"))
  ∧ (∀ addressId c replies,
       Client.isLoggedIn c = false →
       Client.run (AddressBook.deleteAddress addressId c) replies
       = Some ((c, false), [], replies)).
Proof.
  split.
  - intros jwt_sign jwt_verify bcrypt_hash bcrypt_compare toLowerCase env addressId c db r
      Hin Ha.
    unfold AddressBook.deleteAddress. rewrite Hin. cbn [negb].
    unfold mbind, Client.Prog_bind, Client.apiCall. cbn [Client.bind Client.exec].
    unfold Server.serve, Server.protected. cbn [Server.route Server.authorization].
    rewrite Ha.
    pose proof (logout_removes_session
                  (Client.showToast "Session expired. Please login again." "error" c))
      as Hout.
    destruct (authenticateToken_Reject _ _ _ _ _ Ha) as [-> | ->];
      (eexists; split; [reflexivity |]; split; [exact Hout | apply last_snoc]).
  - intros addressId c replies Hguest. unfold AddressBook.deleteAddress.
    by rewrite Hguest.
Qed.

Lemma X25_deleteAddress_on_expired_session_witness :
  ∃ c',
    Client.exec Samples.serve (AddressBook.deleteAddress "0" Samples.stale_page)
      [Samples.env 8000 "v1"] Scenarios.two_users
    = Some ((c', true), Scenarios.two_users)
    ∧ Spec.session_removed c'
    ∧ last (Client.toasts c') = Some ("Address deleted!", "success").
Proof.
  apply (proj1 X25_deleteAddress_on_expired_session Samples.jwt_sign Samples.jwt_verify
           Samples.bcrypt_hash Samples.bcrypt_compare Samples.toLowerCase
           (Samples.env 8000 "v1") "0" Samples.stale_page Scenarios.two_users
           (Server.fail 403 "Invalid or expired token")); by vm_compute.
Defined.

(** ** The page against the service *)

Lemma defaults_insert_only (l : list Server.Address) (i : nat) (a' : Server.Address) :
  Forall (λ a, Server.isDefault a = false) l →
  (i < length l)%nat →
  Server.isDefault a' = true →
  Spec.defaults (<[i := a']> l) = 1%nat.
Proof.
  intros Hl. revert i. induction Hl as [| x l Hx Hl IH]; intros i Hi Ha'; [simpl in Hi; lia |].
  destruct i as [| i]; simpl.
  - by rewrite defaults_cons, Ha', (defaults_none l Hl).
  - rewrite defaults_cons, Hx, IH; [done | simpl in Hi; lia | done].
Qed.

Section Journeys.
Import Server.
Context (jwt_sign : string → Z → string) (jwt_verify : string → Z → option string)
        (bcrypt_hash : string → string) (bcrypt_compare : string → string → bool)
        (toLowerCase : string → string).

Local Abbreviation serve := (serve jwt_sign jwt_verify bcrypt_hash bcrypt_compare toLowerCase).
Local Abbreviation authenticateToken := (authenticateToken jwt_verify).

Lemma exec_bind_apiCall {B} endpoint c (f : Client.State * Client.ApiResult → Client.Prog B)
    env envs (db : DB) :
  Client.exec serve (Client.bind (Client.apiCall endpoint c) f) (env :: envs) db
  = Client.exec serve
      (f (Client.receive c
            (Client.Http
               (status (snd (serve env {| authorization := Client.authorization_header c;
                                           route := endpoint |} db)))
               true
               (body (snd (serve env {| authorization := Client.authorization_header c;
                                         route := endpoint |} db))))))
      envs
      (fst (serve env {| authorization := Client.authorization_header c;
                         route := endpoint |} db)).
Proof.
  cbn [Client.apiCall Client.bind Client.exec].
  by destruct (serve env _ db).
Qed.

Lemma exec_bind_bind_apiCall {B C} endpoint c
    (f : Client.State * Client.ApiResult → Client.Prog B) (g : B → Client.Prog C)
    env envs (db : DB) :
  Client.exec serve (Client.bind (Client.bind (Client.apiCall endpoint c) f) g)
    (env :: envs) db
  = Client.exec serve
      (Client.bind
         (f (Client.receive c
               (Client.Http
                  (status (snd (serve env {| authorization := Client.authorization_header c;
                                              route := endpoint |} db)))
                  true
                  (body (snd (serve env {| authorization := Client.authorization_header c;
                                            route := endpoint |} db))))))
         g)
      envs
      (fst (serve env {| authorization := Client.authorization_header c;
                         route := endpoint |} db)).
Proof.
  cbn [Client.apiCall Client.bind Client.exec].
  by destruct (serve env _ db).
Qed.

(** A page that is signed in is let in by [authenticateToken], whatever it
    has done to anything but its [localStorage]. *)
Lemma signed_in_next c c' id envs env (db : DB) u :
  Props.signed_in jwt_verify c id envs →
  Client.localStorage c' = Client.localStorage c →
  env ∈ envs →
  db !! id = Some u →
  authenticateToken env (Client.authorization_header c') db = Next id u.
Proof.
  intros (token & Hg & Ht & Hns & Hall) Hls Henv Hu.
  apply (authenticateToken_valid jwt_verify env _ db token id u); try done.
  - unfold Client.authorization_header, Client.getToken in *. rewrite Hls.
    destruct (Client.localStorage c !! Client.TOKEN) as [[t | |] |]; try done.
    injection Hg as ->. rewrite Ht. by apply bearer_token_of_header.
  - by apply (proj1 (Forall_forall _ _) Hall).
Qed.

Lemma serve_as env r h authHeader (db : DB) id u :
  Spec.user_handler env r = Some h →
  authenticateToken env authHeader db = Next id u →
  serve env {| authorization := authHeader; route := r |} db
  = (match saved (h u) with Some u' => <[id := u']> db | None => db end, response (h u)).
Proof.
  intros Hh Ha. rewrite (serve_protected _ _ _ _ _ _ _ _ h) by exact Hh.
  unfold protected. cbn [authorization]. by rewrite Ha.
Qed.

(** X24: [setDefaultAddress] on a signed-in page, for an id that matches an
    address of the user: the service stores that address as the default
    one, and as the only one, the addresses keeping their [_id]s and their
    order, and the page gets that address back. *)
Theorem X24_setDefaultAddress_sets_the_only_default env addressId c (db : DB) id u i :
  Props.signed_in jwt_verify c id [env] →
  db !! id = Some u →
  Js.findIndex (matches_id addressId) (addresses u) = Some i →
  ∃ c' a u',
    Client.exec serve (AddressBook.setDefaultAddress addressId c) [env] db
    = Some ((c', Some a), <[id := u']> db)
    ∧ addresses u' !! i = Some a
    ∧ isDefault a = true
    ∧ Spec.defaults (addresses u') = 1%nat
    ∧ map addr_id (addresses u') = map addr_id (addresses u)
    ∧ cart u' = cart u ∧ orders u' = orders u.
Proof.
  intros Hsigned Hu Hi.
  assert (Hin : Client.isLoggedIn c = true).
  { destruct Hsigned as (token & Hg & Ht & _). unfold Client.isLoggedIn. by rewrite Hg. }
  unfold AddressBook.setDefaultAddress, AddressBook.updateAddress. rewrite Hin. cbn [negb].
  unfold mbind, Client.Prog_bind. rewrite exec_bind_apiCall.
  set (updates := {| au_name := None; au_phone := None; au_address := None;
                     au_city := None; au_state := None; au_pincode := None;
                     au_isDefault := Some true |}).
  rewrite (serve_as env (PutAddress addressId updates) (put_address addressId updates)
             _ db id u eq_refl)
    by (apply (signed_in_next c c id [env]); [done | done | apply list_elem_of_here | done]).
  unfold put_address. rewrite Hi. cbn [Js.truthy_bool au_isDefault updates].
  destruct (findIndex_lookup _ _ _ Hi) as [a0 Ha0].
  rewrite clear_defaults_lookup, Ha0. cbn [fmap option_fmap option_map].
  cbn [saved save response fst snd status body ok].
  rewrite receive_ok by done. cbn [Client.exec].
  eexists _, _, _. split; [reflexivity |].
  cbn [addresses set_addresses cart orders].
  assert (Hlen : (i < length (clear_defaults (addresses u)))%nat).
  { unfold clear_defaults. rewrite length_map. by eapply lookup_lt_Some. }
  split; [by apply list_lookup_insert_eq |]. split; [done |].
  split; [apply defaults_insert_only; [apply clear_defaults_all_false | done | done] |].
  split; [| done].
  rewrite (ids_insert_same _ i (set_isDefault false a0));
    [apply ids_clear_defaults | by rewrite clear_defaults_lookup, Ha0 | done].
Qed.


(** X23: a page that still shows a cart the service no longer holds: with a
    default address and a payment that goes through, [handleCheckout] asks
    for the order, the service turns it down with 400 [Cart is empty], and
    the page shows that message and returns [false]; the store and the cart
    of the page stay as they were. *)
Theorem X23_checkout_of_a_stale_cart env1 env2 selectedPayment razorpay t c (db : DB) id u a :
  Props.signed_in jwt_verify c id [env1; env2] →
  db !! id = Some u →
  Client.cart c ≠ [] →
  cart u = [] →
  List.find isDefault (addresses u) = Some a →
  Checkout.gateway (default "cod" selectedPayment) ≠ Checkout.Invalid →
  (∀ message, razorpay ≠ Checkout.Rejected message) →
  ∃ c',
    Client.exec serve (Checkout.handleCheckout selectedPayment razorpay t c) [env1; env2] db
    = Some ((c', Checkout.Failed), db)
    ∧ last (Client.toasts c') = Some ("Cart is empty", "error")
    ∧ Client.cart c' = Client.cart c
    ∧ Client.localStorage c' = Client.localStorage c.
Proof.
  intros Hsigned Hu Hpage Hcart Hdefault Hgateway Hpaid.
  assert (Hin : Client.isLoggedIn c = true).
  { destruct Hsigned as (token & Hg & Ht & _). unfold Client.isLoggedIn. by rewrite Hg. }
  assert (Hnext : ∀ c' env,
             Client.localStorage c' = Client.localStorage c →
             env ∈ [env1; env2] →
             authenticateToken env (Client.authorization_header c') db = Next id u).
  { intros. by eapply signed_in_next. }
  unfold Checkout.handleCheckout. rewrite Hin. cbn [negb].
  destruct (Client.cart c) as [| x l] eqn:Ecart; [done |]. cbn [length Nat.eqb].
  unfold mbind, Client.Prog_bind. rewrite exec_bind_apiCall.
  rewrite (serve_as env1 GetAddresses get_addresses _ db id u eq_refl)
    by (apply Hnext; [done | set_solver]).
  cbn [get_addresses reply saved response fst snd status body ok].
  rewrite receive_ok by done. rewrite Hdefault.
  set (pm := default "cod" selectedPayment) in *.
  unfold Checkout.processPayment. cbv zeta.
  destruct (Checkout.gateway pm) as [| upper | |] eqn:Egateway; [| | | done];
    [destruct razorpay as [pid | message]; [| by destruct (Hpaid message)] | |].
  all: unfold mbind, Client.Prog_bind; rewrite exec_bind_bind_apiCall.
  all: rewrite (serve_as env2 (PostOrders _) (post_orders env2 _) _ db id u eq_refl)
         by (apply Hnext; [done | set_solver]).
  all: unfold post_orders; rewrite Hcart.
  all: cbn [length Nat.eqb reply saved response fst snd status body fail].
  all: eexists; (split; [reflexivity |]).
  all: split; [apply last_snoc |]; by split.
Qed.

(** X20: [handleRegister] with a name that is not blank, a password of six
    characters or more and a well-formed e-mail address no account has yet
    (the stored e-mail address and password hash being non-empty, as the
    schema requires): the service stores the new account, the page keeps
    the token it was sent, and the cart the guest had in memory and in the
    cache is replaced by the empty cart of the new account. *)
Theorem X20_register_replaces_the_guest_cart env1 env2 e p n c (db : DB) :
  Js.truthy_string (Some (Js.trim n)) = true →
  (6 ≤ String.length p)%nat →
  test_email e = true →
  Js.truthy_string (Some (toLowerCase e)) = true →
  Js.truthy_string (Some (bcrypt_hash p)) = true →
  findOne_email (toLowerCase e) db = None →
  db !! new_id env1 = None →
  Js.truthy_string (Some (jwt_sign (new_id env1) (now env1))) = true →
  Props.no_space (jwt_sign (new_id env1) (now env1)) = true →
  jwt_verify (jwt_sign (new_id env1) (now env1)) (now env2) = Some (new_id env1) →
  ∃ c',
    Client.exec serve (Account.handleRegister (Some e) (Some p) (Some n) c) [env1; env2] db
    = Some ((c', Client.Returned true),
            <[new_id env1 := {| email := toLowerCase e; password := bcrypt_hash p;
                                user_name := Js.trim n;
                                cart := []; orders := []; addresses := [] |}]> db)
    ∧ Client.getToken c' = Some (jwt_sign (new_id env1) (now env1))
    ∧ Client.cart c' = []
    ∧ Client.getCachedCart c' = []
    ∧ Client.cart_count c' = Js.num 0.
Proof.
  intros Htrim Hp Hmail Hlower Hhash Hnew Hfresh Htoken Hnospace Hverify.
  assert (Hpass : Js.truthy_string (Some p) = true).
  { destruct p; [simpl in Hp; lia | done]. }
  assert (Hn : Js.truthy_string (Some n) = true) by by destruct n.
  assert (He : Js.truthy_string (Some e) = true) by by destruct e.
  assert (Hlen : (String.length p <? 6)%nat = false) by by apply Nat.ltb_ge.
  unfold Account.handleRegister. rewrite He, Hn, Hpass.
  cbn [negb orb]. change (default "" (Some p)) with p. change (default "" (Some e)) with e.
  rewrite Hlen, Hmail. cbn [negb].
  set (token := jwt_sign (new_id env1) (now env1)) in *.
  set (user := {| email := toLowerCase e; password := bcrypt_hash p;
                  user_name := Js.trim n; cart := []; orders := []; addresses := [] |}).
  assert (Hregister : ∀ header,
            serve env1 {| authorization := header;
                          route := PostAuthRegister {| rb_email := Some e;
                                                       rb_password := Some p;
                                                       rb_name := Some n |} |} db
            = (<[new_id env1 := user]> db,
               ok (JAuth token (new_id env1) (toLowerCase e) (Js.trim n)))).
  { intros header. unfold Server.serve. cbn [route].
    unfold post_auth_register. cbn [rb_email rb_password rb_name].
    rewrite He, Hn, Hpass. cbn [negb orb]. rewrite Hlen, Hmail. cbn [negb].
    rewrite Hnew. unfold required_fields. cbn [email password user_name].
    rewrite Hlower, Hhash, Htrim. cbn [negb andb]. by rewrite Hfresh. }
  unfold mbind, Client.Prog_bind. rewrite exec_bind_apiCall, Hregister.
  cbn [fst snd status body ok]. rewrite receive_ok by done.
  match goal with
  | |- context [Client.loadCart ?c2] => set (page := c2)
  end.
  assert (Hget : Client.getToken page = Some token).
  { unfold Client.getToken, page. cbn.
    rewrite lookup_insert_ne by done. by rewrite lookup_insert_eq. }
  assert (Hsigned : Props.signed_in jwt_verify page (new_id env1) [env2]).
  { exists token. repeat split; try done. by repeat constructor. }
  unfold Client.loadCart, Client.isLoggedIn. rewrite Hget, Htoken. cbn [negb].
  unfold mbind, Client.Prog_bind. rewrite exec_bind_bind_apiCall.
  rewrite (serve_as env2 GetCart get_cart _ _ (new_id env1) user eq_refl)
    by (apply (signed_in_next page page (new_id env1) [env2]);
        [done | done | apply list_elem_of_here | by rewrite lookup_insert_eq]).
  cbn [get_cart reply saved response fst snd status body ok].
  rewrite receive_ok by done. cbn [Client.bind Client.exec mret Client.Prog_ret cart user].
  eexists. split; [reflexivity |].
  repeat split.
  - unfold Client.getToken. cbn.
    rewrite lookup_insert_ne by done. rewrite lookup_insert_ne by done.
    by rewrite lookup_insert_eq.
  - unfold Client.getCachedCart. cbn. by rewrite lookup_insert_eq.
Qed.

End Journeys.

Lemma X24_setDefaultAddress_sets_the_only_default_witness :
  ∃ c' a u',
    Client.exec Samples.serve (AddressBook.setDefaultAddress "a2" (Scenarios.asha_page []))
      [Samples.env 9000 "t1"] (<["u1" := Samples.two_addresses]> Scenarios.two_users)
    = Some ((c', Some a),
            <["u1" := u']> (<["u1" := Samples.two_addresses]> Scenarios.two_users))
    ∧ Server.addresses u' !! 1%nat = Some a
    ∧ Server.isDefault a = true
    ∧ Spec.defaults (Server.addresses u') = 1%nat
    ∧ map Server.addr_id (Server.addresses u') = ["a1"; "a2"]
    ∧ Server.cart u' = Server.cart Samples.two_addresses
    ∧ Server.orders u' = Server.orders Samples.two_addresses.
Proof.
  apply (X24_setDefaultAddress_sets_the_only_default Samples.jwt_sign Samples.jwt_verify
           Samples.bcrypt_hash Samples.bcrypt_compare Samples.toLowerCase
           (Samples.env 9000 "t1") "a2" (Scenarios.asha_page [])
           (<["u1" := Samples.two_addresses]> Scenarios.two_users) "u1"
           Samples.two_addresses 1%nat).
  - exists "jwt.u1". repeat split; try reflexivity. by repeat constructor.
  - reflexivity.
  - reflexivity.
Defined.

Lemma X20_register_replaces_the_guest_cart_witness :
  ∃ c',
    Client.exec Samples.serve
      (Account.handleRegister (Some "meera@example.com") (Some "monsoon1") (Some " Meera ")
         (Scenarios.loaded_guest [Samples.item "Bandage" 30 1]))
      [Samples.env 7000 "u3"; Samples.env 7001 "c9"] Scenarios.two_users
    = Some ((c', Client.Returned true),
            <["u3" := {| Server.email := "meera@example.com";
                         Server.password := "hash.monsoon1";
                         Server.user_name := "Meera";
                         Server.cart := []; Server.orders := [];
                         Server.addresses := [] |}]> Scenarios.two_users)
    ∧ Client.getToken c' = Some "jwt.u3"
    ∧ Client.cart c' = []
    ∧ Client.getCachedCart c' = []
    ∧ Client.cart_count c' = Js.num 0.
Proof.
  apply (X20_register_replaces_the_guest_cart Samples.jwt_sign Samples.jwt_verify
           Samples.bcrypt_hash Samples.bcrypt_compare Samples.toLowerCase
           (Samples.env 7000 "u3") (Samples.env 7001 "c9")
           "meera@example.com" "monsoon1" " Meera "
           (Scenarios.loaded_guest [Samples.item "Bandage" 30 1]) Scenarios.two_users).
  - reflexivity.
  - simpl. lia.
  - reflexivity.
  - reflexivity.
  - reflexivity.
  - vm_compute. reflexivity.
  - reflexivity.
  - reflexivity.
  - reflexivity.
  - reflexivity.
Defined.


Lemma X23_checkout_of_a_stale_cart_witness :
  ∃ c',
    Client.exec Samples.serve
      (Checkout.handleCheckout None (Checkout.Paid None) 8000
         (Client.setToken "jwt.u2" (Samples.guest [Samples.item "Bandage" 30 1])))
      [Samples.env 8001 "c1"; Samples.env 8002 "c2"] Scenarios.two_users
    = Some ((c', Checkout.Failed), Scenarios.two_users)
    ∧ last (Client.toasts c') = Some ("Cart is empty", "error")
    ∧ Client.cart c'
      = Client.cart (Client.setToken "jwt.u2" (Samples.guest [Samples.item "Bandage" 30 1]))
    ∧ Client.localStorage c'
      = Client.localStorage
          (Client.setToken "jwt.u2" (Samples.guest [Samples.item "Bandage" 30 1])).
Proof.
  apply (X23_checkout_of_a_stale_cart Samples.jwt_sign Samples.jwt_verify
           Samples.bcrypt_hash Samples.bcrypt_compare Samples.toLowerCase
           (Samples.env 8001 "c1") (Samples.env 8002 "c2")
           None (Checkout.Paid None) 8000
           (Client.setToken "jwt.u2" (Samples.guest [Samples.item "Bandage" 30 1]))
           Scenarios.two_users "u2" Scenarios.ravi
           (Samples.stored_address "r1" "Home" true)).
  - exists "jwt.u2". repeat split; try reflexivity. by repeat constructor.
  - reflexivity.
  - discriminate.
  - reflexivity.
  - reflexivity.
  - discriminate.
  - discriminate.
Defined.

(** ** The e-mail pattern *)

Lemma split_at_sign_Some (s a d : list ascii) :
  Server.split_at_sign s = Some (a, d) →
  s = a ++ "@"%char :: d ∧ forallb (λ c, negb (Ascii.eqb c "@")) a = true.
Proof.
  revert a. induction s as [| c s IH]; intros a; simpl; [done |].
  destruct (Ascii.eqb c "@") eqn:Ec.
  - intros [= <- <-]. apply Ascii.eqb_eq in Ec as ->. by split.
  - destruct (Server.split_at_sign s) as [[a' d'] |]; [| done].
    intros [= <- <-]. destruct (IH a' eq_refl) as [-> Ha']. simpl. by rewrite Ec, Ha'.
Qed.

Lemma split_at_sign_app (a d : list ascii) :
  forallb (λ c, negb (Ascii.eqb c "@")) a = true →
  Server.split_at_sign (a ++ "@"%char :: d) = Some (a, d).
Proof.
  induction a as [| c a IH]; simpl; [done |].
  intros [Hc Ha]%andb_true_iff. apply negb_true_iff in Hc. by rewrite Hc, IH.
Qed.

Lemma existsb_removelast {A} (P : A → bool) (t : list A) :
  existsb P (removelast t) = true
  ↔ ∃ p y c, t = p ++ y :: c ∧ P y = true ∧ c ≠ [].
Proof.
  split.
  - induction t as [| z t' _] using rev_ind; [done |].
    rewrite removelast_last. intros (y & Hin & Hy)%existsb_exists.
    apply in_split in Hin as (p & q & ->).
    exists p, y, (q ++ [z]). split; [by rewrite <- app_assoc | split; [done |]].
    by destruct q.
  - intros (p & y & c & -> & Hy & Hc).
    induction c as [| z c' _] using rev_ind; [done |].
    replace (p ++ y :: c' ++ [z]) with ((p ++ y :: c') ++ [z]) by by rewrite <- app_assoc.
    rewrite removelast_last, existsb_app. simpl. rewrite Hy. by rewrite orb_true_r.
Qed.

Lemma email_char_not_at (a : list ascii) :
  forallb Server.email_char a = true → forallb (λ c, negb (Ascii.eqb c "@")) a = true.
Proof.
  induction a as [| c a IH]; simpl; [done |].
  unfold Server.email_char at 1. intros [[_ Hc]%andb_true_iff Ha]%andb_true_iff.
  by rewrite Hc, IH.
Qed.

(** X26: the test both [handleRegister] and POST /api/auth/register apply
    to an e-mail address accepts exactly the strings of the pattern
    [^[^\s@]+@[^\s@]+\.[^\s@]+$]: three non-empty runs of characters that
    are neither white space nor [@], the first two separated by [@], the
    last two by a dot. *)
Theorem X26_test_email_is_the_pattern (email : string) :
  Server.test_email email = true
  ↔ ∃ a b c,
      list_ascii_of_string email = a ++ "@"%char :: b ++ "."%char :: c
      ∧ a ≠ [] ∧ b ≠ [] ∧ c ≠ []
      ∧ forallb Server.email_char a = true
      ∧ forallb Server.email_char b = true
      ∧ forallb Server.email_char c = true.
Proof.
  unfold Server.test_email. split.
  - destruct (Server.split_at_sign (list_ascii_of_string email)) as [[a d] |] eqn:Es;
      [| done].
    apply split_at_sign_Some in Es as [Es _].
    intros [[[Hlen Ha]%andb_true_iff Hd]%andb_true_iff Hdot]%andb_true_iff.
    destruct d as [| x t]; [done |].
    apply existsb_removelast in Hdot as (p & y & c & -> & Hy & Hc).
    apply Ascii.eqb_eq in Hy as ->.
    exists a, (x :: p), c. split; [done |].
    change (x :: p ++ "."%char :: c) with ((x :: p) ++ "."%char :: c) in Hd.
    rewrite forallb_app in Hd. apply andb_true_iff in Hd as [Hb Hc'].
    simpl in Hc'.
    repeat split; try done. by destruct a.
  - intros (a & b & c & -> & Ha0 & Hb0 & Hc0 & Ha & Hb & Hc).
    rewrite (split_at_sign_app a _ (email_char_not_at a Ha)).
    rewrite Ha, forallb_app, Hb. simpl forallb. rewrite Hc.
    destruct a as [| a1 a]; [done |]. destruct b as [| b1 b]; [done |].
    cbn [length Nat.eqb negb andb app].
    change (Server.email_char ".") with true. cbn [andb].
    apply existsb_removelast. by exists b, "."%char, c.
Qed.
